(** * CreativeMate: the HTTP bridge between the desktop UI and the Python backend

    A shallow embedding of [src/routes/pythonRoutes.ts] (the router that is
    mounted by [src/server/server.ts]) and of the earlier revision of the same
    router that still carries the [/prompt-audio] endpoint.

    Conventions.
    - A JavaScript string is a [string]; every character stands for one
      code unit below 256.
    - A handler is a computation in the monad [M]: it threads the state of one
      request (the Express response, the child process, the two accumulators
      of the JSON endpoints) and may throw.
    - What Node delivers later (stdout chunks, the close code, a spawn error,
      the client going away) is an input: a list of [Event]s that is
      dispatched, in order, to the listeners the handler registered.
    - Requests are multipart forms, as the upload routes expect them: text
      fields and at most one file part.  The console is not modelled; a
      logging statement appears only where evaluating its arguments can
      throw. *)

From Stdlib Require Import ZArith List String Ascii Bool Lia.
From Stdlib Require Import DecimalString.
Import ListNotations.
Local Open Scope string_scope.
Local Open Scope Z_scope.

Set Implicit Arguments.
Set Warnings "-register-all".

(* ================================================================== *)
(** * JavaScript text *)

Module Js.

(** Characters built from their codes. *)
Definition dquote : ascii := ascii_of_nat 34.
Definition backslash : ascii := ascii_of_nat 92.
Definition LF : ascii := ascii_of_nat 10.
Definition CR : ascii := ascii_of_nat 13.

Definition str1 (c : ascii) : string := String c EmptyString.

(** [!s] is true exactly for the empty string. *)
Definition truthy (s : string) : bool :=
  match s with EmptyString => false | String _ _ => true end.

(** [a || b] on strings. *)
Definition or_else (a b : string) : string := if truthy a then a else b.

(** White space and line terminators of [String.prototype.trim], among
    the code units below 256: TAB, LF, VT, FF, CR, SP and NBSP. *)
Definition is_space (c : ascii) : bool :=
  let n := nat_of_ascii c in
  ((9 <=? n) && (n <=? 13) || (n =? 32) || (n =? 160))%nat.

Fixpoint trimStart (s : string) : string :=
  match s with
  | EmptyString => EmptyString
  | String c r => if is_space c then trimStart r else s
  end.

Fixpoint trimEnd (s : string) : string :=
  match s with
  | EmptyString => EmptyString
  | String c r =>
      match trimEnd r with
      | EmptyString => if is_space c then EmptyString else str1 c
      | r' => String c r'
      end
  end.

Definition trim (s : string) : string := trimEnd (trimStart s).

(** Decimal rendering of an integer, as [String(n)] prints it. *)
Definition of_Z (z : Z) : string := NilZero.string_of_int (Z.to_int z).

(** [s] has a line break (LF or CR) in it. *)
Fixpoint has_line_break (s : string) : bool :=
  match s with
  | EmptyString => false
  | String c r =>
      (Ascii.eqb c LF || Ascii.eqb c CR) || has_line_break r
  end.

End Js.

(* ================================================================== *)
(** * JSON values and [JSON.stringify] *)

Module Json.

(** Numbers are the integers: the router builds no others (close codes,
    file sizes). *)
Inductive t : Type :=
| Null
| Bool (b : bool)
| Num (n : Z)
| Str (s : string)
| Arr (l : list t)
| Obj (kvs : list (string * t)).

Definition hex_digit (n : nat) : ascii :=
  ascii_of_nat (if (n <? 10)%nat then 48 + n else 87 + n).

(** [\u00XX] for a control character. *)
Definition u_escape (c : ascii) : string :=
  let n := nat_of_ascii c in
  String Js.backslash
    ("u00" ++ String (hex_digit (n / 16)) (Js.str1 (hex_digit (n mod 16)))).

(** QuoteJSONString, one code unit. *)
Definition escape_char (c : ascii) : string :=
  let n := nat_of_ascii c in
  if (n =? 34)%nat then String Js.backslash (Js.str1 Js.dquote)
  else if (n =? 92)%nat then String Js.backslash (Js.str1 Js.backslash)
  else if (n =? 8)%nat then String Js.backslash "b"
  else if (n =? 9)%nat then String Js.backslash "t"
  else if (n =? 10)%nat then String Js.backslash "n"
  else if (n =? 12)%nat then String Js.backslash "f"
  else if (n =? 13)%nat then String Js.backslash "r"
  else if (n <? 32)%nat then u_escape c
  else Js.str1 c.

Fixpoint escape (s : string) : string :=
  match s with
  | EmptyString => EmptyString
  | String c r => escape_char c ++ escape r
  end.

Definition quote (s : string) : string :=
  String Js.dquote (escape s ++ Js.str1 Js.dquote).

Definition commas (parts : list string) : string := String.concat "," parts.

Fixpoint stringify (v : t) : string :=
  match v with
  | Null => "null"
  | Bool true => "true"
  | Bool false => "false"
  | Num n => Js.of_Z n
  | Str s => quote s
  | Arr l => "[" ++ commas (map stringify l) ++ "]"
  | Obj kvs =>
      "{" ++ commas (map (fun kv => quote (fst kv) ++ ":" ++ stringify (snd kv)) kvs)
          ++ "}"
  end.

(** Property access [v.k] on an object literal the handlers build. *)
Fixpoint field (k : string) (kvs : list (string * t)) : option t :=
  match kvs with
  | [] => None
  | (k', v) :: r => if String.eqb k k' then Some v else field k r
  end.

Definition get (k : string) (v : t) : option t :=
  match v with Obj kvs => field k kvs | _ => None end.

Definition is_integer (v : t) : bool :=
  match v with Num _ => true | _ => false end.

End Json.

(* ================================================================== *)
(** * Buffers *)

Module Buffer.

(** A [Buffer] is the string of its bytes. *)
Definition t := string.

Definition alphabet : string :=
  "ABCDEFGHIJKLMNOPQRSTUVWXYZabcdefghijklmnopqrstuvwxyz0123456789+/".

Definition sextet (n : nat) : ascii :=
  match String.get n alphabet with Some c => c | None => "="%char end.

(** [buf.toString('base64')]. *)
Fixpoint base64 (s : t) : string :=
  match s with
  | EmptyString => EmptyString
  | String a EmptyString =>
      let x := nat_of_ascii a in
      String (sextet (x / 4)) (String (sextet (x mod 4 * 16)) "==")
  | String a (String b EmptyString) =>
      let x := nat_of_ascii a in
      let y := nat_of_ascii b in
      String (sextet (x / 4))
        (String (sextet (x mod 4 * 16 + y / 16))
           (String (sextet (y mod 16 * 4)) "="))
  | String a (String b (String c r)) =>
      let x := nat_of_ascii a in
      let y := nat_of_ascii b in
      let z := nat_of_ascii c in
      String (sextet (x / 4))
        (String (sextet (x mod 4 * 16 + y / 16))
           (String (sextet (y mod 16 * 4 + z / 64))
              (String (sextet (z mod 64)) (base64 r))))
  end.

End Buffer.

(* ================================================================== *)
(** * What a handler can throw *)

Inductive Exn : Type :=
| SyntaxError                          (* JSON.parse on text that is no JSON *)
| TypeError                            (* property read on null *)
| SpawnError (message : string)        (* spawn() throwing synchronously *)
| UnhandledError (message : string)    (* 'error' emitted with no listener *)
| ERR_HTTP_HEADERS_SENT                (* header set after the head went out *)
| ERR_STREAM_WRITE_AFTER_END           (* res.write after res.end *)
| MulterError (code : string)          (* multer's own limits *)
| PlainError (message : string).       (* new Error(message) *)

Definition message_of (e : Exn) : string :=
  match e with
  | SyntaxError => "Unexpected token in JSON"
  | TypeError => "Cannot read properties of null"
  | SpawnError m => m
  | UnhandledError m => m
  | ERR_HTTP_HEADERS_SENT => "Cannot set headers after they are sent to the client"
  | ERR_STREAM_WRITE_AFTER_END => "write after end"
  | MulterError c => c
  | PlainError m => m
  end.

(** The status Express' default error handler answers with: [err.status]
    when the error carries one in 400..599, and 500 otherwise.  None of the
    errors above carries a status. *)
Definition status_of (e : Exn) : Z := 500.

(* ================================================================== *)
(** * The state of one request *)

(** The Express response object. *)
Record Res : Type := mkRes {
  statusCode : Z;
  headers : list (string * string);
  headersSent : bool;
  written : list string;      (* the chunks given to write/send, in order *)
  finished : bool;            (* end() was called *)
  errorPage : option Exn;     (* the framework answered with its error page *)
  json_calls : nat            (* how often res.json was called *)
}.

(** The child process, as the handler drives it. *)
Record Child : Type := mkChild {
  file : string;              (* spawn's command *)
  args : list string;         (* spawn's argument vector *)
  stdin : list string;        (* what was written to its standard input *)
  stdin_ended : bool;         (* stdin.end() was called *)
  kills : nat                 (* calls of kill() *)
}.

Record State : Type := mkState {
  res : Res;
  child : option Child;
  output : string;            (* let output = '' *)
  errorOutput : string        (* let errorOutput = '' *)
}.

(* ================================================================== *)
(** * The handler monad: state and exceptions *)

Inductive Result (A : Type) : Type :=
| Ok (a : A)
| Throw (e : Exn).
Arguments Ok {A} a.
Arguments Throw {A} e.

Definition M (A : Type) : Type := State -> Result A * State.

Definition ret {A} (a : A) : M A := fun s => (Ok a, s).

Definition bind {A B} (c : M A) (k : A -> M B) : M B :=
  fun s =>
    match c s with
    | (Ok a, s') => k a s'
    | (Throw e, s') => (Throw e, s')
    end.

Definition throw {A} (e : Exn) : M A := fun s => (Throw e, s).

(** [try { c } catch (error) { h error }]. *)
Definition try_catch {A} (c : M A) (h : Exn -> M A) : M A :=
  fun s =>
    match c s with
    | (Ok a, s') => (Ok a, s')
    | (Throw e, s') => h e s'
    end.

Definition get_state : M State := fun s => (Ok s, s).

Declare Scope handler_scope.
Delimit Scope handler_scope with handler.
Bind Scope handler_scope with M.
Notation "x <- c ;; k" := (bind c (fun x => k))
  (at level 61, c at next level, right associativity) : handler_scope.
Notation "c ;; k" := (bind c (fun _ => k))
  (at level 61, right associativity) : handler_scope.
Local Open Scope handler_scope.

(* ------------------------------------------------------------------ *)
(** ** The response *)

Definition with_res (f : Res -> Res) : M unit :=
  fun s => (Ok tt, {| res := f (res s); child := child s;
                      output := output s; errorOutput := errorOutput s |}).

Fixpoint header (k : string) (hs : list (string * string)) : option string :=
  match hs with
  | [] => None
  | (k', v) :: r => if String.eqb k k' then Some v else header k r
  end.

Fixpoint set_header (k v : string) (hs : list (string * string))
  : list (string * string) :=
  match hs with
  | [] => [(k, v)]
  | (k', v') :: r =>
      if String.eqb k k' then (k, v) :: r else (k', v') :: set_header k v r
  end.

(** [res.status(code)]. *)
Definition res_status (code : Z) : M unit :=
  with_res (fun r =>
    {| statusCode := code; headers := headers r; headersSent := headersSent r;
       written := written r; finished := finished r; errorPage := errorPage r;
       json_calls := json_calls r |}).

(** [res.setHeader(k, v)]: refused once the head has been sent. *)
Definition res_setHeader (k v : string) : M unit :=
  s <- get_state ;;
  if headersSent (res s) then throw ERR_HTTP_HEADERS_SENT
  else with_res (fun r =>
    {| statusCode := statusCode r; headers := set_header k v (headers r);
       headersSent := false; written := written r; finished := finished r;
       errorPage := errorPage r;
       json_calls := json_calls r |}).

(** [res.write(chunk)]: the first write sends the head. *)
Definition res_write (chunk : string) : M unit :=
  s <- get_state ;;
  if finished (res s) then throw ERR_STREAM_WRITE_AFTER_END
  else with_res (fun r =>
    {| statusCode := statusCode r; headers := headers r; headersSent := true;
       written := written r ++ [chunk]; finished := false;
       errorPage := errorPage r;
       json_calls := json_calls r |}).

(** [res.end()]. *)
Definition res_end : M unit :=
  with_res (fun r =>
    {| statusCode := statusCode r; headers := headers r; headersSent := true;
       written := written r; finished := true; errorPage := errorPage r;
       json_calls := json_calls r |}).

Definition content_type (r : Res) : string :=
  match header "Content-Type" (headers r) with
  | Some t => t
  | None => "application/json"
  end.

(** [res.json(obj)]: the body is [JSON.stringify(obj)]; a Content-Type that is
    already there is kept; the charset is added; the body is sent and the
    response ended.  Setting the header throws once the head has gone out. *)
Definition res_json (obj : Json.t) : M unit :=
  with_res (fun r =>
    {| statusCode := statusCode r; headers := headers r;
       headersSent := headersSent r; written := written r;
       finished := finished r; errorPage := errorPage r;
       json_calls := S (json_calls r) |}) ;;
  s <- get_state ;;
  res_setHeader "Content-Type" (content_type (res s) ++ "; charset=utf-8") ;;
  res_write (Json.stringify obj) ;;
  res_end.

(* ------------------------------------------------------------------ *)
(** ** The Node process the router runs in *)

Record Env : Type := mkEnv {
  isDev : bool;               (* process.env.NODE_ENV === 'development' *)
  win32 : bool;               (* process.platform === 'win32' *)
  cwd : string;               (* process.cwd() *)
  resourcesPath : string;     (* process.resourcesPath *)
  path_join : list string -> string;                    (* path.join(...) *)
  spawn_throws : string -> list string -> option string;
      (* the message spawn(file, args) throws with, when it throws at once *)
  limit_reached_rejects : bool
      (* whether the multipart parser also refuses a file of exactly the
         limit (its 1.x line does, the 0.x line does not) *)
}.

(* ------------------------------------------------------------------ *)
(** ** The child process *)

Definition with_child (f : Child -> Child) : M unit :=
  fun s => (Ok tt, {| res := res s; child := option_map f (child s);
                      output := output s; errorOutput := errorOutput s |}).

(** [spawn(file, args, { stdio: ['pipe','pipe','pipe'] })]. *)
Definition spawn (env : Env) (f : string) (a : list string) : M unit :=
  match spawn_throws env f a with
  | Some m => throw (SpawnError m)
  | None =>
      fun s => (Ok tt,
                {| res := res s;
                   child := Some {| file := f; args := a; stdin := [];
                                    stdin_ended := false; kills := 0 |};
                   output := output s; errorOutput := errorOutput s |})
  end.

(** [pythonProcess.stdin.write(text)]. *)
Definition stdin_write (text : string) : M unit :=
  with_child (fun c =>
    {| file := file c; args := args c; stdin := stdin c ++ [text];
       stdin_ended := stdin_ended c; kills := kills c |}).

(** [pythonProcess.stdin.end()]. *)
Definition stdin_end : M unit :=
  with_child (fun c =>
    {| file := file c; args := args c; stdin := stdin c;
       stdin_ended := true; kills := kills c |}).

(** [pythonProcess.kill()]. *)
Definition kill : M unit :=
  with_child (fun c =>
    {| file := file c; args := args c; stdin := stdin c;
       stdin_ended := stdin_ended c; kills := S (kills c) |}).

(** [output += text] and [errorOutput += text]. *)
Definition append_output (text : string) : M unit :=
  fun s => (Ok tt, {| res := res s; child := child s;
                      output := output s ++ text;
                      errorOutput := errorOutput s |}).

Definition append_errorOutput (text : string) : M unit :=
  fun s => (Ok tt, {| res := res s; child := child s; output := output s;
                      errorOutput := errorOutput s ++ text |}).

(* ------------------------------------------------------------------ *)
(** ** Events and listeners *)

(** What Node reports about one job after the handler has returned. *)
Inductive Event : Type :=
| Stdout (data : string)        (* pythonProcess.stdout 'data', decoded *)
| Stderr (data : string)        (* pythonProcess.stderr 'data', decoded *)
| Close (code : option Z)       (* pythonProcess 'close'; null on a signal *)
| Error (message : string)      (* pythonProcess 'error' *)
| ReqClose.                     (* req 'close': the client went away *)

Record Listeners : Type := mkListeners {
  on_stdout : option (string -> M unit);
  on_stderr : option (string -> M unit);
  on_close : option (option Z -> M unit);
  on_error : option (string -> M unit);
  on_req_close : option (M unit)
}.

Definition no_listeners : Listeners :=
  {| on_stdout := None; on_stderr := None; on_close := None;
     on_error := None; on_req_close := None |}.

(** Emitting one event.  An 'error' nobody listens to is thrown. *)
Definition dispatch (l : Listeners) (ev : Event) : M unit :=
  match ev with
  | Stdout d => match on_stdout l with Some f => f d | None => ret tt end
  | Stderr d => match on_stderr l with Some f => f d | None => ret tt end
  | Close c => match on_close l with Some f => f c | None => ret tt end
  | Error m =>
      match on_error l with Some f => f m | None => throw (UnhandledError m) end
  | ReqClose => match on_req_close l with Some f => f | None => ret tt end
  end.

(** The events of a job in the order Node emits them; an exception that
    leaves a listener is uncaught and ends the run. *)
Fixpoint deliver (l : Listeners) (evs : list Event) : M unit :=
  match evs with
  | [] => ret tt
  | ev :: rest => dispatch l ev ;; deliver l rest
  end.

(* ------------------------------------------------------------------ *)
(** ** Requests and multer *)

(** One file part of a multipart body. *)
Record File : Type := mkFile {
  mimetype : string;
  originalname : string;
  size : Z;                   (* its length in bytes *)
  buffer : Buffer.t
}.

(** The text fields: [None] is a field that is absent or empty.  A field
    that carries JSON comes with what [JSON.parse] makes of it: [Some None]
    when it throws, [Some (Some v)] when it returns [v]. *)
Record Body : Type := mkBody {
  prompt : option string;
  images : option (option Json.t);
  messages : option (option Json.t)
}.

Record Req : Type := mkReq {
  body : Body;
  part : option File          (* the part sent under the route's field name *)
}.

Record Multer : Type := mkMulter {
  fileSize : Z;                               (* limits.fileSize *)
  fileFilter : File -> Result bool            (* cb(err) or cb(null, accept) *)
}.

Definition accept_all (_ : File) : Result bool := Ok true.

(** [multer(opts).single(field)]: the filter sees the part first; then the
    bytes are counted against the limit.  [Ok f] is [req.file]. *)
Definition single (env : Env) (m : Multer) (p : option File)
  : Result (option File) :=
  match p with
  | None => Ok None
  | Some f =>
      match fileFilter m f with
      | Throw e => Throw e
      | Ok false => Ok None
      | Ok true =>
          if fileSize m <? size f then Throw (MulterError "LIMIT_FILE_SIZE")
          else if (size f =? fileSize m) && limit_reached_rejects env
               then Throw (MulterError "LIMIT_FILE_SIZE")
               else Ok (Some f)
      end
  end.

(** Express' default error handler, which answers when a middleware or a
    handler fails and the application registered none of its own: the
    status of the error, its own headers over those already set, and an HTML
    page.  Once the head has gone out it can only end the response. *)
Definition finalhandler (e : Exn) (s : State) : State :=
  let r := res s in
  {| res :=
       if headersSent r
       then {| statusCode := statusCode r; headers := headers r;
               headersSent := true; written := written r; finished := true;
               errorPage := errorPage r; json_calls := json_calls r |}
       else {| statusCode := status_of e;
               headers :=
                 set_header "Content-Type" "text/html; charset=utf-8"
                   (set_header "X-Content-Type-Options" "nosniff"
                      (set_header "Content-Security-Policy" "default-src 'none'"
                         (headers r)));
               headersSent := true; written := []; finished := true;
               errorPage := Some e; json_calls := json_calls r |};
     child := child s; output := output s; errorOutput := errorOutput s |}.

(** [app.use(cors())] and [router.use(cors())]: every response allows any
    origin.  This is the request as it arrives at a route. *)
Definition arrived : State :=
  {| res := {| statusCode := 200;
               headers := [("Access-Control-Allow-Origin", "*")];
               headersSent := false; written := []; finished := false;
               errorPage := None; json_calls := 0 |};
     child := None; output := EmptyString; errorOutput := EmptyString |}.

(** One request from arrival to the last event of its job.  [evs] are the
    events of the job; when the handler returns without having started a
    child there is no job, and nothing is delivered. *)
Definition serve (env : Env) (m : Multer)
    (handler : Body -> option File -> M Listeners)
    (req : Req) (evs : list Event) : Result unit * State :=
  match single env m (part req) with
  | Throw e => (Ok tt, finalhandler e arrived)
  | Ok f =>
      match handler (body req) f arrived with
      | (Throw e, s) => (Ok tt, finalhandler e s)
      | (Ok l, s) =>
          match child s with
          | Some _ => deliver l evs s
          | None => (Ok tt, s)
          end
      end
  end.

(** Server-sent-event framing: [`data: ${JSON.stringify(obj)}\n\n`]. *)
Definition sse (obj : Json.t) : string :=
  "data: " ++ Json.stringify obj ++ String Js.LF (Js.str1 Js.LF).

(** [code] as a JSON value: a number, or null. *)
Definition json_code (code : option Z) : Json.t :=
  match code with Some n => Json.Num n | None => Json.Null end.

(** [v.length] on a parsed value: reading it off null throws, a value with
    no such property gives undefined ([None]). *)
Definition length_of (v : Json.t) : Result (option Json.t) :=
  match v with
  | Json.Null => Throw TypeError
  | Json.Arr l => Ok (Some (Json.Num (Z.of_nat (List.length l))))
  | Json.Str s => Ok (Some (Json.Num (Z.of_nat (String.length s))))
  | Json.Obj kvs => Ok (Json.field "length" kvs)
  | _ => Ok None
  end.

(** [len === 0]. *)
Definition is_0 (len : option Json.t) : bool :=
  match len with Some (Json.Num 0) => true | _ => false end.

(** [code === 0]. *)
Definition code_is_0 (code : option Z) : bool :=
  match code with Some 0 => true | _ => false end.

Definition lift {A} (r : Result A) : M A := fun s => (r, s).

(** [req.body.f ? JSON.parse(req.body.f) : []]. *)
Definition parse_or_empty (f : option (option Json.t)) : M Json.t :=
  match f with
  | None => ret (Json.Arr [])
  | Some None => throw SyntaxError
  | Some (Some v) => ret v
  end.

(** [req.body.prompt || '']. *)
Definition prompt_or_empty (p : option string) : string :=
  match p with Some s => s | None => EmptyString end.

(* ================================================================== *)
(** * [Date]: the time value and [toISOString] *)

Module Date.

(** A time value: milliseconds since 1970-01-01T00:00:00Z. *)
Definition t := Z.

Definition msPerDay : Z := 86400000.

Definition Day (tv : t) : Z := tv / msPerDay.
Definition TimeWithinDay (tv : t) : Z := tv mod msPerDay.

Definition HourFromTime (tv : t) : Z := TimeWithinDay tv / 3600000.
Definition MinFromTime (tv : t) : Z := TimeWithinDay tv / 60000 mod 60.
Definition SecFromTime (tv : t) : Z := TimeWithinDay tv / 1000 mod 60.
Definition msFromTime (tv : t) : Z := TimeWithinDay tv mod 1000.

(** The proleptic Gregorian calendar, on years that start in March and in
    eras of 400 years (146097 days). *)

(** The year of the era (0..399) that the day [doe] of the era falls in. *)
Definition year_of_era (doe : Z) : Z :=
  (doe - doe / 1460 + doe / 36524 - doe / 146096) / 365.

(** The first day of the year [yoe] of an era. *)
Definition year_start (yoe : Z) : Z := 365 * yoe + yoe / 4 - yoe / 100.

(** The month counted from March (0..11) and the day of the month of the
    day [doy] of a year. *)
Definition month_day (doy : Z) : Z * Z :=
  let mp := (5 * doy + 2) / 153 in
  (mp, doy - (153 * mp + 2) / 5 + 1).

Definition within_era (doe : Z) : Z * Z * Z :=
  let yoe := year_of_era doe in
  let '(mp, d) := month_day (doe - year_start yoe) in
  (yoe, mp, d).

Definition march_based (day : Z) : Z * Z * Z :=
  let z := day + 719468 in
  let '(yoe, mp, d) := within_era (z mod 146097) in
  (yoe + z / 146097 * 400, mp, d).

(** (year, month 1..12, day 1..31) of a day number. *)
Definition civil (day : Z) : Z * Z * Z :=
  let '(y, mp, d) := march_based day in
  if mp <? 10 then (y, mp + 3, d) else (y + 1, mp - 9, d).

Definition YearFromTime (tv : t) : Z := fst (fst (civil (Day tv))).
Definition MonthFromTime (tv : t) : Z := snd (fst (civil (Day tv))).
Definition DateFromTime (tv : t) : Z := snd (civil (Day tv)).

Definition digit (n : Z) : ascii := ascii_of_nat (48 + Z.to_nat (n mod 10)).

(** The last [w] decimal digits of [n]. *)
Fixpoint pad (w : nat) (n : Z) : string :=
  match w with
  | O => EmptyString
  | S w' => pad w' (n / 10) ++ Js.str1 (digit n)
  end.

(** Four digits for the years 0..9999, a sign and six digits otherwise. *)
Definition year_text (y : Z) : string :=
  if (0 <=? y) && (y <=? 9999) then pad 4 y
  else if y <? 0 then String "-"%char (pad 6 (- y))
  else String "+"%char (pad 6 y).

(** [new Date(tv).toISOString()]: YYYY-MM-DDTHH:mm:ss.sssZ. *)
Definition toISOString (tv : t) : string :=
  year_text (YearFromTime tv) ++ "-" ++ pad 2 (MonthFromTime tv) ++ "-"
    ++ pad 2 (DateFromTime tv) ++ "T" ++ pad 2 (HourFromTime tv) ++ ":"
    ++ pad 2 (MinFromTime tv) ++ ":" ++ pad 2 (SecFromTime tv) ++ "."
    ++ pad 3 (msFromTime tv) ++ "Z".

(** [a <= b] on strings, as JavaScript compares them: code unit by code
    unit. *)
Definition le (a b : string) : Prop := String.compare a b <> Gt.

(** The first and the last time value of the years 0000..9999. *)
Definition first_4digit : t := -62167219200000.
Definition last_4digit : t := 253402300799999.

End Date.

(** [!promptInput && images.length === 0 && !audioBuffer]. *)
Definition nothing_to_do (promptInput : string) (images : Json.t)
    (audioBuffer : option Buffer.t) : M bool :=
  if Js.truthy promptInput then ret false
  else len <- lift (length_of images) ;;
       ret (is_0 len && match audioBuffer with
                        | Some _ => false
                        | None => true
                        end).

(** The events of a stream. *)
Definition chunk_event (content : string) : Json.t :=
  Json.Obj [("type", Json.Str "chunk"); ("content", Json.Str content)].

Definition complete_event (code : option Z) : Json.t :=
  Json.Obj [("type", Json.Str "complete"); ("code", json_code code)].

Definition error_event (message : string) : Json.t :=
  Json.Obj [("type", Json.Str "error"); ("content", Json.Str message)].

(* ================================================================== *)
(** * The router: [src/routes/pythonRoutes.ts] *)

Module Routes.
Section WithEnv.

Variable env : Env.

Definition PYTHON_VENV_PATH : string :=
  if isDev env
  then path_join env [cwd env; "venv_creativemate"]
  else path_join env [resourcesPath env; "venv_creativemate"].

Definition PYTHON_EXECUTABLE : string :=
  if win32 env
  then path_join env [PYTHON_VENV_PATH; "Scripts"; "python.exe"]
  else path_join env [PYTHON_VENV_PATH; "bin"; "python3"].

Definition PYTHON_SCRIPT_PATH : string :=
  if isDev env
  then path_join env [cwd env; "src"; "python"; "llmUtils.py"]
  else path_join env [resourcesPath env; "src"; "python"; "llmUtils.py"].

Definition upload : Multer :=
  {| fileSize := 10 * 1024 * 1024; fileFilter := accept_all |}.

Definition documentUpload : Multer :=
  {| fileSize := 20 * 1024 * 1024;
     fileFilter := fun file =>
       if String.eqb (mimetype file) "application/pdf" then Ok true
       else Throw (PlainError "Only PDF files are allowed") |}.

Definition audioUpload : Multer :=
  {| fileSize := 10 * 1024 * 1024; fileFilter := accept_all |}.

(** [router.get('/')]. *)
Definition get_root : M unit :=
  res_json (Json.Obj
    [("message", Json.Str "LLM Chat API Server");
     ("status", Json.Str "running");
     ("endpoints", Json.Obj [("prompt", Json.Str "POST /prompt");
                             ("health", Json.Str "GET /health")])]).

(** The job payload of [/prompt]. *)
Definition prompt_payload (promptInput : string) (images messages : Json.t)
    (audioBuffer : option Buffer.t) : Json.t :=
  Json.Obj
    [("prompt", Json.Str promptInput);
     ("images", images);
     ("messages", messages);
     ("audioBuffer", match audioBuffer with
                     | Some buf => Json.Str (Buffer.base64 buf)
                     | None => Json.Null
                     end)].

(** The listeners of [/prompt].  The stdout chunk goes out as it is (the
    framed write is commented out in the source); the listeners for the
    client going away and for 'error' are commented out as well. *)
Definition prompt_listeners : Listeners :=
  {| on_stdout := Some (fun data => res_write data);
     on_stderr := Some (fun _ => ret tt);
     on_close := Some (fun code =>
       res_write (sse (complete_event code)) ;;
       res_end ;;
       kill);
     on_error := None;
     on_req_close := None |}.

(** [router.post('/prompt', upload.single('audio'), ...)]. *)
Definition post_prompt (b : Body) (f : option File) : M Listeners :=
  let promptInput := prompt_or_empty (prompt b) in
  images <- parse_or_empty (images b) ;;
  messages <- parse_or_empty (messages b) ;;
  let audioBuffer := option_map buffer f in
  (* console.log('Received images:', images.length), and the same for the
     messages *)
  _ <- lift (length_of images) ;;
  _ <- lift (length_of messages) ;;
  missing <- nothing_to_do promptInput images audioBuffer ;;
  if missing : bool then
    res_status 400 ;;
    res_json (Json.Obj
      [("error", Json.Str "Prompt, images, or audio are required")]) ;;
    ret no_listeners
  else
    res_setHeader "Content-Type" "text/event-stream" ;;
    res_setHeader "Cache-Control" "no-cache" ;;
    res_setHeader "Connection" "keep-alive" ;;
    res_setHeader "Access-Control-Allow-Origin" "*" ;;
    let inputData := prompt_payload promptInput images messages audioBuffer in
    let userInput := Json.stringify inputData in
    try_catch
      (spawn env PYTHON_EXECUTABLE [PYTHON_SCRIPT_PATH] ;;
       stdin_write userInput ;;
       stdin_end ;;
       ret prompt_listeners)
      (fun _ =>
         res_status 500 ;;
         res_json (Json.Obj [("error", Json.Str "Failed to process prompt")]) ;;
         ret no_listeners).

(** The listeners of [/transcribe-audio]. *)
Definition transcribe_listeners : Listeners :=
  {| on_stdout := Some append_output;
     on_stderr := Some append_errorOutput;
     on_close := Some (fun code =>
       s <- get_state ;;
       if code_is_0 code then
         res_json (Json.Obj
           [("success", Json.Bool true);
            ("transcribedText", Json.Str (Js.trim (output s)))])
       else
         res_status 500 ;;
         res_json (Json.Obj
           [("success", Json.Bool false);
            ("error", Json.Str "Failed to transcribe audio");
            ("details", Json.Str (Js.or_else (errorOutput s) (output s)))]));
     on_error := Some (fun message =>
       res_status 500 ;;
       res_json (Json.Obj
         [("success", Json.Bool false);
          ("error", Json.Str "Failed to start audio transcription");
          ("details", Json.Str message)]));
     on_req_close := None |}.

(** [router.post('/transcribe-audio', audioUpload.single('audio'), ...)]. *)
Definition post_transcribe_audio (b : Body) (f : option File)
  : M Listeners :=
  try_catch
    (match f with
     | None =>
         res_status 400 ;;
         res_json (Json.Obj [("error", Json.Str "No audio file provided")]) ;;
         ret no_listeners
     | Some file =>
         let audioBuffer := buffer file in
         let inputData := Json.Obj
           [("audio_to_transcribe", Json.Str (Buffer.base64 audioBuffer))] in
         let userInput := Json.stringify inputData in
         spawn env "python3" [PYTHON_SCRIPT_PATH] ;;
         stdin_write userInput ;;
         stdin_end ;;
         ret transcribe_listeners
     end)
    (fun error =>
       res_status 500 ;;
       res_json (Json.Obj
         [("error", Json.Str "Failed to process audio transcription");
          ("details", Json.Str (message_of error))]) ;;
       ret no_listeners).

(** The listeners of [/upload-document]. *)
Definition upload_listeners (originalName : string) (fileSize : Z)
  : Listeners :=
  {| on_stdout := Some append_output;
     on_stderr := Some append_errorOutput;
     on_close := Some (fun code =>
       s <- get_state ;;
       if code_is_0 code then
         res_json (Json.Obj
           [("success", Json.Bool true);
            ("message", Json.Str
               "Document processed and added to knowledge base successfully");
            ("filename", Json.Str originalName);
            ("size", Json.Num fileSize);
            ("output", Json.Str (Js.trim (output s)))])
       else
         res_status 500 ;;
         res_json (Json.Obj
           [("success", Json.Bool false);
            ("error", Json.Str "Failed to process document for RAG");
            ("details", Json.Str (Js.or_else (errorOutput s) (output s)));
            ("filename", Json.Str originalName)]));
     on_error := Some (fun message =>
       res_status 500 ;;
       res_json (Json.Obj
         [("success", Json.Bool false);
          ("error", Json.Str "Failed to start document processing");
          ("details", Json.Str message)]));
     on_req_close := None |}.

(** [router.post('/upload-document', documentUpload.single('document'), ...)]. *)
Definition post_upload_document (b : Body) (f : option File)
  : M Listeners :=
  try_catch
    (match f with
     | None =>
         res_status 400 ;;
         res_json (Json.Obj [("error", Json.Str "No document file provided")]) ;;
         ret no_listeners
     | Some file =>
         let documentBuffer := buffer file in
         let originalName := originalname file in
         let fileSize := size file in
         let documentBase64 := Buffer.base64 documentBuffer in
         let inputData := Json.Obj
           [("document_to_ingest",
             Json.Obj [("content", Json.Str documentBase64);
                       ("filename", Json.Str originalName);
                       ("size", Json.Num fileSize)])] in
         let userInput := Json.stringify inputData in
         spawn env "python3" [PYTHON_SCRIPT_PATH] ;;
         stdin_write userInput ;;
         stdin_end ;;
         ret (upload_listeners originalName fileSize)
     end)
    (fun error =>
       res_status 500 ;;
       res_json (Json.Obj
         [("error", Json.Str "Failed to process document upload");
          ("details", Json.Str (message_of error))]) ;;
       ret no_listeners).

(** [router.get('/health')]; [now] is what [new Date()] reads. *)
Definition get_health (now : Date.t) : M unit :=
  res_json (Json.Obj [("status", Json.Str "OK");
                      ("timestamp", Json.Str (Date.toISOString now))]).

(** The endpoints that start a child process. *)
Inductive Endpoint : Type := Prompt | TranscribeAudio | UploadDocument.

Definition middleware (ep : Endpoint) : Multer :=
  match ep with
  | Prompt => upload
  | TranscribeAudio => audioUpload
  | UploadDocument => documentUpload
  end.

Definition handler (ep : Endpoint) : Body -> option File -> M Listeners :=
  match ep with
  | Prompt => post_prompt
  | TranscribeAudio => post_transcribe_audio
  | UploadDocument => post_upload_document
  end.

(** A request to [ep], followed by the events of its job. *)
Definition run (ep : Endpoint) (req : Req) (evs : list Event)
  : Result unit * State :=
  serve env (middleware ep) (handler ep) req evs.

End WithEnv.
End Routes.

(* ================================================================== *)
(** * The earlier revision of the router, with [/prompt-audio] *)

Module Earlier.
Section WithEnv.

Variable env : Env.

Definition PYTHON_SCRIPT_PATH : string :=
  path_join env [cwd env; "src"; "python"; "llmUtils.py"].

Definition upload : Multer :=
  {| fileSize := 10 * 1024 * 1024; fileFilter := accept_all |}.

(** [documentUpload] and [/upload-document] are those of the router, word for
    word, and are not repeated here. *)

(** The listeners of [/prompt]: every stdout chunk is framed as an event. *)
Definition prompt_listeners : Listeners :=
  {| on_stdout := Some (fun data => res_write (sse (chunk_event data)));
     on_stderr := Some (fun _ => ret tt);
     on_close := Some (fun code =>
       res_write (sse (complete_event code)) ;;
       res_end ;;
       kill);
     on_error := None;
     on_req_close := None |}.

(** [router.post('/prompt', upload.single('audio'), ...)]. *)
Definition post_prompt (b : Body) (f : option File) : M Listeners :=
  let promptInput := prompt_or_empty (prompt b) in
  images <- parse_or_empty (images b) ;;
  messages <- parse_or_empty (messages b) ;;
  let audioBuffer := option_map buffer f in
  missing <- nothing_to_do promptInput images audioBuffer ;;
  if missing : bool then
    res_status 400 ;;
    res_json (Json.Obj
      [("error", Json.Str "Prompt, images, or audio are required")]) ;;
    ret no_listeners
  else
    res_setHeader "Content-Type" "text/event-stream" ;;
    res_setHeader "Cache-Control" "no-cache" ;;
    res_setHeader "Connection" "keep-alive" ;;
    res_setHeader "Access-Control-Allow-Origin" "*" ;;
    let inputData :=
      Routes.prompt_payload promptInput images messages audioBuffer in
    let userInput := Json.stringify inputData in
    try_catch
      (spawn env "python3" [PYTHON_SCRIPT_PATH] ;;
       stdin_write userInput ;;
       stdin_end ;;
       ret prompt_listeners)
      (fun _ =>
         res_status 500 ;;
         res_json (Json.Obj [("error", Json.Str "Failed to process prompt")]) ;;
         ret no_listeners).

(** [text.replace(/"/g, '\\"')]: a backslash before every double quote. *)
Fixpoint escape_quotes (text : string) : string :=
  match text with
  | EmptyString => EmptyString
  | String c r =>
      if Ascii.eqb c Js.dquote
      then String Js.backslash (String Js.dquote (escape_quotes r))
      else String c (escape_quotes r)
  end.

(** The listeners of [/prompt-audio]. *)
Definition prompt_audio_listeners : Listeners :=
  {| on_stdout := Some (fun data => res_write (sse (chunk_event data)));
     on_stderr := Some (fun _ => ret tt);
     on_close := Some (fun code =>
       res_write (sse (complete_event code)) ;;
       res_end);
     on_error := Some (fun message =>
       res_write (sse (error_event message)) ;;
       res_end);
     on_req_close := Some kill |}.

(** [router.post('/prompt-audio', upload.single('audio'), ...)]: the payload
    travels in the argument vector. *)
Definition post_prompt_audio (b : Body) (f : option File) : M Listeners :=
  let promptInput := prompt_or_empty (prompt b) in
  images <- parse_or_empty (images b) ;;
  messages <- parse_or_empty (messages b) ;;
  let audioBuffer := option_map buffer f in
  missing <- nothing_to_do promptInput images audioBuffer ;;
  if missing : bool then
    res_status 400 ;;
    res_json (Json.Obj
      [("error", Json.Str "Prompt, images, or audio are required")]) ;;
    ret no_listeners
  else
    res_setHeader "Content-Type" "text/event-stream" ;;
    res_setHeader "Cache-Control" "no-cache" ;;
    res_setHeader "Connection" "keep-alive" ;;
    res_setHeader "Access-Control-Allow-Origin" "*" ;;
    let inputData := Json.Obj
      [("prompt", Json.Str promptInput);
       ("images", images);
       ("messages", messages);
       ("audio", match audioBuffer with
                 | Some buf => Json.Str (Buffer.base64 buf)
                 | None => Json.Null
                 end)] in
    let userInput := escape_quotes (Json.stringify inputData) in
    try_catch
      (spawn env "python3" [PYTHON_SCRIPT_PATH; "'" ++ userInput ++ "'"] ;;
       ret prompt_audio_listeners)
      (fun _ =>
         res_status 500 ;;
         res_json (Json.Obj
           [("error", Json.Str "Failed to process audio prompt")]) ;;
         ret no_listeners).

End WithEnv.
End Earlier.

(* ================================================================== *)
(** * Traces and observations *)

(** The output events of a child: its stdout and stderr chunks. *)
Definition is_output (ev : Event) : bool :=
  match ev with Stdout _ | Stderr _ => true | _ => false end.

(** Output events, and the client going away. *)
Definition is_output_or_leave (ev : Event) : bool :=
  match ev with Stdout _ | Stderr _ | ReqClose => true | _ => false end.

(** The stdout chunks of a trace, in emission order. *)
Fixpoint stdout_chunks (evs : list Event) : list string :=
  match evs with
  | [] => []
  | Stdout d :: rest => d :: stdout_chunks rest
  | _ :: rest => stdout_chunks rest
  end.

(** The stderr chunks of a trace, in emission order. *)
Fixpoint stderr_chunks (evs : list Event) : list string :=
  match evs with
  | [] => []
  | Stderr d :: rest => d :: stderr_chunks rest
  | _ :: rest => stderr_chunks rest
  end.

(** All chunks in one string. *)
Fixpoint joined (chunks : list string) : string :=
  match chunks with
  | [] => EmptyString
  | d :: rest => d ++ joined rest
  end.

(** What [JSON.parse] made of a field; an absent field stands for []. *)
Definition parsed (f : option (option Json.t)) : option Json.t :=
  match f with
  | None => Some (Json.Arr [])
  | Some None => None
  | Some (Some v) => Some v
  end.

Definition parsed_or_empty (f : option (option Json.t)) : Json.t :=
  match parsed f with Some v => v | None => Json.Arr [] end.

Definition is_some {A} (o : option A) : bool :=
  match o with Some _ => true | None => false end.

(** The request gets past the checks of [/prompt]: both JSON fields parse,
    neither is null, and a prompt, an image or an audio file is there. *)
Definition passes_validation (b : Body) (f : option File) : bool :=
  match parsed (images b), parsed (messages b) with
  | Some i, Some m =>
      match length_of i, length_of m with
      | Ok len, Ok _ =>
          Js.truthy (prompt_or_empty (prompt b)) || negb (is_0 len) || is_some f
      | _, _ => false
      end
  | _, _ => false
  end.

(** The prompt is empty, the images array is empty, no audio is attached. *)
Definition nothing_sent (b : Body) (f : option File) : bool :=
  negb (Js.truthy (prompt_or_empty (prompt b)))
  && match parsed (images b) with
     | Some (Json.Arr []) => true
     | _ => false
     end
  && negb (is_some f).

(** The messages field is absent, or JSON that is not null. *)
Definition messages_readable (b : Body) : bool :=
  match parsed (messages b) with
  | Some Json.Null => false
  | Some _ => true
  | None => false
  end.

(** The job payload [/prompt] builds from a request. *)
Definition payload_of (b : Body) (f : option File) : Json.t :=
  Routes.prompt_payload (prompt_or_empty (prompt b))
    (parsed_or_empty (images b)) (parsed_or_empty (messages b))
    (option_map buffer f).

Definition set_res (r : Res) (s : State) : State :=
  {| res := r; child := child s; output := output s;
     errorOutput := errorOutput s |}.

(** The response after the writes [ws]. *)
Definition wrote (ws : list string) (r : Res) : Res :=
  {| statusCode := statusCode r; headers := headers r;
     headersSent := match ws with [] => headersSent r | _ => true end;
     written := written r ++ ws; finished := finished r;
     errorPage := errorPage r; json_calls := json_calls r |}.

Definition sse_headers : list (string * string) :=
  [("Access-Control-Allow-Origin", "*");
   ("Content-Type", "text/event-stream");
   ("Cache-Control", "no-cache");
   ("Connection", "keep-alive")].

(** The state a streaming handler leaves behind when it returns: stream
    headers set, nothing sent, the child started and fed. *)
Definition streaming (c : Child) : State :=
  {| res := {| statusCode := 200; headers := sse_headers;
               headersSent := false; written := []; finished := false;
               errorPage := None; json_calls := 0 |};
     child := Some c; output := EmptyString; errorOutput := EmptyString |}.

(** The state a JSON handler leaves behind when it returns. *)
Definition collecting (c : Child) : State :=
  {| res := res arrived; child := Some c; output := EmptyString;
     errorOutput := EmptyString |}.

(** A child that was given [payload] on its standard input. *)
Definition fed (f : string) (a : list string) (payload : string) : Child :=
  {| file := f; args := a; stdin := [payload]; stdin_ended := true;
     kills := 0 |}.

(** The response [res.status(code).json(obj)] makes of a request that has
    just arrived. *)
Definition json_response (code : Z) (obj : Json.t) : Res :=
  {| statusCode := code;
     headers := [("Access-Control-Allow-Origin", "*");
                 ("Content-Type", "application/json; charset=utf-8")];
     headersSent := true; written := [Json.stringify obj]; finished := true;
     errorPage := None; json_calls := 1 |}.

(** The response is a stream of framed events: one chunk event per entry of
    [chunks], in order, then one complete event with [code], then the end. *)
Definition event_stream (chunks : list string) (code : option Z) (r : Res)
  : Prop :=
  written r = (map (fun d => sse (chunk_event d)) chunks
                 ++ [sse (complete_event code)])%list
  /\ finished r = true.

(** The attachment breaks a rule of the endpoint's upload middleware. *)
Definition violates (ep : Routes.Endpoint) (p : File) : bool :=
  match ep with
  | Routes.UploadDocument =>
      negb (String.eqb (mimetype p) "application/pdf")
      || (20 * 1024 * 1024 <? size p)
  | _ => 10 * 1024 * 1024 <? size p
  end.

(** Reading one server-sent message back: the text of its single data
    line, when [w] is "data: ", one line, and the blank line that ends the
    message. *)
Fixpoint strip_prefix (p s : string) : option string :=
  match p, s with
  | EmptyString, _ => Some s
  | String a p', String b s' =>
      if Ascii.eqb a b then strip_prefix p' s' else None
  | _, EmptyString => None
  end.

Fixpoint first_line (s : string) : string * string :=
  match s with
  | EmptyString => (EmptyString, EmptyString)
  | String c r =>
      if Ascii.eqb c Js.LF || Ascii.eqb c Js.CR then (EmptyString, s)
      else let (line, tail) := first_line r in (String c line, tail)
  end.

Definition unframe (w : string) : option string :=
  match strip_prefix "data: " w with
  | Some rest =>
      let (line, tail) := first_line rest in
      if String.eqb tail (String Js.LF (Js.str1 Js.LF)) then Some line
      else None
  | None => None
  end.

(** A child that was sent [n] signals. *)
Definition signalled (n : nat) (c : Child) : Child :=
  {| file := file c; args := args c; stdin := stdin c;
     stdin_ended := stdin_ended c; kills := n |}.

(** The state of a streaming job: the writes [ws] went out; [done] says
    whether the response was ended. *)
Definition stream_state (ws : list string) (done : bool) (c : Child)
  : State :=
  {| res := {| statusCode := 200; headers := sse_headers;
               headersSent := match ws with [] => done | _ => true end;
               written := ws; finished := done; errorPage := None;
               json_calls := 0 |};
     child := Some c; output := EmptyString; errorOutput := EmptyString |}.

(** The child [/prompt] starts for a request, in the router and in its
    earlier revision. *)
Definition prompt_child (env : Env) (b : Body) (f : option File) : Child :=
  fed (Routes.PYTHON_EXECUTABLE env) [Routes.PYTHON_SCRIPT_PATH env]
      (Json.stringify (payload_of b f)).

Definition earlier_prompt_child (env : Env) (b : Body) (f : option File)
  : Child :=
  fed "python3" [Earlier.PYTHON_SCRIPT_PATH env]
      (Json.stringify (payload_of b f)).

(* ------------------------------------------------------------------ *)
(** ** Comparing timestamps *)

(** A timestamp as a row of fields: width, value, and the text after it. *)
Definition Field : Type := (nat * Z * string)%type.

Fixpoint render (fs : list Field) : string :=
  match fs with
  | [] => EmptyString
  | (w, v, sep) :: rest => Date.pad w v ++ sep ++ render rest
  end.

Definition fields (tv : Date.t) : list Field :=
  [(4%nat, Date.YearFromTime tv, "-");
   (2%nat, Date.MonthFromTime tv, "-");
   (2%nat, Date.DateFromTime tv, "T");
   (2%nat, Date.HourFromTime tv, ":");
   (2%nat, Date.MinFromTime tv, ":");
   (2%nat, Date.SecFromTime tv, ".");
   (3%nat, Date.msFromTime tv, "Z")].

(** Two rows of the same shape, compared value by value. *)
Fixpoint lex_compare (a b : list Field) : comparison :=
  match a, b with
  | (_, x, _) :: a', (_, y, _) :: b' =>
      match x ?= y with
      | Eq => lex_compare a' b'
      | c => c
      end
  | _, _ => Eq
  end.

(** Same widths and separators, and every value fits its width. *)
Fixpoint same_shape (a b : list Field) : Prop :=
  match a, b with
  | [], [] => True
  | (w, x, sep) :: a', (w', y, sep') :: b' =>
      w = w' /\ sep = sep'
      /\ 0 <= x < 10 ^ Z.of_nat w /\ 0 <= y < 10 ^ Z.of_nat w
      /\ same_shape a' b'
  | _, _ => False
  end.

Definition lex3_lt (a b : Z * Z * Z) : bool :=
  let '(y1, m1, d1) := a in
  let '(y2, m2, d2) := b in
  (y1 <? y2) || ((y1 =? y2) && ((m1 <? m2) || ((m1 =? m2) && (d1 <? d2)))).

Definition lex3_le (a b : Z * Z * Z) : Prop :=
  lex3_lt a b = true \/ a = b.

Definition in_range (a : Z * Z * Z) : bool :=
  let '(y, m, d) := a in
  (0 <=? y) && (y <=? 399) && (0 <=? m) && (m <=? 11)
  && (1 <=? d) && (d <=? 31).

(** The years [y .. y + n - 1] of an era: the first and the last day of
    each give the year back. *)
Fixpoint years_ok (n : nat) (y : Z) : bool :=
  match n with
  | O => true
  | S n' =>
      (Date.year_of_era (Date.year_start y) =? y)
      && (Date.year_of_era (Date.year_start (y + 1) - 1) =? y)
      && years_ok n' (y + 1)
  end.

(** The day [doy] of a year has a month and a day in range, and comes
    before the next day of the year. *)
Definition day_ok (doy : Z) : bool :=
  let '(m, d) := Date.month_day doy in
  let '(m', d') := Date.month_day (doy + 1) in
  (0 <=? m) && (m <=? 11) && (1 <=? d) && (d <=? 31)
  && ((m <? m') || ((m =? m') && (d <? d'))).

Fixpoint days_ok (n : nat) (doy : Z) : bool :=
  match n with
  | O => true
  | S n' => day_ok doy && days_ok n' (doy + 1)
  end.

(* ------------------------------------------------------------------ *)
(** ** Sample inputs *)

Module Sample.

(** A development checkout on a POSIX system; [path.join] of segments that
    are already normalized. *)
Definition posix : Env :=
  {| isDev := true; win32 := false; cwd := "/app";
     resourcesPath := "/app/resources";
     path_join := String.concat "/";
     spawn_throws := fun _ _ => None;
     limit_reached_rejects := false |}.

(** The same system when it cannot make another process: [spawn] throws
    before it returns. *)
Definition cannot_spawn : Env :=
  {| isDev := true; win32 := false; cwd := "/app";
     resourcesPath := "/app/resources";
     path_join := String.concat "/";
     spawn_throws := fun _ _ => Some "spawn ENOMEM";
     limit_reached_rejects := false |}.

Definition no_fields : Body :=
  {| prompt := None; images := None; messages := None |}.

Definition hi : Req :=
  {| body := {| prompt := Some "hi"; images := None; messages := None |};
     part := None |}.

Definition empty : Req := {| body := no_fields; part := None |}.

(** Nothing to do, and a messages field that is no JSON. *)
Definition bad_messages : Req :=
  {| body := {| prompt := None; images := None; messages := Some None |};
     part := None |}.

Definition wav : File :=
  {| mimetype := "audio/wav"; originalname := "a.wav"; size := 3;
     buffer := "RIF" |}.

Definition pdf : File :=
  {| mimetype := "application/pdf"; originalname := "x.pdf"; size := 4;
     buffer := "%PDF" |}.

Definition txt : File :=
  {| mimetype := "text/plain"; originalname := "notes.txt"; size := 2;
     buffer := "hi" |}.

Definition with_file (p : File) : Req :=
  {| body := no_fields; part := Some p |}.

End Sample.


From Stdlib Require Import ZifyNat.

(* ================================================================== *)
(** * More observations on the routers *)

(** A trace without its stderr chunks. *)
Fixpoint no_stderr (evs : list Event) : list Event :=
  match evs with
  | [] => []
  | Stderr _ :: rest => no_stderr rest
  | ev :: rest => ev :: no_stderr rest
  end.

(** Both JSON fields are absent or parse to a value other than null. *)
Definition fields_readable (b : Body) : bool :=
  match parsed (images b), parsed (messages b) with
  | Some Json.Null, _ | _, Some Json.Null => false
  | Some _, Some _ => true
  | _, _ => false
  end.

(** What the check of [/prompt] tests, on a request whose fields are
    readable: no prompt, images of length 0, no file. *)
Definition nothing_given (b : Body) (f : option File) : bool :=
  negb (Js.truthy (prompt_or_empty (prompt b)))
  && match length_of (parsed_or_empty (images b)) with
     | Ok len => is_0 len
     | Throw _ => false
     end
  && negb (is_some f).

(** The characters of base64 text. *)
Definition is_base64_char (c : ascii) : bool :=
  let n := nat_of_ascii c in
  ((65 <=? n) && (n <=? 90) || (97 <=? n) && (n <=? 122)
   || (48 <=? n) && (n <=? 57) || (n =? 43) || (n =? 47) || (n =? 61))%nat.

Fixpoint all_chars (p : ascii -> bool) (s : string) : bool :=
  match s with
  | EmptyString => true
  | String c r => p c && all_chars p r
  end.

(** Taking the backslash before every double quote away again. *)
Fixpoint unescape_quotes (text : string) : string :=
  match text with
  | EmptyString => EmptyString
  | String c r =>
      match r with
      | String c' r' =>
          if Ascii.eqb c Js.backslash && Ascii.eqb c' Js.dquote
          then String c' (unescape_quotes r')
          else String c (unescape_quotes r)
      | EmptyString => String c EmptyString
      end
  end.

(** A double quote with no backslash right before it. *)
Fixpoint has_bare_quote (prev_backslash : bool) (text : string) : bool :=
  match text with
  | EmptyString => false
  | String c r =>
      (Ascii.eqb c Js.dquote && negb prev_backslash)
      || has_bare_quote (Ascii.eqb c Js.backslash) r
  end.

(** The place of a character in an alphabet. *)
Fixpoint index_in (c : ascii) (alphabet : string) : option nat :=
  match alphabet with
  | EmptyString => None
  | String a r =>
      if Ascii.eqb c a then Some 0%nat else option_map S (index_in c r)
  end.

Definition sextet_value (c : ascii) : option nat :=
  index_in c Buffer.alphabet.

Definition is_pad (c : ascii) : bool := Ascii.eqb c "="%char.

(** Reading padded base64 text back into bytes, four characters at a time,
    as the receiver of a payload does. *)
Fixpoint decode_base64 (text : string) : option Buffer.t :=
  match text with
  | EmptyString => Some EmptyString
  | String a (String b (String c (String d r))) =>
      match sextet_value a, sextet_value b with
      | Some p, Some q =>
          let x := ascii_of_nat (p * 4 + q / 16) in
          if is_pad c then
            if is_pad d then
              match r with EmptyString => Some (Js.str1 x) | _ => None end
            else None
          else
            match sextet_value c with
            | Some u =>
                let y := ascii_of_nat (q mod 16 * 16 + u / 4) in
                if is_pad d then
                  match r with
                  | EmptyString => Some (String x (Js.str1 y))
                  | _ => None
                  end
                else
                  match sextet_value d, decode_base64 r with
                  | Some v, Some rest =>
                      Some (String x (String y
                              (String (ascii_of_nat (u mod 4 * 64 + v)) rest)))
                  | _, _ => None
                  end
            | None => None
            end
      | _, _ => None
      end
  | _ => None
  end.

(* ================================================================== *)
(** * The embedded server: [src/server/server.ts] *)

Module Server.

(** What [server.address()] gives once [listen] has called back: an
    address object, the name of a pipe, or null. *)
Inductive Address : Type :=
| AddressInfo (port : Z)
| PipeName (name : string)
| NoAddress.

(** How [app.listen(0, 'localhost', callback)] goes on: the callback runs,
    or the server emits 'error' and the callback never does. *)
Inductive Listen : Type :=
| Bound (a : Address)
| ListenError (message : string).

(** An [http.Server] of the process. *)
Record HttpServer : Type := mkHttpServer {
  address : Address;
  listening : bool;           (* it accepts connections *)
  closed : bool               (* close() was called on it *)
}.

(** The servers of the process in the order of their creation; a server
    object is named by its place in the list. *)
Definition Process : Type := list HttpServer.

(** [class ElectronServer]: [server] and [port]. *)
Record ElectronServer : Type := mkElectronServer {
  server : option nat;        (* private server: http.Server | null = null *)
  port : Z                    (* private port = 0 *)
}.

(** [new ElectronServer()]. *)
Definition create : ElectronServer := {| server := None; port := 0 |}.

(** How a promise ends: resolved, rejected, or never settled because the
    event it waits for does not come. *)
Inductive Settled (A : Type) : Type :=
| Resolved (a : A)
| Rejected (message : string)
| Never (uncaught : Exn).
Arguments Resolved {A} a.
Arguments Rejected {A} message.
Arguments Never {A} uncaught.

(** [start()]: a new server is created and kept in [this.server]; when the
    callback runs, an address object gives the port, anything else
    rejects.  Nobody listens to the server's 'error'. *)
Definition start (how : Listen) (this : ElectronServer) (p : Process)
  : Settled Z * ElectronServer * Process :=
  let h := List.length p in
  match how with
  | Bound a =>
      let p' := (p ++ [{| address := a; listening := true;
                          closed := false |}])%list in
      match a with
      | AddressInfo n =>
          (Resolved n, {| server := Some h; port := n |}, p')
      | _ =>
          (Rejected "Failed to start server",
           {| server := Some h; port := port this |}, p')
      end
  | ListenError m =>
      (Never (UnhandledError m),
       {| server := Some h; port := port this |},
       (p ++ [{| address := NoAddress; listening := false;
                 closed := false |}])%list)
  end.

(** [server.close()] on the server at place [h]. *)
Fixpoint close (h : nat) (p : Process) : Process :=
  match p, h with
  | [], _ => []
  | s :: rest, O =>
      {| address := address s; listening := false; closed := true |} :: rest
  | s :: rest, S h' => s :: close h' rest
  end.

(** [stop()]: closes [this.server] when there is one; neither field of the
    object is reset. *)
Definition stop (this : ElectronServer) (p : Process) : Process :=
  match server this with
  | Some h => close h p
  | None => p
  end.

(** [getPort()]. *)
Definition getPort (this : ElectronServer) : Z := port this.

End Server.

(* ================================================================== *)
(** * The main process: [src/main.ts] *)

Module Main.

(** The two revisions of the file: the one in [src/], which opens the
    developer tools, and the one that maximizes the window and answers
    the microphone channel. *)
Inductive Revision : Type := WithDevTools | WithMicrophone.

(** The machine and the build. *)
Record Host : Type := mkHost {
  darwin : bool;                          (* process.platform === 'darwin' *)
  started : bool;                         (* electron-squirrel-startup *)
  DEV_SERVER_URL : option string;         (* MAIN_WINDOW_VITE_DEV_SERVER_URL *)
  renderer_index : string
      (* path.join(__dirname, `../renderer/${MAIN_WINDOW_VITE_NAME}/index.html`) *)
}.

Inductive Content : Type :=
| Url (url : string)                      (* mainWindow.loadURL *)
| LocalFile (path : string).              (* mainWindow.loadFile *)

Record Window : Type := mkWindow {
  content : Content;
  devTools : bool;                        (* webContents.openDevTools() *)
  maximized : bool                        (* maximize() *)
}.

Record App : Type := mkApp {
  electronServer : option Server.ElectronServer;  (* let electronServer *)
  serverPort : option Z;          (* let serverPort, undefined at first *)
  global_serverPort : option Z;   (* (global as any).serverPort *)
  global_serverUrl : option string;  (* (global as any).serverUrl *)
  windows : list Window;          (* BrowserWindow.getAllWindows() *)
  quit_calls : nat;               (* calls of app.quit() *)
  media_prompts : nat;            (* calls of askForMediaAccess *)
  process : Server.Process
}.

(** [`${serverPort}`]. *)
Definition show (port : option Z) : string :=
  match port with
  | Some n => Js.of_Z n
  | None => "undefined"
  end.

(** [`http://localhost:${serverPort}`]. *)
Definition url_of (port : option Z) : string :=
  "http://localhost:" ++ show port.

(** The module as it is loaded: a squirrel start asks to quit at once. *)
Definition init (host : Host) : App :=
  {| electronServer := None; serverPort := None;
     global_serverPort := None; global_serverUrl := None;
     windows := []; quit_calls := if started host then 1 else 0;
     media_prompts := 0; process := [] |}.

(** [new BrowserWindow(...)], the page loaded, and what the revision does
    with the window then. *)
Definition new_window (rev : Revision) (host : Host) : Window :=
  {| content := match DEV_SERVER_URL host with
                | Some url => if Js.truthy url then Url url
                              else LocalFile (renderer_index host)
                | None => LocalFile (renderer_index host)
                end;
     devTools := match rev with WithDevTools => true | _ => false end;
     maximized := match rev with WithMicrophone => true | _ => false end |}.

(** [createWindow]: a new server object is started; only when that
    resolves are the port recorded and a window made; a rejection asks to
    quit; while the promise is not settled nothing else happens. *)
Definition createWindow (rev : Revision) (host : Host) (how : Server.Listen)
    (app : App) : App :=
  let '(settled, es, p) := Server.start how Server.create (process app) in
  match settled with
  | Server.Resolved n =>
      {| electronServer := Some es; serverPort := Some n;
         global_serverPort := Some n;
         global_serverUrl := Some (url_of (Some n));
         windows := windows app ++ [new_window rev host];
         quit_calls := quit_calls app; media_prompts := media_prompts app;
         process := p |}
  | Server.Rejected _ =>
      {| electronServer := Some es; serverPort := serverPort app;
         global_serverPort := global_serverPort app;
         global_serverUrl := global_serverUrl app;
         windows := windows app;
         quit_calls := S (quit_calls app); media_prompts := media_prompts app;
         process := p |}
  | Server.Never _ =>
      {| electronServer := Some es; serverPort := serverPort app;
         global_serverPort := global_serverPort app;
         global_serverUrl := global_serverUrl app;
         windows := windows app;
         quit_calls := quit_calls app; media_prompts := media_prompts app;
         process := p |}
  end.

(** What the user, or the system, answers to [askForMediaAccess]. *)
Inductive Access : Type :=
| Granted
| Denied
| AskFails (message : string).            (* it rejects with new Error(message) *)

(** [checkMediaPermissions()]: only macOS is asked. *)
Definition checkMediaPermissions (host : Host) (answer : Access) (app : App)
  : Result bool * App :=
  if darwin host then
    let asked :=
      {| electronServer := electronServer app; serverPort := serverPort app;
         global_serverPort := global_serverPort app;
         global_serverUrl := global_serverUrl app;
         windows := windows app; quit_calls := quit_calls app;
         media_prompts := S (media_prompts app); process := process app |} in
    match answer with
    | Granted => (Ok true, asked)
    | Denied => (Ok false, asked)
    | AskFails m => (Throw (PlainError m), asked)
    end
  else (Ok true, app).

Definition quit (app : App) : App :=
  {| electronServer := electronServer app; serverPort := serverPort app;
     global_serverPort := global_serverPort app;
     global_serverUrl := global_serverUrl app;
     windows := windows app; quit_calls := S (quit_calls app);
     media_prompts := media_prompts app; process := process app |}.

(** What Electron reports to the main process. *)
Inductive Event : Type :=
| Ready (how : Server.Listen) (answer : Access)
    (* 'ready': createWindow, and the permission check of whenReady *)
| WindowClosed                            (* the user closes a window *)
| WindowAllClosed                         (* 'window-all-closed' *)
| Activate (how : Server.Listen)          (* 'activate' *)
| BeforeQuit.                             (* 'before-quit' *)

Definition step (rev : Revision) (host : Host) (app : App) (ev : Event)
  : App :=
  match ev with
  | Ready how answer =>
      snd (checkMediaPermissions host answer (createWindow rev host how app))
  | WindowClosed =>
      {| electronServer := electronServer app; serverPort := serverPort app;
         global_serverPort := global_serverPort app;
         global_serverUrl := global_serverUrl app;
         windows := tl (windows app); quit_calls := quit_calls app;
         media_prompts := media_prompts app; process := process app |}
  | WindowAllClosed => if darwin host then app else quit app
  | Activate how =>
      match windows app with
      | [] => createWindow rev host how app
      | _ => app
      end
  | BeforeQuit =>
      match electronServer app with
      | Some es =>
          {| electronServer := electronServer app;
             serverPort := serverPort app;
             global_serverPort := global_serverPort app;
             global_serverUrl := global_serverUrl app;
             windows := windows app; quit_calls := quit_calls app;
             media_prompts := media_prompts app;
             process := Server.stop es (process app) |}
      | None => app
      end
  end.

Definition run (rev : Revision) (host : Host) (evs : list Event) : App :=
  fold_left (step rev host) evs (init host).

(** [`${error}`] for an [Error]: its name, a colon and its message. *)
Definition shown (e : Exn) : string :=
  match e with
  | SyntaxError => "SyntaxError: " ++ message_of e
  | TypeError => "TypeError: " ++ message_of e
  | _ => "Error: " ++ message_of e
  end.

(** What a handler of [ipcMain] returns. *)
Inductive Reply : Type :=
| Port (port : option Z)
| Text (text : string)
| Microphone (success microphone : bool) (message : string).

(** The handlers registered with [ipcMain.handle], by channel; [None] is a
    channel nobody handles. *)
Definition handle (rev : Revision) (host : Host) (channel : string)
    (answer : Access) (app : App) : option (Reply * App) :=
  if String.eqb channel "get-server-port" then
    Some (Port (serverPort app), app)
  else if String.eqb channel "get-server-url" then
    Some (Text (url_of (serverPort app)), app)
  else if String.eqb channel "request-microphone-access" then
    match rev with
    | WithDevTools => None
    | WithMicrophone =>
        match checkMediaPermissions host answer app with
        | (Ok microphone, app') =>
            Some (Microphone true microphone
                    (if microphone then "Microphone access granted"
                     else "Microphone access denied"), app')
        | (Throw e, app') =>
            Some (Microphone false false
                    ("Error requesting microphone access: " ++ shown e),
                  app')
        end
    end
  else None.

End Main.

(* ================================================================== *)
(** * The preload script: [src/preload.ts] *)

Module Preload.

(** How [ipcRenderer.invoke(channel)] ends. *)
Inductive Invoked : Type :=
| Replied (reply : Main.Reply)
| NoHandler (channel : string).

Definition invoke (rev : Main.Revision) (host : Main.Host) (channel : string)
    (answer : Main.Access) (app : Main.App) : Invoked * Main.App :=
  match Main.handle rev host channel answer app with
  | Some (reply, app') => (Replied reply, app')
  | None => (NoHandler channel, app)
  end.

(** The functions of [electronAPI]. *)
Definition getServerPort rev host := invoke rev host "get-server-port".
Definition getServerUrl rev host := invoke rev host "get-server-url".
Definition requestMicrophoneAccess rev host :=
  invoke rev host "request-microphone-access".
Definition test : string := "electronAPI is working!".

End Preload.

(* ------------------------------------------------------------------ *)
(** ** Observations on the main process *)

(** The servers of the process that accept connections. *)
Definition open_servers (p : Server.Process) : nat :=
  List.length (filter Server.listening p).

(** Every listen of the trace binds an address object. *)
Definition binds (ev : Main.Event) : bool :=
  match ev with
  | Main.Ready (Server.Bound (Server.AddressInfo _)) _ => true
  | Main.Activate (Server.Bound (Server.AddressInfo _)) => true
  | Main.Ready _ _ | Main.Activate _ => false
  | _ => true
  end.

Definition is_before_quit (ev : Main.Event) : bool :=
  match ev with Main.BeforeQuit => true | _ => false end.

Definition is_window_all_closed (ev : Main.Event) : bool :=
  match ev with Main.WindowAllClosed => true | _ => false end.

Definition is_ready (ev : Main.Event) : bool :=
  match ev with Main.Ready _ _ => true | _ => false end.

(** No listen of the trace binds an address object. *)
Definition never_binds (ev : Main.Event) : bool :=
  match ev with
  | Main.Ready (Server.Bound (Server.AddressInfo _)) _ => false
  | Main.Activate (Server.Bound (Server.AddressInfo _)) => false
  | _ => true
  end.

Definition count (f : Main.Event -> bool) (evs : list Main.Event) : nat :=
  List.length (filter f evs).

Definition never_closed (s : Server.HttpServer) : Prop :=
  Server.closed s = false.

(** The state the port, the globals and the windows are in after any
    trace. *)
Definition port_known (app : Main.App) : Prop :=
  (Main.windows app <> [] -> exists n, Main.serverPort app = Some n)
  /\ Main.global_serverPort app = Main.serverPort app
  /\ Main.global_serverUrl app
     = option_map (fun n => Main.url_of (Some n)) (Main.serverPort app).

(** [electronServer] holds the server created last. *)
Definition holds_latest (app : Main.App) : Prop :=
  match Main.electronServer app with
  | None => Main.process app = []
  | Some es =>
      exists q s, Main.process app = (q ++ [s])%list
                  /\ Server.server es = Some (List.length q)
  end.

Definition not_before_quit (ev : Main.Event) : bool :=
  negb (is_before_quit ev).

Module Scene.

Definition mac : Main.Host :=
  {| Main.darwin := true; Main.started := false;
     Main.DEV_SERVER_URL := None;
     Main.renderer_index := "/app/.vite/renderer/main_window/index.html" |}.

Definition pc : Main.Host :=
  {| Main.darwin := false; Main.started := false;
     Main.DEV_SERVER_URL := Some "http://localhost:5173";
     Main.renderer_index := "/app/.vite/renderer/main_window/index.html" |}.

Definition bound (n : Z) : Server.Listen := Server.Bound (Server.AddressInfo n).

(** The dock icon is clicked after the only window was closed. *)
Definition reopened : list Main.Event :=
  [Main.Ready (bound 50123) Main.Granted; Main.WindowClosed;
   Main.WindowAllClosed; Main.Activate (bound 50456)].

End Scene.
(* ================================================================== *)
(** * Delivering events *)

Lemma deliver_app (l : Listeners) (a b : list Event) (s : State) :
  deliver l (a ++ b) s =
  match deliver l a s with
  | (Ok _, s') => deliver l b s'
  | (Throw e, s') => (Throw e, s')
  end.
Proof.
  revert s; induction a as [|ev a IH]; intros s; simpl.
  - reflexivity.
  - unfold bind. destruct (dispatch l ev s) as [[[]|e] s']; [apply IH | reflexivity].
Qed.

(** A request the middleware lets through and whose handler starts a child:
    what remains is the delivery of the job's events. *)
Lemma serve_job (env : Env) (m : Multer)
    (handler : Body -> option File -> M Listeners) (req : Req)
    (f : option File) (l : Listeners) (s : State) (c : Child)
    (evs : list Event) :
  single env m (part req) = Ok f ->
  handler (body req) f arrived = (Ok l, s) ->
  child s = Some c ->
  serve env m handler req evs = deliver l evs s.
Proof. intros Hm Hh Hc. unfold serve. now rewrite Hm, Hh, Hc. Qed.

Lemma set_res_same (s : State) : set_res (wrote [] (res s)) s = s.
Proof.
  destruct s as [[] ? ? ?]; unfold set_res, wrote; simpl.
  now rewrite app_nil_r.
Qed.

Lemma wrote_cons (d : string) (ws : list string) (r : Res) :
  wrote ws (wrote [d] r) = wrote (d :: ws) r.
Proof.
  unfold wrote; simpl. rewrite <- app_assoc; simpl.
  now destruct ws.
Qed.

Lemma wrote_finished (ws : list string) (r : Res) :
  finished (wrote ws r) = finished r.
Proof. reflexivity. Qed.

Lemma res_write_open (d : string) (s : State) :
  finished (res s) = false ->
  res_write d s = (Ok tt, set_res (wrote [d] (res s)) s).
Proof.
  intros H. unfold res_write, bind, get_state, with_res, set_res, wrote.
  rewrite H. reflexivity.
Qed.

Section Streaming.

Variable l : Listeners.
Variable frame : string -> string.
Hypothesis stdout_written : on_stdout l = Some (fun d => res_write (frame d)).
Hypothesis stderr_logged : on_stderr l = Some (fun _ => ret tt).

Lemma deliver_outputs_or_leave (evs : list Event) (s : State) :
  on_req_close l = None \/ forallb is_output evs = true ->
  forallb is_output_or_leave evs = true ->
  finished (res s) = false ->
  deliver l evs s
  = (Ok tt, set_res (wrote (map frame (stdout_chunks evs)) (res s)) s).
Proof.
  revert s; induction evs as [|ev evs IH]; intros s Hl Hev Hopen; simpl.
  - unfold ret. now rewrite set_res_same.
  - simpl in Hev. apply andb_prop in Hev as [Hhd Htl].
    assert (on_req_close l = None \/ forallb is_output evs = true) as Hl'
        by (destruct Hl as [Hl|Hl]; [now left|right];
            simpl in Hl; now apply andb_prop in Hl).
    unfold bind.
    destruct ev as [d|d|c|m|]; simpl in Hhd; try discriminate; simpl.
    + rewrite stdout_written, res_write_open by assumption.
      rewrite IH by assumption. simpl res.
      now rewrite wrote_cons.
    + rewrite stderr_logged. unfold ret. now apply IH.
    + destruct Hl as [Hl|Hl]; [|discriminate Hl].
      rewrite Hl. unfold ret. now apply IH.
Qed.

(** While the child only produces output, a streaming endpoint writes one
    frame per stdout chunk, in order, and does nothing else; where nobody
    listens to the request's 'close', the client may leave meanwhile. *)
Lemma deliver_outputs (evs : list Event) (s : State) :
  on_req_close l = None ->
  forallb is_output_or_leave evs = true ->
  finished (res s) = false ->
  deliver l evs s
  = (Ok tt, set_res (wrote (map frame (stdout_chunks evs)) (res s)) s).
Proof. intros Hl. apply deliver_outputs_or_leave. now left. Qed.

Lemma deliver_outputs_only (evs : list Event) (s : State) :
  forallb is_output evs = true ->
  finished (res s) = false ->
  deliver l evs s
  = (Ok tt, set_res (wrote (map frame (stdout_chunks evs)) (res s)) s).
Proof.
  intros Hev. apply deliver_outputs_or_leave; [now right|].
  clear - Hev.
  induction evs as [|[] evs IH]; simpl in *; try discriminate; auto.
Qed.

End Streaming.

(* ================================================================== *)
(** * [/prompt]: from the request to the running job *)

Lemma forallb_output_leave (evs : list Event) :
  forallb is_output evs = true -> forallb is_output_or_leave evs = true.
Proof.
  induction evs as [|[] evs IH]; simpl; intros H; try discriminate; auto.
Qed.

(** The checks of [/prompt] in one place. *)
Lemma passes_validation_inv (b : Body) (f : option File) :
  passes_validation b f = true ->
  exists i m len lenm,
    parse_or_empty (images b) = ret i /\
    parse_or_empty (messages b) = ret m /\
    parsed_or_empty (images b) = i /\
    parsed_or_empty (messages b) = m /\
    length_of i = Ok len /\ length_of m = Ok lenm /\
    Js.truthy (prompt_or_empty (prompt b)) || negb (is_0 len) || is_some f
    = true.
Proof.
  unfold passes_validation, parsed_or_empty.
  destruct b as [p [[i|]|] [[m|]|]]; simpl; try discriminate;
    try (destruct (length_of _); discriminate).
  - destruct (length_of i) as [len|] eqn:Hi; try discriminate.
    destruct (length_of m) as [lenm|] eqn:Hm; try discriminate.
    intros H. now exists i, m, len, lenm.
  - destruct (length_of i) as [len|] eqn:Hi; try discriminate.
    intros H. now exists i, (Json.Arr []), len, (Some (Json.Num 0)).
  - destruct (length_of m) as [lenm|] eqn:Hm; try discriminate.
    intros H. now exists (Json.Arr []), m, (Some (Json.Num 0)), lenm.
  - intros H. now exists (Json.Arr []), (Json.Arr []), (Some (Json.Num 0)), (Some (Json.Num 0)).
Qed.

Lemma nothing_to_do_false (p : string) (i : Json.t) (len : option Json.t)
    (f : option File) (s : State) :
  length_of i = Ok len ->
  Js.truthy p || negb (is_0 len) || is_some f = true ->
  nothing_to_do p i (option_map buffer f) s = (Ok false, s).
Proof.
  intros Hlen H. unfold nothing_to_do.
  destruct (Js.truthy p); [reflexivity|].
  unfold bind, lift, ret. rewrite Hlen. simpl in H.
  destruct (is_0 len); [|reflexivity].
  destruct f; [reflexivity|discriminate].
Qed.

(** A request that gets past the checks of [/prompt] leaves the handler with
    the stream headers set, nothing sent yet, and the child started with the
    resolved interpreter, fed the whole payload on its standard input. *)
Lemma post_prompt_starts (env : Env) (b : Body) (f : option File) :
  passes_validation b f = true ->
  spawn_throws env (Routes.PYTHON_EXECUTABLE env) [Routes.PYTHON_SCRIPT_PATH env]
  = None ->
  Routes.post_prompt env b f arrived
  = (Ok Routes.prompt_listeners,
     streaming (fed (Routes.PYTHON_EXECUTABLE env)
                    [Routes.PYTHON_SCRIPT_PATH env]
                    (Json.stringify (payload_of b f)))).
Proof.
  intros Hv Hs.
  destruct (passes_validation_inv _ _ Hv)
    as (i & m & len & lenm & Hi & Hm & Hpi & Hpm & Hli & Hlm & Hsome).
  unfold Routes.post_prompt, payload_of. rewrite Hi, Hm, Hpi, Hpm.
  unfold bind at 1. unfold ret at 1.
  unfold bind at 1. unfold ret at 1.
  unfold bind at 1. unfold lift at 1. rewrite Hli.
  unfold bind at 1. unfold lift at 1. rewrite Hlm.
  unfold bind at 1. rewrite (nothing_to_do_false _ _ _ _ Hli Hsome).
  unfold try_catch, spawn. rewrite Hs. reflexivity.
Qed.

Lemma earlier_post_prompt_starts (env : Env) (b : Body) (f : option File) :
  passes_validation b f = true ->
  spawn_throws env "python3" [Earlier.PYTHON_SCRIPT_PATH env] = None ->
  Earlier.post_prompt env b f arrived
  = (Ok Earlier.prompt_listeners,
     streaming (fed "python3" [Earlier.PYTHON_SCRIPT_PATH env]
                    (Json.stringify (payload_of b f)))).
Proof.
  intros Hv Hs.
  destruct (passes_validation_inv _ _ Hv)
    as (i & m & len & lenm & Hi & Hm & Hpi & Hpm & Hli & Hlm & Hsome).
  unfold Earlier.post_prompt, payload_of. rewrite Hi, Hm, Hpi, Hpm.
  unfold bind at 1. unfold ret at 1.
  unfold bind at 1. unfold ret at 1.
  unfold bind at 1. rewrite (nothing_to_do_false _ _ _ _ Hli Hsome).
  unfold try_catch, spawn. rewrite Hs. reflexivity.
Qed.

(** The close listener of [/prompt]: the complete event, the end of the
    response, and only then a signal to the child. *)
Lemma prompt_close (l : Listeners) (code : option Z) (c : Child) (r : Res) :
  on_close l = Some (fun code =>
    res_write (sse (complete_event code)) ;; res_end ;; kill)%handler ->
  finished r = false ->
  deliver l [Close code]
    {| res := r; child := Some c; output := EmptyString;
       errorOutput := EmptyString |}
  = (Ok tt,
     {| res := {| statusCode := statusCode r; headers := headers r;
                  headersSent := true;
                  written := written r ++ [sse (complete_event code)];
                  finished := true; errorPage := errorPage r;
                  json_calls := json_calls r |};
        child := Some {| file := file c; args := args c; stdin := stdin c;
                         stdin_ended := stdin_ended c;
                         kills := S (kills c) |};
        output := EmptyString; errorOutput := EmptyString |}).
Proof.
  intros Hl Hopen. simpl. unfold bind at 1. simpl. rewrite Hl.
  unfold bind at 1. rewrite res_write_open by assumption.
  reflexivity.
Qed.

(* ================================================================== *)
(** * One event, one message: [JSON.stringify] never breaks a line *)

Lemma json_induction (P : Json.t -> Prop) :
  P Json.Null ->
  (forall b, P (Json.Bool b)) ->
  (forall n, P (Json.Num n)) ->
  (forall s, P (Json.Str s)) ->
  (forall l, Forall P l -> P (Json.Arr l)) ->
  (forall kvs, Forall (fun kv => P (snd kv)) kvs -> P (Json.Obj kvs)) ->
  forall v, P v.
Proof.
  intros HNull HBool HNum HStr HArr HObj.
  fix IH 1. intros [ |b|n|s|l|kvs].
  - exact HNull.
  - apply HBool.
  - apply HNum.
  - apply HStr.
  - apply HArr.
    exact ((fix all (l : list Json.t) : Forall P l :=
              match l with
              | [] => Forall_nil P
              | x :: r => Forall_cons x (IH x) (all r)
              end) l).
  - apply HObj.
    exact ((fix all (kvs : list (string * Json.t))
              : Forall (fun kv => P (snd kv)) kvs :=
              match kvs with
              | [] => Forall_nil _
              | kv :: r => Forall_cons kv (IH (snd kv)) (all r)
              end) kvs).
Qed.

Lemma line_break_app (a b : string) :
  Js.has_line_break (a ++ b) = Js.has_line_break a || Js.has_line_break b.
Proof.
  induction a as [|c a IH]; simpl; [reflexivity|].
  now rewrite IH, orb_assoc.
Qed.

Lemma line_break_cons (c : ascii) (s : string) :
  Js.has_line_break (String c s)
  = (Ascii.eqb c Js.LF || Ascii.eqb c Js.CR) || Js.has_line_break s.
Proof. reflexivity. Qed.

Lemma escape_char_one_line (c : ascii) :
  Js.has_line_break (Json.escape_char c) = false.
Proof.
  destruct c as [[] [] [] [] [] [] [] []]; reflexivity.
Qed.

Lemma escape_one_line (s : string) : Js.has_line_break (Json.escape s) = false.
Proof.
  induction s as [|c s IH]; simpl; [reflexivity|].
  now rewrite line_break_app, escape_char_one_line, IH.
Qed.

Lemma quote_one_line (s : string) : Js.has_line_break (Json.quote s) = false.
Proof.
  unfold Json.quote. simpl.
  now rewrite line_break_app, escape_one_line.
Qed.

Lemma uint_one_line (d : Decimal.uint) :
  Js.has_line_break (NilEmpty.string_of_uint d) = false.
Proof. induction d; simpl; auto. Qed.

Lemma of_Z_one_line (n : Z) : Js.has_line_break (Js.of_Z n) = false.
Proof.
  unfold Js.of_Z, NilZero.string_of_int, NilZero.string_of_uint.
  destruct (Z.to_int n) as [d|d]; destruct d; simpl;
    try reflexivity; apply uint_one_line.
Qed.

Lemma commas_one_line (parts : list string) :
  Forall (fun p => Js.has_line_break p = false) parts ->
  Js.has_line_break (Json.commas parts) = false.
Proof.
  unfold Json.commas.
  induction 1 as [|p parts Hp Hps IH]; simpl; [reflexivity|].
  destruct parts as [|q parts]; [assumption|].
  rewrite line_break_app, Hp. simpl. exact IH.
Qed.

(** The text of a JSON value holds neither LF nor CR. *)
Lemma stringify_one_line (v : Json.t) :
  Js.has_line_break (Json.stringify v) = false.
Proof.
  induction v as [ |b|n|s|l IH|kvs IH] using json_induction.
  - reflexivity.
  - now destruct b.
  - apply of_Z_one_line.
  - apply quote_one_line.
  - simpl. rewrite line_break_app, commas_one_line; [reflexivity|].
    induction IH; simpl; constructor; assumption.
  - simpl. rewrite line_break_app, commas_one_line; [reflexivity|].
    induction IH as [|kv kvs Hkv _ IH']; cbn [map]; constructor; [|assumption].
    rewrite line_break_cons, !line_break_app, escape_one_line, line_break_cons, Hkv.
    reflexivity.
Qed.

Lemma first_line_app (a b : string) :
  Js.has_line_break a = false ->
  first_line (a ++ String Js.LF b) = (a, String Js.LF b).
Proof.
  induction a as [|c a IH]; simpl; intros H; [reflexivity|].
  apply orb_false_elim in H as [Hc Ha].
  now rewrite Hc, IH.
Qed.

(** A frame is one message: its data line is the text of the event. *)
Lemma unframe_sse (obj : Json.t) :
  unframe (sse obj) = Some (Json.stringify obj).
Proof.
  unfold unframe, sse. simpl.
  now rewrite first_line_app by apply stringify_one_line.
Qed.

(* ================================================================== *)
(** * The job of [/prompt] *)

Lemma stream_state_wrote (ws : list string) (c : Child) :
  set_res (wrote ws (res (streaming c))) (streaming c)
  = stream_state ws false c.
Proof. unfold set_res, wrote, stream_state, streaming. simpl. now destruct ws. Qed.

Section PromptJob.

Variable env : Env.
Variable req : Req.
Variable f : option File.
Hypothesis accepted : single env Routes.upload (part req) = Ok f.
Hypothesis valid : passes_validation (body req) f = true.

(** While the child runs, the router has written its stdout chunks as they
    came, and nothing else; the client going away changes nothing. *)
Lemma prompt_job (evs : list Event) :
  spawn_throws env (Routes.PYTHON_EXECUTABLE env) [Routes.PYTHON_SCRIPT_PATH env]
  = None ->
  forallb is_output_or_leave evs = true ->
  Routes.run env Routes.Prompt req evs
  = (Ok tt, stream_state (stdout_chunks evs) false
              (prompt_child env (body req) f)).
Proof.
  intros Hs Hev. unfold Routes.run.
  cbn [Routes.middleware Routes.handler].
  rewrite (@serve_job _ _ _ _ _ _ _ _ evs accepted (post_prompt_starts _ _ _ valid Hs)
             eq_refl).
  rewrite (deliver_outputs Routes.prompt_listeners (fun d => d))
    by (assumption || reflexivity).
  now rewrite map_id, stream_state_wrote.
Qed.

(** When the child closes, the complete event follows the chunks, the
    response is ended, and the child is sent its one signal. *)
Lemma prompt_job_closed (evs : list Event) (code : option Z) :
  spawn_throws env (Routes.PYTHON_EXECUTABLE env) [Routes.PYTHON_SCRIPT_PATH env]
  = None ->
  forallb is_output_or_leave evs = true ->
  Routes.run env Routes.Prompt req (evs ++ [Close code])
  = (Ok tt, stream_state (stdout_chunks evs ++ [sse (complete_event code)])
              true (signalled 1 (prompt_child env (body req) f))).
Proof.
  intros Hs Hev. pose proof (prompt_job evs Hs Hev) as Hrun.
  unfold Routes.run in *. cbn [Routes.middleware Routes.handler] in *.
  rewrite (@serve_job _ _ _ _ _ _ _ _ evs accepted
             (post_prompt_starts _ _ _ valid Hs) eq_refl) in Hrun.
  rewrite (@serve_job _ _ _ _ _ _ _ _ (evs ++ [Close code]) accepted
             (post_prompt_starts _ _ _ valid Hs) eq_refl).
  rewrite deliver_app, Hrun. unfold stream_state.
  rewrite (prompt_close Routes.prompt_listeners) by reflexivity.
  cbn. now destruct (stdout_chunks evs).
Qed.

(** The same two facts for the earlier revision, which frames every chunk. *)
Lemma earlier_prompt_job (evs : list Event) :
  spawn_throws env "python3" [Earlier.PYTHON_SCRIPT_PATH env] = None ->
  forallb is_output_or_leave evs = true ->
  serve env Earlier.upload (Earlier.post_prompt env) req evs
  = (Ok tt, stream_state (map (fun d => sse (chunk_event d)) (stdout_chunks evs))
              false (earlier_prompt_child env (body req) f)).
Proof.
  intros Hs Hev. change Earlier.upload with Routes.upload.
  rewrite (@serve_job _ _ _ _ _ _ _ _ evs accepted
             (earlier_post_prompt_starts _ _ _ valid Hs) eq_refl).
  rewrite (deliver_outputs Earlier.prompt_listeners
             (fun d => sse (chunk_event d)))
    by (assumption || reflexivity).
  now rewrite stream_state_wrote.
Qed.

Lemma earlier_prompt_job_closed (evs : list Event) (code : option Z) :
  spawn_throws env "python3" [Earlier.PYTHON_SCRIPT_PATH env] = None ->
  forallb is_output_or_leave evs = true ->
  serve env Earlier.upload (Earlier.post_prompt env) req (evs ++ [Close code])
  = (Ok tt, stream_state
              (map (fun d => sse (chunk_event d)) (stdout_chunks evs)
                 ++ [sse (complete_event code)])
              true (signalled 1 (earlier_prompt_child env (body req) f))).
Proof.
  intros Hs Hev. pose proof (earlier_prompt_job evs Hs Hev) as Hrun.
  change Earlier.upload with Routes.upload in *.
  rewrite (@serve_job _ _ _ _ _ _ _ _ evs accepted
             (earlier_post_prompt_starts _ _ _ valid Hs) eq_refl) in Hrun.
  rewrite (@serve_job _ _ _ _ _ _ _ _ (evs ++ [Close code]) accepted
             (earlier_post_prompt_starts _ _ _ valid Hs) eq_refl).
  rewrite deliver_app, Hrun. unfold stream_state.
  rewrite (prompt_close Earlier.prompt_listeners) by reflexivity.
  cbn. now destruct (stdout_chunks evs).
Qed.

End PromptJob.

(* ================================================================== *)
(** * C1: the stream of [/prompt] *)

(** C1, as stated, fails on the router: one stdout chunk and a clean exit do
    not give a stream of framed events, because the chunk goes out bare. *)
Lemma C1_counterexample :
  let s := snd (Routes.run Sample.posix Routes.Prompt Sample.hi
                  [Stdout "a"; Close (Some 0)]) in
  written (res s) = ["a"; sse (complete_event (Some 0))]
  /\ unframe "a" = None
  /\ ~ event_stream ["a"] (Some 0) (res s).
Proof.
  repeat split.
  intros [H _]. vm_compute in H. discriminate H.
Qed.

(** C1, amended.  For a request that gets past the checks of [/prompt] and
    whose child starts, produces output and closes with [code]: the body is
    the stdout chunks, one write each, in the order they were emitted, as
    they are (the router) or framed as chunk events (its earlier revision),
    then one framed complete event carrying [code]; then the response is
    ended.  Every frame is one message. *)
Theorem C1_prompt_stream (env : Env) (req : Req) (f : option File)
    (evs : list Event) (code : option Z) :
  single env Routes.upload (part req) = Ok f ->
  passes_validation (body req) f = true ->
  spawn_throws env (Routes.PYTHON_EXECUTABLE env) [Routes.PYTHON_SCRIPT_PATH env]
  = None ->
  spawn_throws env "python3" [Earlier.PYTHON_SCRIPT_PATH env] = None ->
  forallb is_output evs = true ->
  (exists s,
      Routes.run env Routes.Prompt req (evs ++ [Close code]) = (Ok tt, s)
      /\ written (res s)
         = (stdout_chunks evs ++ [sse (complete_event code)])%list
      /\ finished (res s) = true
      /\ statusCode (res s) = 200
      /\ headers (res s) = sse_headers)
  /\ (exists s,
      serve env (Earlier.upload) (Earlier.post_prompt env) req
            (evs ++ [Close code]) = (Ok tt, s)
      /\ event_stream (stdout_chunks evs) code (res s)
      /\ statusCode (res s) = 200
      /\ headers (res s) = sse_headers)
  /\ unframe (sse (complete_event code))
     = Some (Json.stringify (complete_event code))
  /\ forall d, unframe (sse (chunk_event d))
               = Some (Json.stringify (chunk_event d)).
Proof.
  intros Hm Hv Hs Hs' Hev.
  pose proof (forallb_output_leave _ Hev) as Hev'.
  split; [|split; [|split]].
  - eexists. split; [apply (@prompt_job_closed env req f Hm Hv evs code Hs Hev')|].
    repeat split.
  - eexists. split; [apply (@earlier_prompt_job_closed env req f Hm Hv evs code Hs' Hev')|].
    repeat split.
  - apply unframe_sse.
  - intros d. apply unframe_sse.
Qed.

Lemma C1_prompt_stream_witness :
  exists s,
    Routes.run Sample.posix Routes.Prompt Sample.hi
      ([Stdout "a"; Stderr "warn"; Stdout "b"] ++ [Close (Some 0)]) = (Ok tt, s)
    /\ written (res s)
       = (stdout_chunks [Stdout "a"; Stderr "warn"; Stdout "b"]
            ++ [sse (complete_event (Some 0))])%list
    /\ finished (res s) = true
    /\ statusCode (res s) = 200
    /\ headers (res s) = sse_headers.
Proof.
  exact (proj1 (C1_prompt_stream Sample.posix Sample.hi (f := None)
                  [Stdout "a"; Stderr "warn"; Stdout "b"] (Some 0)
                  eq_refl eq_refl eq_refl eq_refl eq_refl)).
Defined.

(* ================================================================== *)
(** * C2: uploads the middleware refuses *)

(** C2, as stated, fails: a text file sent to [/upload-document] is refused
    before the handler runs, but the answer is the framework's error page
    with status 500, not a 4xx JSON body. *)
Lemma C2_counterexample :
  let s := snd (Routes.run Sample.posix Routes.UploadDocument
                  (Sample.with_file Sample.txt) []) in
  violates Routes.UploadDocument Sample.txt = true
  /\ statusCode (res s) = 500
  /\ ~ (400 <= statusCode (res s) < 500)
  /\ errorPage (res s) = Some (PlainError "Only PDF files are allowed")
  /\ written (res s) = []
  /\ json_calls (res s) = 0%nat.
Proof.
  cbv zeta. repeat split.
  vm_compute. intros [_ H]. discriminate H.
Qed.

(** C2, amended.  An attachment that breaks a rule of the upload middleware
    (a document that is not declared application/pdf or is larger than
    20 MiB, an audio file larger than 10 MiB) makes the middleware fail
    before the route handler runs: no child process is ever started, whatever
    happens later.  The router has no error handler of its own, so the
    answer is the framework's error page with status 500; [res.json] is
    never called. *)
Theorem C2_rejected_upload (env : Env) (ep : Routes.Endpoint) (req : Req)
    (p : File) (evs : list Event) :
  part req = Some p ->
  violates ep p = true ->
  exists e s,
    Routes.run env ep req evs = (Ok tt, s)
    /\ child s = None
    /\ statusCode (res s) = 500
    /\ errorPage (res s) = Some e
    /\ header "Content-Type" (headers (res s)) = Some "text/html; charset=utf-8"
    /\ written (res s) = []
    /\ json_calls (res s) = 0%nat.
Proof.
  intros Hp Hv. unfold Routes.run, serve, single. rewrite Hp.
  destruct ep; cbn [Routes.middleware Routes.upload Routes.audioUpload
                    Routes.documentUpload fileFilter fileSize accept_all];
    cbn [violates] in Hv.
  - rewrite Hv. do 2 eexists. repeat split.
  - rewrite Hv. do 2 eexists. repeat split.
  - destruct (String.eqb (mimetype p) "application/pdf").
    + cbn [negb orb] in Hv. rewrite Hv. do 2 eexists. repeat split.
    + do 2 eexists. repeat split.
Qed.

Lemma C2_rejected_upload_witness :
  exists e s,
    Routes.run Sample.posix Routes.UploadDocument
      (Sample.with_file Sample.txt) [Stdout "late"; Close (Some 0)] = (Ok tt, s)
    /\ child s = None
    /\ statusCode (res s) = 500
    /\ errorPage (res s) = Some e
    /\ header "Content-Type" (headers (res s)) = Some "text/html; charset=utf-8"
    /\ written (res s) = []
    /\ json_calls (res s) = 0%nat.
Proof.
  apply (C2_rejected_upload Sample.posix Routes.UploadDocument
           (Sample.with_file Sample.txt) (p := Sample.txt)); reflexivity.
Defined.

(* ================================================================== *)
(** * The JSON endpoints: from the request to the running job *)

Lemma string_app_assoc (a b c : string) : (a ++ b) ++ c = a ++ (b ++ c).
Proof. induction a as [|x a IH]; simpl; [reflexivity|now rewrite IH]. Qed.

Lemma string_app_nil_r (a : string) : a ++ EmptyString = a.
Proof. induction a as [|x a IH]; simpl; [reflexivity|now rewrite IH]. Qed.

(** [/transcribe-audio] with a file: the child is started under the bare
    name python3 and fed the payload. *)
Lemma post_transcribe_starts (env : Env) (b : Body) (file : File) :
  spawn_throws env "python3" [Routes.PYTHON_SCRIPT_PATH env] = None ->
  Routes.post_transcribe_audio env b (Some file) arrived
  = (Ok Routes.transcribe_listeners,
     collecting (fed "python3" [Routes.PYTHON_SCRIPT_PATH env]
       (Json.stringify (Json.Obj
          [("audio_to_transcribe", Json.Str (Buffer.base64 (buffer file)))])))).
Proof.
  intros Hs. unfold Routes.post_transcribe_audio, try_catch, bind, spawn.
  now rewrite Hs.
Qed.

(** [/upload-document] with a file, likewise. *)
Lemma post_upload_starts (env : Env) (b : Body) (file : File) :
  spawn_throws env "python3" [Routes.PYTHON_SCRIPT_PATH env] = None ->
  Routes.post_upload_document env b (Some file) arrived
  = (Ok (Routes.upload_listeners (originalname file) (size file)),
     collecting (fed "python3" [Routes.PYTHON_SCRIPT_PATH env]
       (Json.stringify (Json.Obj
          [("document_to_ingest",
            Json.Obj [("content", Json.Str (Buffer.base64 (buffer file)));
                      ("filename", Json.Str (originalname file));
                      ("size", Json.Num (size file))])])))).
Proof.
  intros Hs. unfold Routes.post_upload_document, try_catch, bind, spawn.
  now rewrite Hs.
Qed.

Section Collecting.

Variable l : Listeners.
Hypothesis stdout_kept : on_stdout l = Some append_output.
Hypothesis stderr_kept : on_stderr l = Some append_errorOutput.

(** While the child only produces output, a JSON endpoint appends it to its
    two accumulators and leaves the response alone. *)
Lemma deliver_collect (evs : list Event) (s : State) :
  forallb is_output evs = true ->
  deliver l evs s
  = (Ok tt, {| res := res s; child := child s;
               output := output s ++ joined (stdout_chunks evs);
               errorOutput := errorOutput s ++ joined (stderr_chunks evs) |}).
Proof.
  revert s; induction evs as [|ev evs IH]; intros s Hev; simpl.
  - rewrite !string_app_nil_r. now destruct s.
  - simpl in Hev. apply andb_prop in Hev as [Hhd Htl].
    unfold bind.
    destruct ev as [d|d|c|m|]; simpl in Hhd; try discriminate; simpl.
    + rewrite stdout_kept. unfold append_output at 1.
      rewrite IH by assumption. simpl. now rewrite string_app_assoc.
    + rewrite stderr_kept. unfold append_errorOutput at 1.
      rewrite IH by assumption. simpl. now rewrite string_app_assoc.
Qed.

End Collecting.

(* ================================================================== *)
(** * C7: the answer of [/transcribe-audio] *)

Lemma code_is_0_spec (code : option Z) : code_is_0 code = true <-> code = Some 0.
Proof.
  destruct code as [[| |]|]; simpl; split; intros H;
    try discriminate; reflexivity.
Qed.

(** What the close listener of [/transcribe-audio] answers with. *)
Lemma transcribe_close (code : option Z) (c : Child) (out err : string) :
  deliver Routes.transcribe_listeners [Close code]
    {| res := (res arrived); child := Some c; output := out; errorOutput := err |}
  = (Ok tt,
     {| res :=
          if code_is_0 code
          then json_response 200 (Json.Obj
                 [("success", Json.Bool true);
                  ("transcribedText", Json.Str (Js.trim out))])
          else json_response 500 (Json.Obj
                 [("success", Json.Bool false);
                  ("error", Json.Str "Failed to transcribe audio");
                  ("details", Json.Str (Js.or_else err out))]);
        child := Some c; output := out; errorOutput := err |}).
Proof.
  destruct (code_is_0 code) eqn:H0; simpl; unfold bind at 1; simpl;
    unfold bind at 1; simpl; rewrite H0; reflexivity.
Qed.

(** C7, as stated, fails: a request that carries an audio file is not
    always answered with one of the two objects.  When [spawn] throws, the
    catch block of the handler answers 500 with an object of its own, which
    has an error and details but no success key; there is no child, so no
    exit code decides anything. *)
Lemma C7_counterexample :
  let req := Sample.with_file Sample.wav in
  let answer := Json.Obj
      [("error", Json.Str "Failed to process audio transcription");
       ("details", Json.Str "spawn ENOMEM")] in
  let s := snd (Routes.run Sample.cannot_spawn Routes.TranscribeAudio req []) in
  single Sample.cannot_spawn Routes.audioUpload (part req)
  = Ok (Some Sample.wav)
  /\ res s = json_response 500 answer
  /\ Json.get "success" answer = None
  /\ child s = None
  /\ (forall text,
        res s <> json_response 200 (Json.Obj
                   [("success", Json.Bool true);
                    ("transcribedText", Json.Str text)]))
  /\ (forall e d,
        res s <> json_response 500 (Json.Obj
                   [("success", Json.Bool false);
                    ("error", Json.Str e);
                    ("details", Json.Str d)])).
Proof.
  cbv zeta. repeat split.
  - intros text H. apply (f_equal statusCode) in H. discriminate H.
  - intros e d H. apply (f_equal written) in H. vm_compute in H.
    discriminate H.
Qed.

(** C7, amended.  A request to [/transcribe-audio] whose audio file passes
    the upload middleware and whose child starts, produces output and
    closes with [code]: the answer is the 200 JSON with success true and the
    trimmed stdout exactly when [code] is 0, and otherwise, also when the
    child was ended by a signal and there is no code, the 500 JSON with
    success false, error and, as details, the stderr text, or the stdout
    text when stderr is empty. *)
Theorem C7_transcribe_answer (env : Env) (req : Req) (file : File)
    (evs : list Event) (code : option Z) :
  single env Routes.audioUpload (part req) = Ok (Some file) ->
  spawn_throws env "python3" [Routes.PYTHON_SCRIPT_PATH env] = None ->
  forallb is_output evs = true ->
  let ok := json_response 200 (Json.Obj
              [("success", Json.Bool true);
               ("transcribedText",
                Json.Str (Js.trim (joined (stdout_chunks evs))))]) in
  let failed := json_response 500 (Json.Obj
              [("success", Json.Bool false);
               ("error", Json.Str "Failed to transcribe audio");
               ("details",
                Json.Str (Js.or_else (joined (stderr_chunks evs))
                                     (joined (stdout_chunks evs))))]) in
  exists s,
    Routes.run env Routes.TranscribeAudio req (evs ++ [Close code]) = (Ok tt, s)
    /\ (res s = ok <-> code = Some 0)
    /\ (code <> Some 0 -> res s = failed).
Proof.
  intros Hm Hs Hev ok failed.
  unfold Routes.run. cbn [Routes.middleware Routes.handler].
  rewrite (@serve_job _ _ _ _ _ _ _ _ _ Hm (post_transcribe_starts _ _ _ Hs) eq_refl).
  rewrite deliver_app.
  rewrite (deliver_collect Routes.transcribe_listeners) by (assumption || reflexivity).
  unfold collecting. cbn [res child output errorOutput append].
  rewrite transcribe_close.
  eexists. split; [reflexivity|]. cbn [res].
  destruct (code_is_0 code) eqn:H0.
  - apply code_is_0_spec in H0. split; [tauto|]. intros Hne. contradiction.
  - assert (code <> Some 0) as Hne
        by (intros Heq; apply code_is_0_spec in Heq; congruence).
    split; [|reflexivity].
    split; [|contradiction]. subst ok. unfold json_response.
    intros Heq. discriminate Heq.
Qed.

Lemma C7_transcribe_answer_witness :
  let req := Sample.with_file Sample.wav in
  let evs := [Stdout " hello"; Stderr "loading model"; Stdout " world "] in
  let ok := json_response 200 (Json.Obj
              [("success", Json.Bool true);
               ("transcribedText", Json.Str "hello world")]) in
  let failed := json_response 500 (Json.Obj
              [("success", Json.Bool false);
               ("error", Json.Str "Failed to transcribe audio");
               ("details", Json.Str "loading model")]) in
  (exists s,
     Routes.run Sample.posix Routes.TranscribeAudio req
       (evs ++ [Close (Some 0)]) = (Ok tt, s)
     /\ (res s = ok <-> Some 0 = Some 0)
     /\ (Some 0 <> Some 0 -> res s = failed))
  /\ (exists s,
       Routes.run Sample.posix Routes.TranscribeAudio req
         (evs ++ [Close (Some 1)]) = (Ok tt, s)
       /\ (res s = ok <-> Some 1 = Some 0)
       /\ (Some 1 <> Some 0 -> res s = failed))
  /\ (exists s,
       Routes.run Sample.posix Routes.TranscribeAudio req
         (evs ++ [Close None]) = (Ok tt, s)
       /\ (res s = ok <-> None = Some 0)
       /\ (None <> Some 0 -> res s = failed)).
Proof.
  cbv zeta. repeat apply conj.
  - apply (C7_transcribe_answer Sample.posix (Sample.with_file Sample.wav)
             (file := Sample.wav)
             [Stdout " hello"; Stderr "loading model"; Stdout " world "]
             (Some 0)); reflexivity.
  - apply (C7_transcribe_answer Sample.posix (Sample.with_file Sample.wav)
             (file := Sample.wav)
             [Stdout " hello"; Stderr "loading model"; Stdout " world "]
             (Some 1)); reflexivity.
  - apply (C7_transcribe_answer Sample.posix (Sample.with_file Sample.wav)
             (file := Sample.wav)
             [Stdout " hello"; Stderr "loading model"; Stdout " world "]
             None); reflexivity.
Defined.

(* ================================================================== *)
(** * C10: one answer per request on the JSON endpoints *)

(** C10 fails on the code.  When the child cannot be started, Node emits
    'error' and then 'close'; both listeners of the JSON endpoints call
    [res.json], and the second call throws out of the listener because the
    head has already been sent. *)
Theorem C10_error_then_close_answers_twice (env : Env)
    (ep : Routes.Endpoint) (req : Req) (file : File)
    (message : string) (code : option Z) :
  ep <> Routes.Prompt ->
  single env (Routes.middleware ep) (part req) = Ok (Some file) ->
  spawn_throws env "python3" [Routes.PYTHON_SCRIPT_PATH env] = None ->
  exists s,
    Routes.run env ep req [Error message; Close code]
    = (Throw ERR_HTTP_HEADERS_SENT, s)
    /\ json_calls (res s) = 2%nat
    /\ statusCode (res s) = 500
    /\ List.length (written (res s)) = 1%nat.
Proof.
  intros Hep Hm Hs. unfold Routes.run.
  destruct ep; [contradiction| |]; cbn [Routes.middleware Routes.handler] in *.
  - rewrite (@serve_job _ _ _ _ _ _ _ _ _ Hm (post_transcribe_starts _ _ _ Hs) eq_refl).
    destruct (code_is_0 code) eqn:H0; simpl; unfold bind at 1; simpl;
      unfold bind at 1; simpl; unfold bind at 1; simpl; rewrite H0;
      eexists; (split; [reflexivity|]); repeat split.
  - rewrite (@serve_job _ _ _ _ _ _ _ _ _ Hm (post_upload_starts _ _ _ Hs) eq_refl).
    destruct (code_is_0 code) eqn:H0; simpl; unfold bind at 1; simpl;
      unfold bind at 1; simpl; unfold bind at 1; simpl; rewrite H0;
      eexists; (split; [reflexivity|]); repeat split.
Qed.

Lemma C10_error_then_close_answers_twice_witness :
  exists s,
    Routes.run Sample.posix Routes.TranscribeAudio (Sample.with_file Sample.wav)
      [Error "spawn python3 ENOENT"; Close (Some (-2))]
    = (Throw ERR_HTTP_HEADERS_SENT, s)
    /\ json_calls (res s) = 2%nat
    /\ statusCode (res s) = 500
    /\ List.length (written (res s)) = 1%nat.
Proof.
  apply (C10_error_then_close_answers_twice Sample.posix
           (ep := Routes.TranscribeAudio) (Sample.with_file Sample.wav)
           (file := Sample.wav));
    [discriminate | reflexivity | reflexivity].
Defined.

(* ================================================================== *)
(** * C3: a backend that cannot be started *)

(** When [spawn] itself throws, every endpoint answers with a 500 JSON from
    its catch block: no child, no listener, nothing streamed. *)
Lemma sync_start_failure_answered (env : Env) (ep : Routes.Endpoint)
    (req : Req) (f : option File) (evs : list Event) :
  single env (Routes.middleware ep) (part req) = Ok f ->
  (ep = Routes.Prompt -> passes_validation (body req) f = true) ->
  (ep <> Routes.Prompt -> is_some f = true) ->
  (forall file args, spawn_throws env file args <> None) ->
  exists s,
    Routes.run env ep req evs = (Ok tt, s)
    /\ statusCode (res s) = 500
    /\ json_calls (res s) = 1%nat
    /\ List.length (written (res s)) = 1%nat
    /\ finished (res s) = true
    /\ child s = None.
Proof.
  intros Hm Hv Hf Hs. unfold Routes.run, serve. rewrite Hm.
  destruct ep; simpl Routes.handler.
  - specialize (Hv eq_refl).
    destruct (passes_validation_inv _ _ Hv)
      as (i & m & len & lenm & Hi & Hmm & Hpi & Hpm & Hli & Hlm & Hsome).
    unfold Routes.post_prompt. rewrite Hi, Hmm.
    unfold bind at 1. unfold ret at 1.
    unfold bind at 1. unfold ret at 1.
    unfold bind at 1. unfold lift at 1. rewrite Hli.
    unfold bind at 1. unfold lift at 1. rewrite Hlm.
    unfold bind at 1. rewrite (nothing_to_do_false _ _ _ _ Hli Hsome).
    unfold try_catch, spawn.
    destruct (spawn_throws env _ _) as [msg|] eqn:Hsp; [|now apply Hs in Hsp].
    cbn -[Json.stringify]. eexists. split; [reflexivity|]. repeat split.
  - destruct f as [file|]; [|now specialize (Hf ltac:(discriminate))].
    unfold Routes.post_transcribe_audio, try_catch, spawn.
    unfold bind at 1.
    destruct (spawn_throws env _ _) as [msg|] eqn:Hsp; [|now apply Hs in Hsp].
    cbn -[Json.stringify]. eexists. split; [reflexivity|]. repeat split.
  - destruct f as [file|]; [|now specialize (Hf ltac:(discriminate))].
    unfold Routes.post_upload_document, try_catch, spawn.
    unfold bind at 1.
    destruct (spawn_throws env _ _) as [msg|] eqn:Hsp; [|now apply Hs in Hsp].
    cbn -[Json.stringify]. eexists. split; [reflexivity|]. repeat split.
Qed.

(** When the failure arrives as an 'error' event, the JSON endpoints answer
    with their 500 JSON. *)
Lemma transcribe_error_answered (env : Env) (req : Req) (file : File)
    (message : string) :
  single env Routes.audioUpload (part req) = Ok (Some file) ->
  spawn_throws env "python3" [Routes.PYTHON_SCRIPT_PATH env] = None ->
  exists s,
    Routes.run env Routes.TranscribeAudio req [Error message] = (Ok tt, s)
    /\ res s = json_response 500 (Json.Obj
                 [("success", Json.Bool false);
                  ("error", Json.Str "Failed to start audio transcription");
                  ("details", Json.Str message)]).
Proof.
  intros Hm Hs. unfold Routes.run. cbn [Routes.middleware Routes.handler].
  rewrite (@serve_job _ _ _ _ _ _ _ _ _ Hm (post_transcribe_starts _ _ _ Hs) eq_refl).
  eexists. split; reflexivity.
Qed.

(** C3 fails on the code.  On [/prompt] nobody listens to the 'error' of the
    child (the listener is commented out), so a backend that cannot be
    started ends in an uncaught exception: nothing is answered, no 5xx JSON
    is sent. *)
Theorem C3_prompt_start_failure_unhandled (env : Env) (req : Req)
    (f : option File) (message : string) (rest : list Event) :
  single env Routes.upload (part req) = Ok f ->
  passes_validation (body req) f = true ->
  spawn_throws env (Routes.PYTHON_EXECUTABLE env) [Routes.PYTHON_SCRIPT_PATH env]
  = None ->
  exists s,
    Routes.run env Routes.Prompt req (Error message :: rest)
    = (Throw (UnhandledError message), s)
    /\ statusCode (res s) = 200
    /\ headersSent (res s) = false
    /\ written (res s) = []
    /\ json_calls (res s) = 0%nat.
Proof.
  intros Hm Hv Hs. unfold Routes.run. cbn [Routes.middleware Routes.handler].
  rewrite (@serve_job _ _ _ _ _ _ _ _ _ Hm (post_prompt_starts _ _ _ Hv Hs) eq_refl).
  eexists. split; [reflexivity|]. repeat split.
Qed.

Lemma C3_prompt_start_failure_unhandled_witness :
  exists s,
    Routes.run Sample.posix Routes.Prompt Sample.hi
      (Error "spawn /app/venv_creativemate/bin/python3 ENOENT"
         :: [Close (Some (-2))])
    = (Throw (UnhandledError "spawn /app/venv_creativemate/bin/python3 ENOENT"),
       s)
    /\ statusCode (res s) = 200
    /\ headersSent (res s) = false
    /\ written (res s) = []
    /\ json_calls (res s) = 0%nat.
Proof.
  apply (C3_prompt_start_failure_unhandled Sample.posix Sample.hi (f := None));
    reflexivity.
Defined.

(* ================================================================== *)
(** * C6: how the payload reaches the child *)

(** C6 fails on the code.  [/transcribe-audio] and [/upload-document] start
    the child under the bare name python3, not under the resolved
    interpreter of the virtual environment that [/prompt] uses.  The rest
    holds on all three: the script is the one argument, the whole payload is
    written to the standard input, which is then closed. *)
Theorem C6_json_endpoints_spawn_bare_python3 :
  let env := Sample.posix in
  let started ep p := child (snd (Routes.run env ep (Sample.with_file p) [])) in
  Routes.PYTHON_EXECUTABLE env = "/app/venv_creativemate/bin/python3"
  /\ started Routes.Prompt Sample.wav
     = Some (fed "/app/venv_creativemate/bin/python3"
                 ["/app/src/python/llmUtils.py"]
                 (Json.stringify
                    (payload_of Sample.no_fields (Some Sample.wav))))
  /\ started Routes.TranscribeAudio Sample.wav
     = Some (fed "python3" ["/app/src/python/llmUtils.py"]
                 (Json.stringify (Json.Obj
                    [("audio_to_transcribe", Json.Str "UklG")])))
  /\ started Routes.UploadDocument Sample.pdf
     = Some (fed "python3" ["/app/src/python/llmUtils.py"]
                 (Json.stringify (Json.Obj
                    [("document_to_ingest",
                      Json.Obj [("content", Json.Str "JVBERg==");
                                ("filename", Json.Str "x.pdf");
                                ("size", Json.Num 4)])]))).
Proof. repeat split. Qed.

(* ================================================================== *)
(** * C8: what the complete event carries *)

(** C8, as stated, fails: a child that was ended by a signal closes with
    code null, and the complete event carries that null. *)
Lemma C8_counterexample :
  let s := snd (Routes.run Sample.posix Routes.Prompt Sample.hi
                  [Stdout "a"; Close None]) in
  last (written (res s)) EmptyString = sse (complete_event None)
  /\ Json.get "code" (complete_event None) = Some Json.Null
  /\ Json.get "exitCode" (complete_event None) = None
  /\ ~ (exists n, Json.get "code" (complete_event None) = Some (Json.Num n)).
Proof.
  repeat split. intros [n H]. discriminate H.
Qed.

(** C8, amended.  The complete event that ends a [/prompt] stream carries,
    under the key code, the code of the child's 'close' as it came: an
    integer when the child exited, null when a signal ended it. *)
Theorem C8_complete_carries_close_code (env : Env) (req : Req)
    (f : option File) (evs : list Event) (code : option Z) :
  single env Routes.upload (part req) = Ok f ->
  passes_validation (body req) f = true ->
  spawn_throws env (Routes.PYTHON_EXECUTABLE env) [Routes.PYTHON_SCRIPT_PATH env]
  = None ->
  forallb is_output evs = true ->
  exists s,
    Routes.run env Routes.Prompt req (evs ++ [Close code]) = (Ok tt, s)
    /\ last (written (res s)) EmptyString = sse (complete_event code)
    /\ Json.get "code" (complete_event code) = Some (json_code code)
    /\ (forall n, code = Some n -> json_code code = Json.Num n)
    /\ (code = None -> json_code code = Json.Null)
    /\ (Json.is_integer (json_code code) = true <-> exists n, code = Some n).
Proof.
  intros Hm Hv Hs Hev.
  eexists. split;
    [apply (@prompt_job_closed env req f Hm Hv evs code Hs
              (forallb_output_leave _ Hev))|].
  split; [apply last_last|]. split; [reflexivity|].
  split; [now intros n ->|]. split; [now intros ->|].
  destruct code as [n|]; simpl; split; intros H;
    try discriminate; eauto.
  destruct H as [n H]. discriminate H.
Qed.

Lemma C8_complete_carries_close_code_witness :
  exists s,
    Routes.run Sample.posix Routes.Prompt Sample.hi
      ([Stdout "a"] ++ [Close (Some 1)]) = (Ok tt, s)
    /\ last (written (res s)) EmptyString = sse (complete_event (Some 1))
    /\ Json.get "code" (complete_event (Some 1)) = Some (json_code (Some 1))
    /\ (forall n, Some 1 = Some n -> json_code (Some 1) = Json.Num n)
    /\ (Some 1 = None -> json_code (Some 1) = Json.Null)
    /\ (Json.is_integer (json_code (Some 1)) = true
        <-> exists n, Some 1 = Some n).
Proof.
  apply (C8_complete_carries_close_code Sample.posix Sample.hi (f := None)
           [Stdout "a"] (Some 1)); reflexivity.
Defined.

(* ================================================================== *)
(** * C4: the client goes away *)

(** [/prompt-audio] of the earlier revision does listen to the request's
    'close': the child is sent a signal as soon as the client leaves. *)
Lemma prompt_audio_kills_on_leave (env : Env) (req : Req) (f : option File)
    (evs : list Event) :
  single env Earlier.upload (part req) = Ok f ->
  passes_validation (body req) f = true ->
  (forall file args, spawn_throws env file args = None) ->
  forallb is_output evs = true ->
  exists s c,
    serve env Earlier.upload (Earlier.post_prompt_audio env) req
          (evs ++ [ReqClose]) = (Ok tt, s)
    /\ child s = Some c
    /\ kills c = 1%nat
    /\ stdin c = []
    /\ List.length (args c) = 2%nat.
Proof.
  intros Hm Hv Hs Hev.
  destruct (passes_validation_inv _ _ Hv)
    as (i & m & len & lenm & Hi & Hmm & Hpi & Hpm & Hli & Hlm & Hsome).
  unfold serve. rewrite Hm.
  unfold Earlier.post_prompt_audio. rewrite Hi, Hmm.
  unfold bind at 1. unfold ret at 1.
  unfold bind at 1. unfold ret at 1.
  unfold bind at 1. rewrite (nothing_to_do_false _ _ _ _ Hli Hsome).
  unfold try_catch, spawn. rewrite Hs.
  cbn -[deliver Json.stringify Earlier.escape_quotes].
  rewrite deliver_app.
  rewrite (deliver_outputs_only Earlier.prompt_audio_listeners
             (fun d => sse (chunk_event d))) by (assumption || reflexivity).
  do 2 eexists. split; [reflexivity|]. repeat split.
Qed.

(** C4, as stated, fails: the client leaves while the child of a [/prompt]
    request is still running, and the child is sent nothing. *)
Lemma C4_counterexample :
  let evs := [Stdout "a"; ReqClose; Stdout "b"] in
  let s := snd (Routes.run Sample.posix Routes.Prompt Sample.hi evs) in
  forallb is_output_or_leave evs = true
  /\ existsb (fun ev => match ev with ReqClose => true | _ => false end) evs
     = true
  /\ option_map kills (child s) = Some 0%nat
  /\ ~ (exists c, child s = Some c /\ (1 <= kills c)%nat)
  /\ written (res s) = ["a"; "b"].
Proof.
  repeat split. intros (c & Hc & Hk). vm_compute in Hc.
  injection Hc as <-. cbn in Hk. lia.
Qed.

(** C4, amended.  On [/prompt] nobody listens to the request's 'close' (the
    listener is commented out): as long as the child has not closed, it is
    sent no signal, whether or not the client has left.  The one call of
    kill is the last step of the 'close' listener, after the child ended. *)
Theorem C4_prompt_signals_only_after_close (env : Env) (req : Req)
    (f : option File) (evs : list Event) :
  single env Routes.upload (part req) = Ok f ->
  passes_validation (body req) f = true ->
  spawn_throws env (Routes.PYTHON_EXECUTABLE env) [Routes.PYTHON_SCRIPT_PATH env]
  = None ->
  forallb is_output_or_leave evs = true ->
  (exists s c,
      Routes.run env Routes.Prompt req evs = (Ok tt, s)
      /\ child s = Some c /\ kills c = 0%nat)
  /\ (forall code, exists s c,
      Routes.run env Routes.Prompt req (evs ++ [Close code]) = (Ok tt, s)
      /\ child s = Some c /\ kills c = 1%nat
      /\ finished (res s) = true).
Proof.
  intros Hm Hv Hs Hev. split.
  - do 2 eexists. split; [apply (@prompt_job env req f Hm Hv evs Hs Hev)|].
    split; reflexivity.
  - intros code. do 2 eexists.
    split; [apply (@prompt_job_closed env req f Hm Hv evs code Hs Hev)|].
    repeat split.
Qed.

Lemma C4_prompt_signals_only_after_close_witness :
  (exists s c,
      Routes.run Sample.posix Routes.Prompt Sample.hi
        [Stdout "a"; ReqClose; Stdout "b"] = (Ok tt, s)
      /\ child s = Some c /\ kills c = 0%nat)
  /\ (forall code, exists s c,
      Routes.run Sample.posix Routes.Prompt Sample.hi
        ([Stdout "a"; ReqClose; Stdout "b"] ++ [Close code]) = (Ok tt, s)
      /\ child s = Some c /\ kills c = 1%nat
      /\ finished (res s) = true).
Proof.
  apply (C4_prompt_signals_only_after_close Sample.posix Sample.hi (f := None));
    reflexivity.
Defined.

(* ================================================================== *)
(** * C5: nothing to do *)

Lemma post_prompt_rejects (env : Env) (b : Body) :
  nothing_sent b None = true ->
  messages_readable b = true ->
  Routes.post_prompt env b None arrived
  = (Ok no_listeners,
     {| res := json_response 400 (Json.Obj
                 [("error", Json.Str "Prompt, images, or audio are required")]);
        child := None; output := EmptyString; errorOutput := EmptyString |}).
Proof.
  unfold nothing_sent, messages_readable.
  destruct b as [[[|c p]|] [[i|]|] [[m|]|]]; simpl; try discriminate;
    try (destruct i as [ | | | |[|x l]|]; try discriminate);
    try (destruct m; try discriminate);
    intros _ _; reflexivity.
Qed.

(** C5, as stated, fails: with nothing to do and a messages field that is
    no JSON, [JSON.parse] throws before the check is reached, and the answer
    is the framework's error page with status 500. *)
Lemma C5_counterexample :
  let s := snd (Routes.run Sample.posix Routes.Prompt Sample.bad_messages []) in
  nothing_sent (body Sample.bad_messages) (part Sample.bad_messages) = true
  /\ statusCode (res s) = 500
  /\ statusCode (res s) <> 400
  /\ errorPage (res s) = Some SyntaxError
  /\ json_calls (res s) = 0%nat.
Proof. repeat split. discriminate. Qed.

(** C5, amended.  A request to [/prompt] with an empty prompt, an empty
    images array and no audio file, whose messages field is absent or parses
    to a value other than null, is answered 400 with a JSON error; no stream
    header is set and no child is started. *)
Theorem C5_nothing_sent_is_400 (env : Env) (req : Req) (evs : list Event) :
  part req = None ->
  nothing_sent (body req) None = true ->
  messages_readable (body req) = true ->
  exists s,
    Routes.run env Routes.Prompt req evs = (Ok tt, s)
    /\ res s = json_response 400 (Json.Obj
                 [("error", Json.Str "Prompt, images, or audio are required")])
    /\ header "Content-Type" (headers (res s))
       = Some "application/json; charset=utf-8"
    /\ header "Cache-Control" (headers (res s)) = None
    /\ header "Connection" (headers (res s)) = None
    /\ child s = None.
Proof.
  intros Hp Hn Hm. unfold Routes.run, serve, single. rewrite Hp.
  cbn [Routes.handler]. rewrite (post_prompt_rejects env _ Hn Hm).
  eexists. split; [reflexivity|]. repeat split.
Qed.

Lemma C5_nothing_sent_is_400_witness :
  exists s,
    Routes.run Sample.posix Routes.Prompt Sample.empty [] = (Ok tt, s)
    /\ res s = json_response 400 (Json.Obj
                 [("error", Json.Str "Prompt, images, or audio are required")])
    /\ header "Content-Type" (headers (res s))
       = Some "application/json; charset=utf-8"
    /\ header "Cache-Control" (headers (res s)) = None
    /\ header "Connection" (headers (res s)) = None
    /\ child s = None.
Proof.
  apply (C5_nothing_sent_is_400 Sample.posix Sample.empty []); reflexivity.
Defined.

(* ================================================================== *)
(** * The calendar *)

(** The years of an era but the last, and the days of a year but the
    last, checked one by one. *)
Lemma years_checked : years_ok 399 0 = true.
Proof. vm_compute. reflexivity. Qed.

Lemma days_checked : days_ok 365 0 = true.
Proof. vm_compute. reflexivity. Qed.

Lemma years_ok_spec (n : nat) (y : Z) :
  years_ok n y = true ->
  forall k, 0 <= k < Z.of_nat n ->
    Date.year_of_era (Date.year_start (y + k)) = y + k
    /\ Date.year_of_era (Date.year_start (y + k + 1) - 1) = y + k.
Proof.
  revert y; induction n as [|n IH]; intros y H k Hk; [lia|].
  cbn [years_ok] in H.
  apply andb_prop in H as [H Hrest]. apply andb_prop in H as [Hfirst Hlast].
  apply Z.eqb_eq in Hfirst, Hlast.
  destruct (Z.eq_dec k 0) as [->|Hne].
  - now rewrite Z.add_0_r.
  - replace (y + k) with (y + 1 + (k - 1)) by lia.
    apply IH; [assumption|lia].
Qed.

Lemma days_ok_spec (n : nat) (doy : Z) :
  days_ok n doy = true ->
  forall k, 0 <= k < Z.of_nat n -> day_ok (doy + k) = true.
Proof.
  revert doy; induction n as [|n IH]; intros doy H k Hk; [lia|].
  cbn [days_ok] in H. apply andb_prop in H as [Hstep Hrest].
  destruct (Z.eq_dec k 0) as [->|Hne].
  - now rewrite Z.add_0_r.
  - replace (doy + k) with (doy + 1 + (k - 1)) by lia.
    apply IH; [assumption|lia].
Qed.

(** Later days of an era fall in later years. *)
Lemma year_of_era_nondecreasing (a b : Z) :
  0 <= a -> a <= b -> b <= 146096 ->
  Date.year_of_era a <= Date.year_of_era b.
Proof.
  intros Ha Hab Hb. unfold Date.year_of_era.
  apply Z.div_le_mono; [lia|].
  Z.div_mod_to_equations. lia.
Qed.

Lemma year_start_step (y : Z) :
  Date.year_start y + 365 <= Date.year_start (y + 1)
  /\ Date.year_start (y + 1) <= Date.year_start y + 366.
Proof. unfold Date.year_start. Z.div_mod_to_equations. lia. Qed.

(** Where a day of the era lies: in the year [year_of_era] names. *)
Lemma year_of_era_spec (doe : Z) :
  0 <= doe <= 146096 ->
  let y := Date.year_of_era doe in
  0 <= y <= 399 /\ 0 <= doe - Date.year_start y <= 365.
Proof.
  intros Hdoe y.
  assert (0 <= y <= 399) as Hy.
  { pose proof (@year_of_era_nondecreasing 0 doe ltac:(lia) ltac:(lia) ltac:(lia)).
    pose proof (@year_of_era_nondecreasing doe 146096 ltac:(lia) ltac:(lia) ltac:(lia)).
    change (Date.year_of_era 0) with 0 in *.
    change (Date.year_of_era 146096) with 399 in *. subst y. lia. }
  split; [assumption|].
  assert (Date.year_start y <= doe) as Hlo.
  { destruct (Z.eq_dec y 0) as [Hz|Hnz].
    - rewrite Hz. change (Date.year_start 0) with 0. lia.
    - destruct (Z_le_gt_dec (Date.year_start y) doe) as [|Hgt]; [assumption|].
      exfalso.
      destruct (@years_ok_spec 399 0 years_checked (y - 1) ltac:(lia))
        as [_ Hlast].
      replace (0 + (y - 1) + 1) with y in Hlast by lia.
      pose proof (@year_of_era_nondecreasing doe (Date.year_start y - 1)
                    ltac:(lia) ltac:(lia)) as Hmono.
      pose proof (year_start_step 399) as Hs399.
      change (Date.year_start (399 + 1)) with 146096 in Hs399.
      assert (Date.year_start y <= 146096) as Hle.
      { destruct (Z.eq_dec y 399) as [->|]; [lia|].
        destruct (@years_ok_spec 399 0 years_checked y ltac:(lia)) as [Hf _].
        pose proof (@year_of_era_nondecreasing 146096 (Date.year_start y)
                      ltac:(lia)) as Hm2.
        destruct (Z_le_gt_dec (Date.year_start y) 146096); [assumption|].
        exfalso. clear Hmono.
        unfold Date.year_start in *. Z.div_mod_to_equations. lia. }
      specialize (Hmono ltac:(lia)). fold y in Hmono. lia. }
  split; [lia|].
  destruct (Z.eq_dec y 399) as [Hy399|Hne].
  - rewrite Hy399. change (Date.year_start 399) with 145731. lia.
  - destruct (Z_le_gt_dec (doe - Date.year_start y) 365) as [|Hgt];
      [assumption|]. exfalso.
    assert (Date.year_of_era (Date.year_start (y + 1)) = y + 1) as Hfirst.
    { destruct (Z.eq_dec y 398) as [Hy398|Hne'].
      - rewrite Hy398. reflexivity.
      - destruct (@years_ok_spec 399 0 years_checked (y + 1) ltac:(lia))
          as [Hfirst _].
        now replace (0 + (y + 1)) with (y + 1) in Hfirst by lia. }
    pose proof (year_start_step y) as Hstep.
    pose proof (@year_of_era_nondecreasing (Date.year_start (y + 1)) doe
                  ltac:(unfold Date.year_start; Z.div_mod_to_equations; lia)
                  ltac:(lia) ltac:(lia)) as Hmono.
    fold y in Hmono. lia.
Qed.


Lemma lex3_lt_spec (y1 m1 d1 y2 m2 d2 : Z) :
  lex3_lt (y1, m1, d1) (y2, m2, d2) = true
  <-> y1 < y2 \/ (y1 = y2 /\ (m1 < m2 \/ (m1 = m2 /\ d1 < d2))).
Proof.
  unfold lex3_lt.
  rewrite !orb_true_iff, !andb_true_iff, !orb_true_iff, !andb_true_iff,
    !Z.ltb_lt, !Z.eqb_eq.
  tauto.
Qed.


Lemma in_range_spec (y m d : Z) :
  in_range (y, m, d) = true
  <-> 0 <= y <= 399 /\ 0 <= m <= 11 /\ 1 <= d <= 31.
Proof.
  unfold in_range. rewrite !andb_true_iff, !Z.leb_le. tauto.
Qed.

Lemma day_ok_spec (doy : Z) :
  0 <= doy < 365 ->
  let '(m, d) := Date.month_day doy in
  let '(m', d') := Date.month_day (doy + 1) in
  0 <= m <= 11 /\ 1 <= d <= 31 /\ (m < m' \/ (m = m' /\ d < d')).
Proof.
  intros H.
  pose proof (@days_ok_spec 365 0 days_checked doy ltac:(lia)) as Hok.
  rewrite Z.add_0_l in Hok. unfold day_ok in Hok.
  destruct (Date.month_day doy) as [m d].
  destruct (Date.month_day (doy + 1)) as [m' d'].
  rewrite !andb_true_iff, orb_true_iff, andb_true_iff, !Z.leb_le, !Z.ltb_lt,
    Z.eqb_eq in Hok.
  tauto.
Qed.

(** A day of an era but the last: its date is in range and earlier than the
    date of the next day. *)
Lemma within_era_step (doe : Z) :
  0 <= doe < 146096 ->
  in_range (Date.within_era doe) = true
  /\ lex3_lt (Date.within_era doe) (Date.within_era (doe + 1)) = true.
Proof.
  intros H.
  destruct (@year_of_era_spec doe ltac:(lia)) as [Hy Hd].
  destruct (@year_of_era_spec (doe + 1) ltac:(lia)) as [Hy' Hd'].
  pose proof (@year_of_era_nondecreasing doe (doe + 1)
                ltac:(lia) ltac:(lia) ltac:(lia)) as Hmono.
  unfold Date.within_era.
  set (y := Date.year_of_era doe) in *.
  set (y' := Date.year_of_era (doe + 1)) in *.
  set (doy := doe - Date.year_start y) in *.
  destruct (Z.eq_dec doy 365) as [Hlast|Hnot].
  - assert (y < y') as Hlt.
    { destruct (Z.eq_dec y y') as [Heq|]; [|lia].
      exfalso. rewrite <- Heq in Hd'. fold doy in Hd'. subst doy. lia. }
    rewrite Hlast. change (Date.month_day 365) with (11, 29).
    destruct (Date.month_day (doe + 1 - Date.year_start y')) as [m' d'].
    split; [apply in_range_spec|apply lex3_lt_spec]; lia.
  - pose proof (@day_ok_spec doy ltac:(lia)) as Hok.
    destruct (Z.eq_dec y y') as [Heq|Hne].
    + rewrite <- Heq.
      replace (doe + 1 - Date.year_start y) with (doy + 1) by (subst doy; lia).
      destruct (Date.month_day doy) as [m d].
      destruct (Date.month_day (doy + 1)) as [m' d'].
      split; [apply in_range_spec|apply lex3_lt_spec]; lia.
    + destruct (Date.month_day doy) as [m d].
      destruct (Date.month_day (doy + 1)) as [m2 d2].
      destruct (Date.month_day (doe + 1 - Date.year_start y')) as [m' d'].
      split; [apply in_range_spec|apply lex3_lt_spec]; lia.
Qed.

(** From one day to the next the date on March-based years grows, and its
    month and day stay in range. *)
Lemma march_based_step (day : Z) :
  lex3_lt (Date.march_based day) (Date.march_based (day + 1)) = true
  /\ 0 <= snd (fst (Date.march_based day)) <= 11
  /\ 1 <= snd (Date.march_based day) <= 31.
Proof.
  unfold Date.march_based.
  set (z := day + 719468). replace (day + 1 + 719468) with (z + 1) by lia.
  pose proof (Z.mod_pos_bound z 146097 ltac:(lia)) as Hdoe.
  pose proof (Z.div_mod z 146097 ltac:(lia)) as Hz.
  destruct (Z.eq_dec (z mod 146097) 146096) as [Hlast|Hnot].
  - assert ((z + 1) mod 146097 = 0 /\ (z + 1) / 146097 = z / 146097 + 1)
      as [Hm Hd].
    { assert (z + 1 = 146097 * (z / 146097 + 1) + 0) as Heq by lia.
      split; [symmetry; eapply Z.mod_unique_pos | symmetry; eapply Z.div_unique_pos];
        try exact Heq; lia. }
    rewrite Hm, Hd, Hlast.
    change (Date.within_era 146096) with (399, 11, 29).
    change (Date.within_era 0) with (0, 0, 1).
    cbn [fst snd]. split; [apply lex3_lt_spec|]; lia.
  - assert ((z + 1) mod 146097 = z mod 146097 + 1
            /\ (z + 1) / 146097 = z / 146097) as [Hm Hd].
    { assert (z + 1 = 146097 * (z / 146097) + (z mod 146097 + 1)) as Heq by lia.
      split; [symmetry; eapply Z.mod_unique_pos | symmetry; eapply Z.div_unique_pos];
        try exact Heq; lia. }
    rewrite Hm, Hd.
    destruct (@within_era_step (z mod 146097) ltac:(lia)) as [Hr Hlt].
    destruct (Date.within_era (z mod 146097)) as [[y1 m1] d1].
    destruct (Date.within_era (z mod 146097 + 1)) as [[y2 m2] d2].
    apply in_range_spec in Hr. apply lex3_lt_spec in Hlt.
    cbn [fst snd]. split; [apply lex3_lt_spec|]; lia.
Qed.

Lemma civil_step (day : Z) :
  lex3_lt (Date.civil day) (Date.civil (day + 1)) = true.
Proof.
  destruct (march_based_step day) as (Hlt & Hm & _).
  destruct (march_based_step (day + 1)) as (_ & Hm' & _).
  unfold Date.civil.
  destruct (Date.march_based day) as [[y1 m1] d1].
  destruct (Date.march_based (day + 1)) as [[y2 m2] d2].
  cbn [fst snd] in *. apply lex3_lt_spec in Hlt.
  destruct (Z.ltb_spec m1 10), (Z.ltb_spec m2 10); apply lex3_lt_spec; lia.
Qed.

Lemma lex3_lt_trans (a b c : Z * Z * Z) :
  lex3_lt a b = true -> lex3_lt b c = true -> lex3_lt a c = true.
Proof.
  destruct a as [[y1 m1] d1], b as [[y2 m2] d2], c as [[y3 m3] d3].
  rewrite !lex3_lt_spec. lia.
Qed.

(** A later day has a later date. *)
Lemma civil_increasing (d1 d2 : Z) :
  d1 < d2 -> lex3_lt (Date.civil d1) (Date.civil d2) = true.
Proof.
  intros H. replace d2 with (d1 + 1 + (d2 - d1 - 1)) by lia.
  assert (0 <= d2 - d1 - 1) as Hn by lia.
  generalize dependent (d2 - d1 - 1). clear H d2.
  intros n Hn. pattern n. apply natlike_ind; [| |assumption].
  - rewrite Z.add_0_r. apply civil_step.
  - intros k Hk IH. eapply lex3_lt_trans; [exact IH|].
    replace (d1 + 1 + Z.succ k) with (d1 + 1 + k + 1) by lia.
    apply civil_step.
Qed.

(* ================================================================== *)
(** * Timestamps in order *)

Lemma ascii_compare_refl (c : ascii) : Ascii.compare c c = Eq.
Proof. unfold Ascii.compare. apply N.compare_refl. Qed.

Lemma compare_app_same (a x y : string) :
  String.compare (a ++ x) (a ++ y) = String.compare x y.
Proof.
  induction a as [|c a IH]; simpl; [reflexivity|].
  now rewrite ascii_compare_refl.
Qed.

Lemma compare_app_decided (a b x y : string) (c : comparison) :
  String.length a = String.length b ->
  String.compare a b = c -> c <> Eq ->
  String.compare (a ++ x) (b ++ y) = c.
Proof.
  revert b; induction a as [|ca a IH]; intros [|cb b] Hlen Hc Hne;
    simpl in *; try discriminate; try congruence.
  destruct (Ascii.compare ca cb); try assumption.
  apply IH; congruence.
Qed.

Lemma string_length_app (a b : string) :
  String.length (a ++ b) = (String.length a + String.length b)%nat.
Proof. induction a as [|c a IH]; simpl; [reflexivity|now rewrite IH]. Qed.

Lemma pad_length (w : nat) (n : Z) : String.length (Date.pad w n) = w.
Proof.
  revert n; induction w as [|w IH]; intros n; simpl; [reflexivity|].
  rewrite string_length_app, IH. simpl. lia.
Qed.

Lemma digit_code (n : Z) : N_of_ascii (Date.digit n) = Z.to_N (48 + n mod 10).
Proof.
  unfold Date.digit.
  pose proof (Z.mod_pos_bound n 10 ltac:(lia)) as H.
  assert (n mod 10 = 0 \/ n mod 10 = 1 \/ n mod 10 = 2 \/ n mod 10 = 3
          \/ n mod 10 = 4 \/ n mod 10 = 5 \/ n mod 10 = 6 \/ n mod 10 = 7
          \/ n mod 10 = 8 \/ n mod 10 = 9) as Hcases by lia.
  repeat (destruct Hcases as [->|Hcases]; [reflexivity|]).
  now rewrite Hcases.
Qed.

Lemma digit_compare (x y : Z) :
  Ascii.compare (Date.digit x) (Date.digit y) = (x mod 10 ?= y mod 10).
Proof.
  unfold Ascii.compare. rewrite !digit_code.
  pose proof (Z.mod_pos_bound x 10 ltac:(lia)).
  pose proof (Z.mod_pos_bound y 10 ltac:(lia)).
  rewrite Z2N.inj_compare by lia.
  apply Z.add_compare_mono_l.
Qed.

(** Fields of the same width compare as their values do. *)
Lemma pad_compare (w : nat) (x y : Z) :
  0 <= x < 10 ^ Z.of_nat w -> 0 <= y < 10 ^ Z.of_nat w ->
  String.compare (Date.pad w x) (Date.pad w y) = (x ?= y).
Proof.
  revert x y; induction w as [|w IH]; intros x y Hx Hy.
  - change (10 ^ Z.of_nat 0) with 1 in *.
    assert (x = 0) by lia. assert (y = 0) by lia. now subst.
  - rewrite Nat2Z.inj_succ, Z.pow_succ_r in Hx, Hy by lia.
    cbn [Date.pad].
    pose proof (Z.div_mod x 10 ltac:(lia)) as Hdx.
    pose proof (Z.div_mod y 10 ltac:(lia)) as Hdy.
    pose proof (Z.mod_pos_bound x 10 ltac:(lia)) as Hmx.
    pose proof (Z.mod_pos_bound y 10 ltac:(lia)) as Hmy.
    assert (0 <= x / 10 < 10 ^ Z.of_nat w) as Hqx by
      (split; [apply Z.div_pos; lia | apply Z.div_lt_upper_bound; lia]).
    assert (0 <= y / 10 < 10 ^ Z.of_nat w) as Hqy by
      (split; [apply Z.div_pos; lia | apply Z.div_lt_upper_bound; lia]).
    specialize (IH _ _ Hqx Hqy).
    destruct (Z.compare_spec (x / 10) (y / 10)) as [Heq|Hlt|Hgt].
    + rewrite Heq, compare_app_same. unfold Js.str1. cbn [String.compare].
      rewrite digit_compare.
      destruct (Z.compare_spec (x mod 10) (y mod 10));
        symmetry; [apply Z.compare_eq_iff|apply Z.compare_lt_iff
                  |apply Z.compare_gt_iff]; lia.
    + rewrite (compare_app_decided _ _ _ _ (c := Lt));
        [|now rewrite !pad_length|assumption|discriminate].
      symmetry. apply Z.compare_lt_iff. lia.
    + rewrite (compare_app_decided _ _ _ _ (c := Gt));
        [|now rewrite !pad_length|assumption|discriminate].
      symmetry. apply Z.compare_gt_iff. lia.
Qed.

(** Two timestamps of the same shape compare as their rows of values do. *)
Lemma render_compare (a b : list Field) :
  same_shape a b ->
  String.compare (render a) (render b) = lex_compare a b.
Proof.
  revert b; induction a as [|[[w x] sep] a IH]; intros [|[[w' y] sep'] b];
    simpl; try tauto.
  intros (<- & <- & Hx & Hy & Hrest).
  pose proof (pad_compare w Hx Hy) as Hc.
  destruct (x ?= y) eqn:Hxy.
  - apply Z.compare_eq_iff in Hxy. subst y.
    rewrite !compare_app_same. now apply IH.
  - apply compare_app_decided;
      [now rewrite !pad_length|assumption|discriminate].
  - apply compare_app_decided;
      [now rewrite !pad_length|assumption|discriminate].
Qed.

(** The clock of the day, taken apart. *)
Lemma time_within_day (tv : Date.t) :
  let w := Date.TimeWithinDay tv in
  w = 3600000 * Date.HourFromTime tv + 60000 * Date.MinFromTime tv
      + 1000 * Date.SecFromTime tv + Date.msFromTime tv
  /\ 0 <= Date.HourFromTime tv < 24
  /\ 0 <= Date.MinFromTime tv < 60
  /\ 0 <= Date.SecFromTime tv < 60
  /\ 0 <= Date.msFromTime tv < 1000.
Proof.
  unfold Date.HourFromTime, Date.MinFromTime, Date.SecFromTime,
    Date.msFromTime.
  pose proof (Z.mod_pos_bound tv Date.msPerDay ltac:(reflexivity)) as Hw.
  unfold Date.TimeWithinDay. unfold Date.msPerDay in *.
  set (w := tv mod 86400000) in *. cbv zeta.
  Z.div_mod_to_equations. lia.
Qed.

Lemma date_in_range (day : Z) :
  1 <= snd (fst (Date.civil day)) <= 12 /\ 1 <= snd (Date.civil day) <= 31.
Proof.
  destruct (march_based_step day) as (_ & Hm & Hd).
  unfold Date.civil.
  destruct (Date.march_based day) as [[y m] d]. cbn [fst snd] in *.
  destruct (Z.ltb_spec m 10); cbn [fst snd]; lia.
Qed.

Lemma civil_nondecreasing (d1 d2 : Z) :
  d1 <= d2 -> lex3_le (Date.civil d1) (Date.civil d2).
Proof.
  intros H. destruct (Z.eq_dec d1 d2) as [->|Hne]; [now right|left].
  apply civil_increasing. lia.
Qed.

(** The years 0000..9999. *)
Lemma year_in_range (tv : Date.t) :
  Date.first_4digit <= tv <= Date.last_4digit ->
  0 <= Date.YearFromTime tv <= 9999.
Proof.
  intros [Hlo Hhi]. unfold Date.YearFromTime.
  assert (Date.Day Date.first_4digit <= Date.Day tv) as Hdlo
      by (apply Z.div_le_mono; [reflexivity|assumption]).
  assert (Date.Day tv <= Date.Day Date.last_4digit) as Hdhi
      by (apply Z.div_le_mono; [reflexivity|assumption]).
  apply civil_nondecreasing in Hdlo, Hdhi.
  change (Date.civil (Date.Day Date.first_4digit)) with (0, 1, 1) in Hdlo.
  change (Date.civil (Date.Day Date.last_4digit)) with (9999, 12, 31) in Hdhi.
  destruct (Date.civil (Date.Day tv)) as [[y m] d]. cbn [fst].
  unfold lex3_le in *. rewrite lex3_lt_spec in Hdlo, Hdhi.
  split.
  - destruct Hdlo as [Hdlo|Hdlo]; [lia|]. injection Hdlo. lia.
  - destruct Hdhi as [Hdhi|Hdhi]; [lia|]. injection Hdhi. lia.
Qed.

Lemma toISOString_render (tv : Date.t) :
  0 <= Date.YearFromTime tv <= 9999 ->
  Date.toISOString tv = render (fields tv).
Proof.
  intros [Hlo Hhi]. unfold Date.toISOString, Date.year_text.
  apply Z.leb_le in Hlo, Hhi. rewrite Hlo, Hhi. reflexivity.
Qed.

Lemma fields_same_shape (t1 t2 : Date.t) :
  0 <= Date.YearFromTime t1 <= 9999 ->
  0 <= Date.YearFromTime t2 <= 9999 ->
  same_shape (fields t1) (fields t2).
Proof.
  intros Hy1 Hy2.
  destruct (time_within_day t1) as (_ & Hh1 & Hmi1 & Hs1 & Hms1).
  destruct (time_within_day t2) as (_ & Hh2 & Hmi2 & Hs2 & Hms2).
  destruct (date_in_range (Date.Day t1)) as [Hm1 Hd1].
  destruct (date_in_range (Date.Day t2)) as [Hm2 Hd2].
  unfold fields, same_shape, Date.MonthFromTime, Date.DateFromTime.
  change (10 ^ Z.of_nat 4) with 10000. change (10 ^ Z.of_nat 2) with 100.
  change (10 ^ Z.of_nat 3) with 1000.
  repeat split; lia.
Qed.

(** A later time value has a later row of fields. *)
Lemma fields_nondecreasing (t1 t2 : Date.t) :
  t1 <= t2 -> lex_compare (fields t1) (fields t2) <> Gt.
Proof.
  intros H.
  assert (Date.Day t1 <= Date.Day t2) as Hday
      by (apply Z.div_le_mono; [reflexivity|assumption]).
  destruct (time_within_day t1) as (Hw1 & Hh1 & Hmi1 & Hs1 & Hms1).
  destruct (time_within_day t2) as (Hw2 & Hh2 & Hmi2 & Hs2 & Hms2).
  unfold fields, lex_compare, Date.YearFromTime, Date.MonthFromTime,
    Date.DateFromTime.
  destruct (Z.eq_dec (Date.Day t1) (Date.Day t2)) as [Heq|Hne].
  - rewrite Heq, !Z.compare_refl.
    assert (Date.TimeWithinDay t1 <= Date.TimeWithinDay t2) as Hw.
    { unfold Date.TimeWithinDay, Date.Day in *.
      pose proof (Z.div_mod t1 Date.msPerDay ltac:(discriminate)).
      pose proof (Z.div_mod t2 Date.msPerDay ltac:(discriminate)).
      rewrite Heq in *. lia. }
    cbv zeta in Hw1, Hw2.
    destruct (Z.compare_spec (Date.HourFromTime t1) (Date.HourFromTime t2));
      [|discriminate|lia].
    destruct (Z.compare_spec (Date.MinFromTime t1) (Date.MinFromTime t2));
      [|discriminate|lia].
    destruct (Z.compare_spec (Date.SecFromTime t1) (Date.SecFromTime t2));
      [|discriminate|lia].
    destruct (Z.compare_spec (Date.msFromTime t1) (Date.msFromTime t2));
      [discriminate|discriminate|lia].
  - pose proof (civil_increasing (d1 := Date.Day t1) (d2 := Date.Day t2)
                  ltac:(lia)) as Hlt.
    destruct (Date.civil (Date.Day t1)) as [[y1 m1] d1].
    destruct (Date.civil (Date.Day t2)) as [[y2 m2] d2].
    cbn [fst snd]. apply lex3_lt_spec in Hlt.
    destruct (Z.compare_spec y1 y2); [|discriminate|lia].
    destruct (Z.compare_spec m1 m2); [|discriminate|lia].
    destruct (Z.compare_spec d1 d2); [lia|discriminate|lia].
Qed.

(** Within the years 0000..9999, [toISOString] keeps the order of the time
    values: a later reading of the clock prints a later timestamp. *)
Lemma toISOString_nondecreasing (t1 t2 : Date.t) :
  Date.first_4digit <= t1 -> t1 <= t2 -> t2 <= Date.last_4digit ->
  Date.le (Date.toISOString t1) (Date.toISOString t2).
Proof.
  intros Hlo H Hhi.
  pose proof (@year_in_range t1 ltac:(lia)) as Hy1.
  pose proof (@year_in_range t2 ltac:(lia)) as Hy2.
  unfold Date.le.
  rewrite (@toISOString_render t1 Hy1), (@toISOString_render t2 Hy2).
  rewrite (@render_compare _ _ (@fields_same_shape t1 t2 Hy1 Hy2)).
  now apply fields_nondecreasing.
Qed.

(* ================================================================== *)
(** * C9: [/health] *)

(** [res.json] touches the response and nothing else. *)
Lemma res_json_touches_res (obj : Json.t) (s : State) :
  let s' := snd (res_json obj s) in
  child s' = child s /\ output s' = output s
  /\ errorOutput s' = errorOutput s.
Proof.
  destruct s as [[sc hs sent w fin ep jc] c o e].
  unfold res_json, bind, with_res, get_state, res_setHeader, res_write,
    res_end, throw.
  cbn [res headersSent finished child output errorOutput].
  destruct sent; cbn -[Json.stringify]; [repeat split|].
  destruct fin; cbn -[Json.stringify]; repeat split.
Qed.

(** C9.  Every call of [/health] answers 200 with status OK and the
    timestamp of the clock reading it made, and touches nothing but its own
    response.  Of two calls, the second reading the clock no earlier than
    the first (readings within the years 0000..9999), the second returns a
    timestamp that is greater than or equal to the first one's. *)
Theorem C9_health_ok_and_nondecreasing (now1 now2 : Date.t) :
  Date.first_4digit <= now1 -> now1 <= now2 -> now2 <= Date.last_4digit ->
  let answer now :=
    Json.Obj [("status", Json.Str "OK");
              ("timestamp", Json.Str (Date.toISOString now))] in
  (forall now,
      Routes.get_health now arrived
      = (Ok tt, set_res (json_response 200 (answer now)) arrived)
      /\ Json.get "status" (answer now) = Some (Json.Str "OK")
      /\ Json.get "timestamp" (answer now)
         = Some (Json.Str (Date.toISOString now)))
  /\ Date.le (Date.toISOString now1) (Date.toISOString now2)
  /\ (forall now s,
      let s' := snd (Routes.get_health now s) in
      child s' = child s /\ output s' = output s
      /\ errorOutput s' = errorOutput s).
Proof.
  intros Hlo H Hhi answer. split; [|split].
  - intros now. repeat split.
  - now apply toISOString_nondecreasing.
  - intros now s. apply res_json_touches_res.
Qed.

Lemma C9_health_ok_and_nondecreasing_witness :
  Date.toISOString 0 = "1970-01-01T00:00:00.000Z"
  /\ Date.toISOString 1793631600123 = "2026-11-02T15:00:00.123Z"
  /\ Date.le (Date.toISOString 0) (Date.toISOString 1793631600123).
Proof.
  split; [reflexivity|]. split; [reflexivity|].
  apply (C9_health_ok_and_nondecreasing (now1 := 0) (now2 := 1793631600123));
    unfold Date.first_4digit, Date.last_4digit; lia.
Defined.

(* ================================================================== *)
(** * More on the router *)

(** What the close listener of [/upload-document] answers with. *)
Lemma upload_close (name : string) (sz : Z) (code : option Z) (c : Child)
    (out err : string) :
  deliver (Routes.upload_listeners name sz) [Close code]
    {| res := res arrived; child := Some c; output := out; errorOutput := err |}
  = (Ok tt,
     {| res :=
          if code_is_0 code
          then json_response 200 (Json.Obj
                 [("success", Json.Bool true);
                  ("message", Json.Str
                     "Document processed and added to knowledge base successfully");
                  ("filename", Json.Str name);
                  ("size", Json.Num sz);
                  ("output", Json.Str (Js.trim out))])
          else json_response 500 (Json.Obj
                 [("success", Json.Bool false);
                  ("error", Json.Str "Failed to process document for RAG");
                  ("details", Json.Str (Js.or_else err out));
                  ("filename", Json.Str name)]);
        child := Some c; output := out; errorOutput := err |}).
Proof.
  destruct (code_is_0 code) eqn:H0; simpl; unfold bind at 1; simpl;
    unfold bind at 1; simpl; rewrite H0; reflexivity.
Qed.

(** X1.  A document that reached [/upload-document], whose child starts,
    produces output and closes with [code]: the answer is 200 with the
    file's own name and size and the trimmed stdout when [code] is 0, and
    otherwise 500 with the name and, as details, the stderr text if there is
    any and the stdout text if not. *)
Theorem upload_document_answer (env : Env) (req : Req) (file : File)
    (evs : list Event) (code : option Z) :
  single env Routes.documentUpload (part req) = Ok (Some file) ->
  spawn_throws env "python3" [Routes.PYTHON_SCRIPT_PATH env] = None ->
  forallb is_output evs = true ->
  exists s,
    Routes.run env Routes.UploadDocument req (evs ++ [Close code]) = (Ok tt, s)
    /\ res s =
       if code_is_0 code
       then json_response 200 (Json.Obj
              [("success", Json.Bool true);
               ("message", Json.Str
                  "Document processed and added to knowledge base successfully");
               ("filename", Json.Str (originalname file));
               ("size", Json.Num (size file));
               ("output", Json.Str (Js.trim (joined (stdout_chunks evs))))])
       else json_response 500 (Json.Obj
              [("success", Json.Bool false);
               ("error", Json.Str "Failed to process document for RAG");
               ("details",
                Json.Str (Js.or_else (joined (stderr_chunks evs))
                                     (joined (stdout_chunks evs))));
               ("filename", Json.Str (originalname file))]).
Proof.
  intros Hm Hs Hev. unfold Routes.run. cbn [Routes.middleware Routes.handler].
  rewrite (@serve_job _ _ _ _ _ _ _ _ _ Hm (post_upload_starts _ _ _ Hs) eq_refl).
  rewrite deliver_app.
  rewrite (deliver_collect (Routes.upload_listeners _ _))
    by (assumption || reflexivity).
  unfold collecting. cbn [res child output errorOutput append].
  rewrite upload_close. eexists. split; reflexivity.
Qed.

Lemma upload_document_answer_witness :
  exists s,
    Routes.run Sample.posix Routes.UploadDocument (Sample.with_file Sample.pdf)
      ([Stderr "warning: slow"; Stdout "partial "; Stdout "trace"]
         ++ [Close (Some 1)]) = (Ok tt, s)
    /\ res s = json_response 500 (Json.Obj
                 [("success", Json.Bool false);
                  ("error", Json.Str "Failed to process document for RAG");
                  ("details", Json.Str "warning: slow");
                  ("filename", Json.Str "x.pdf")]).
Proof.
  apply (upload_document_answer Sample.posix (Sample.with_file Sample.pdf)
           (file := Sample.pdf)
           [Stderr "warning: slow"; Stdout "partial "; Stdout "trace"]
           (Some 1)); reflexivity.
Defined.

(** X2.  [/transcribe-audio] and [/upload-document] without a file answer
    400 with their own message and start nothing. *)
Theorem no_file_is_400 (env : Env) (ep : Routes.Endpoint) (req : Req)
    (evs : list Event) :
  ep <> Routes.Prompt ->
  part req = None ->
  exists s,
    Routes.run env ep req evs = (Ok tt, s)
    /\ res s = json_response 400 (Json.Obj
         [("error", Json.Str match ep with
                             | Routes.UploadDocument => "No document file provided"
                             | _ => "No audio file provided"
                             end)])
    /\ child s = None.
Proof.
  intros Hep Hp. unfold Routes.run, serve, single. rewrite Hp.
  destruct ep; [contradiction| |]; eexists; repeat split.
Qed.

Lemma no_file_is_400_witness :
  exists s,
    Routes.run Sample.posix Routes.TranscribeAudio Sample.hi [Stdout "x"]
    = (Ok tt, s)
    /\ res s = json_response 400 (Json.Obj
         [("error", Json.Str "No audio file provided")])
    /\ child s = None.
Proof.
  apply (no_file_is_400 Sample.posix (ep := Routes.TranscribeAudio) Sample.hi);
    [discriminate | reflexivity].
Defined.

(** X3.  The upload middleware of [/upload-document] decides on the declared
    type and the size alone: a part is let through exactly when it is
    declared application/pdf and is below 20 MiB (or exactly 20 MiB, where
    the parser allows that); a part declared otherwise is refused with the
    filter's own error, whatever its size. *)
Theorem documentUpload_decides (env : Env) (f : File) :
  (single env Routes.documentUpload (Some f) = Ok (Some f)
   <-> mimetype f = "application/pdf"
       /\ (size f < 20 * 1024 * 1024
           \/ (size f = 20 * 1024 * 1024 /\ limit_reached_rejects env = false)))
  /\ (mimetype f <> "application/pdf" ->
      single env Routes.documentUpload (Some f)
      = Throw (PlainError "Only PDF files are allowed"))
  /\ (forall r, single env Routes.documentUpload (Some f) = Ok r ->
      r = Some f).
Proof.
  unfold single.
  cbn [Routes.documentUpload fileFilter fileSize].
  destruct (String.eqb_spec (mimetype f) "application/pdf") as [Heq|Hne];
    [|intuition (discriminate || congruence)].
  destruct (Z.ltb_spec (20 * 1024 * 1024) (size f));
    [intuition (discriminate || congruence || lia)|].
  destruct (Z.eqb_spec (size f) (20 * 1024 * 1024)) as [Hs|Hs];
    destruct (limit_reached_rejects env); cbn [andb];
    intuition (discriminate || congruence || lia).
Qed.



(** The listeners of [/prompt] never touch the status. *)
Lemma prompt_dispatch_keeps_status (ev : Event) (s : State) :
  statusCode (res (snd (dispatch Routes.prompt_listeners ev s)))
  = statusCode (res s).
Proof.
  destruct ev as [d|d|c|m|]; cbn [dispatch Routes.prompt_listeners on_stdout
    on_stderr on_close on_error on_req_close];
    unfold res_write, res_end, kill, bind, get_state, with_res, with_child,
      throw, ret;
    try reflexivity; destruct (finished (res s)); reflexivity.
Qed.

Lemma prompt_listeners_keep_status (evs : list Event) (s : State) :
  statusCode (res (snd (deliver Routes.prompt_listeners evs s)))
  = statusCode (res s).
Proof.
  revert s; induction evs as [|ev evs IH]; intros s; [reflexivity|].
  cbn [deliver]. unfold bind.
  pose proof (prompt_dispatch_keeps_status ev s) as H.
  destruct (dispatch Routes.prompt_listeners ev s) as [[[]|e] s'];
    cbn [snd] in *; [rewrite IH|]; exact H.
Qed.

Lemma fields_readable_inv (b : Body) :
  fields_readable b = true ->
  exists i m len lenm,
    parse_or_empty (images b) = ret i /\
    parse_or_empty (messages b) = ret m /\
    parsed_or_empty (images b) = i /\
    length_of i = Ok len /\ length_of m = Ok lenm.
Proof.
  unfold fields_readable, parsed_or_empty.
  destruct b as [p [[i|]|] [[m|]|]]; cbn [images messages parsed parse_or_empty];
    try discriminate;
    repeat match goal with v : Json.t |- _ => destruct v end;
    try discriminate; intros _; do 4 eexists; repeat split; reflexivity.
Qed.

(** X5.  On a request whose JSON fields are readable, [/prompt] answers 400
    exactly when the prompt is empty, [images.length] is 0 and no file is
    attached; an attached file counts even when it is empty, and so does an
    images value that has no length at all.  Nothing that happens later
    changes the status. *)
Theorem prompt_400_iff (env : Env) (req : Req) (f : option File)
    (evs : list Event) :
  single env Routes.upload (part req) = Ok f ->
  fields_readable (body req) = true ->
  (statusCode (res (snd (Routes.run env Routes.Prompt req evs))) = 400
   <-> nothing_given (body req) f = true).
Proof.
  intros Hm Hr.
  destruct (fields_readable_inv _ Hr)
    as (i & m & len & lenm & Hi & Hmm & Hpi & Hli & Hlm).
  unfold Routes.run, serve. cbn [Routes.middleware Routes.handler].
  rewrite Hm. unfold nothing_given. rewrite Hpi, Hli.
  unfold Routes.post_prompt. rewrite Hi, Hmm.
  unfold bind at 1. unfold ret at 1.
  unfold bind at 1. unfold ret at 1.
  unfold bind at 1. unfold lift at 1. rewrite Hli.
  unfold bind at 1. unfold lift at 1. rewrite Hlm.
  unfold bind at 1. unfold nothing_to_do.
  destruct (Js.truthy (prompt_or_empty (prompt (body req)))) eqn:Hp.
  - cbn [negb andb]. unfold ret at 1. cbv iota.
    unfold try_catch, spawn.
    destruct (spawn_throws env _ _) as [msg|].
    + cbn. split; discriminate.
    + cbn -[deliver Json.stringify].
      rewrite prompt_listeners_keep_status. cbn. split; discriminate.
  - unfold bind at 1. unfold lift at 1. rewrite Hli. unfold ret at 1.
    cbn [negb andb].
    destruct (is_0 len); cbn [andb].
    + destruct f as [file|]; cbn [option_map is_some negb].
      * unfold try_catch, spawn.
        destruct (spawn_throws env _ _) as [msg|].
        -- cbn. split; discriminate.
        -- cbn -[deliver Json.stringify].
           rewrite prompt_listeners_keep_status. cbn. split; discriminate.
      * cbn. split; reflexivity.
    + unfold try_catch, spawn.
      destruct (spawn_throws env _ _) as [msg|].
      * cbn. split; discriminate.
      * cbn -[deliver Json.stringify].
        rewrite prompt_listeners_keep_status. cbn. split; discriminate.
Qed.

Lemma prompt_400_iff_witness :
  statusCode (res (snd (Routes.run Sample.posix Routes.Prompt
                          (Sample.with_file
                             {| mimetype := "audio/wav"; originalname := "e.wav";
                                size := 0; buffer := EmptyString |})
                          [Close (Some 0)]))) = 400
  <-> nothing_given Sample.no_fields
        (Some {| mimetype := "audio/wav"; originalname := "e.wav";
                 size := 0; buffer := EmptyString |}) = true.
Proof.
  apply (prompt_400_iff Sample.posix
           (Sample.with_file
              {| mimetype := "audio/wav"; originalname := "e.wav";
                 size := 0; buffer := EmptyString |})
           [Close (Some 0)]); reflexivity.
Defined.

Lemma deliver_no_stderr (l : Listeners) (evs : list Event) (s : State) :
  on_stderr l = Some (fun _ => ret tt) ->
  deliver l (no_stderr evs) s = deliver l evs s.
Proof.
  intros Hl. revert s; induction evs as [|ev evs IH]; intros s; [reflexivity|].
  destruct ev as [d|d|c|m|]; cbn [no_stderr deliver]; unfold bind;
    try (destruct (dispatch l _ s) as [[[]|e] s']; [apply IH|reflexivity]).
  cbn [dispatch]. rewrite Hl. unfold ret. apply IH.
Qed.

(** X6.  What the child writes to its error stream never reaches the client
    of [/prompt]: a job answers byte for byte as it would without its stderr
    chunks, however the job goes on. *)
Theorem prompt_ignores_stderr (env : Env) (req : Req) (f : option File)
    (evs : list Event) :
  single env Routes.upload (part req) = Ok f ->
  passes_validation (body req) f = true ->
  spawn_throws env (Routes.PYTHON_EXECUTABLE env) [Routes.PYTHON_SCRIPT_PATH env]
  = None ->
  Routes.run env Routes.Prompt req evs
  = Routes.run env Routes.Prompt req (no_stderr evs).
Proof.
  intros Hm Hv Hs. unfold Routes.run. cbn [Routes.middleware Routes.handler].
  rewrite !(@serve_job _ _ _ _ _ _ _ _ _ Hm (post_prompt_starts _ _ _ Hv Hs)
              eq_refl).
  symmetry. now apply deliver_no_stderr.
Qed.

Lemma prompt_ignores_stderr_witness :
  Routes.run Sample.posix Routes.Prompt Sample.hi
    [Stderr "Traceback"; Stdout "a"; Stderr "x"; Close (Some 1)]
  = Routes.run Sample.posix Routes.Prompt Sample.hi
      (no_stderr [Stderr "Traceback"; Stdout "a"; Stderr "x"; Close (Some 1)]).
Proof.
  apply (prompt_ignores_stderr Sample.posix Sample.hi (f := None)); reflexivity.
Defined.

(* ------------------------------------------------------------------ *)
(** ** Binary attachments in the payload *)

Lemma sextet_base64 (n : nat) : is_base64_char (Buffer.sextet n) = true.
Proof.
  unfold Buffer.sextet.
  do 64 (destruct n as [|n]; [reflexivity|]). reflexivity.
Qed.

Lemma base64_chars (buf : Buffer.t) :
  all_chars is_base64_char (Buffer.base64 buf) = true.
Proof.
  revert buf.
  fix IH 1. intros [|a [|b [|c r]]]; cbn [Buffer.base64 all_chars].
  - reflexivity.
  - now rewrite !sextet_base64.
  - now rewrite !sextet_base64.
  - now rewrite !sextet_base64, IH.
Qed.

Lemma escape_char_base64 (c : ascii) :
  is_base64_char c = true -> Json.escape_char c = Js.str1 c.
Proof.
  destruct c as [[] [] [] [] [] [] [] []]; intros H;
    try discriminate H; reflexivity.
Qed.

Lemma escape_base64_text (s : string) :
  all_chars is_base64_char s = true -> Json.escape s = s.
Proof.
  induction s as [|c s IH]; cbn [all_chars Json.escape]; intros H;
    [reflexivity|].
  apply andb_prop in H as [Hc Hs].
  now rewrite (escape_char_base64 _ Hc), IH.
Qed.

Lemma base64_length (buf : Buffer.t) :
  String.length (Buffer.base64 buf)
  = (4 * ((String.length buf + 2) / 3))%nat.
Proof.
  revert buf.
  fix IH 1. intros [|a [|b [|c r]]]; cbn [Buffer.base64 String.length].
  - reflexivity.
  - reflexivity.
  - reflexivity.
  - rewrite IH.
    replace (S (S (S (String.length r))) + 2)%nat
      with (String.length r + 2 + 1 * 3)%nat by lia.
    rewrite Nat.div_add by discriminate. lia.
Qed.

(** X7.  An attachment enters the payload as base64 text, four characters
    for every three bytes begun, all of them letters, digits, plus, slash or
    the equals sign; [JSON.stringify] therefore embeds the text unchanged,
    between two double quotes. *)
Theorem attachment_is_embedded_verbatim (buf : Buffer.t) :
  all_chars is_base64_char (Buffer.base64 buf) = true
  /\ String.length (Buffer.base64 buf)
     = (4 * ((String.length buf + 2) / 3))%nat
  /\ Json.stringify (Json.Str (Buffer.base64 buf))
     = String Js.dquote (Buffer.base64 buf ++ Js.str1 Js.dquote).
Proof.
  split; [apply base64_chars|]. split; [apply base64_length|].
  cbn [Json.stringify]. unfold Json.quote.
  now rewrite (escape_base64_text _ (base64_chars buf)).
Qed.

(* ================================================================== *)
(** * More on the earlier revision: [/prompt-audio] *)

(** The payload [/prompt-audio] puts in the argument vector. *)
Lemma post_prompt_audio_starts (env : Env) (b : Body) (f : option File) :
  passes_validation b f = true ->
  (forall a, spawn_throws env "python3" a = None) ->
  exists payload,
    Json.get "prompt" payload = Some (Json.Str (prompt_or_empty (prompt b)))
    /\ Json.get "audio" payload
       = Some (match f with
               | Some file => Json.Str (Buffer.base64 (buffer file))
               | None => Json.Null
               end)
    /\ Earlier.post_prompt_audio env b f arrived
       = (Ok Earlier.prompt_audio_listeners,
          streaming
            {| file := "python3";
               args := [Earlier.PYTHON_SCRIPT_PATH env;
                        "'" ++ Earlier.escape_quotes (Json.stringify payload)
                            ++ "'"];
               stdin := []; stdin_ended := false; kills := 0 |}).
Proof.
  intros Hv Hs.
  destruct (passes_validation_inv _ _ Hv)
    as (i & m & len & lenm & Hi & Hmm & Hpi & Hpm & Hli & Hlm & Hsome).
  unfold Earlier.post_prompt_audio. rewrite Hi, Hmm.
  unfold bind at 1. unfold ret at 1.
  unfold bind at 1. unfold ret at 1.
  unfold bind at 1. rewrite (nothing_to_do_false _ _ _ _ Hli Hsome).
  unfold try_catch, spawn. rewrite Hs.
  eexists. split; [|split; [|reflexivity]].
  - reflexivity.
  - cbn. now destruct f.
Qed.

(** X8.  [/prompt-audio] hands the payload over in the argument vector:
    the child gets two arguments, the script and the payload text with its
    double quotes escaped, between apostrophes; nothing is ever written to
    its standard input, which stays open. *)
Theorem prompt_audio_payload_in_argv (env : Env) (req : Req)
    (f : option File) (evs : list Event) :
  single env Earlier.upload (part req) = Ok f ->
  passes_validation (body req) f = true ->
  (forall a, spawn_throws env "python3" a = None) ->
  forallb is_output evs = true ->
  exists s c payload,
    serve env Earlier.upload (Earlier.post_prompt_audio env) req evs = (Ok tt, s)
    /\ child s = Some c
    /\ file c = "python3"
    /\ args c = [Earlier.PYTHON_SCRIPT_PATH env;
                 "'" ++ Earlier.escape_quotes (Json.stringify payload) ++ "'"]
    /\ Json.get "prompt" payload
       = Some (Json.Str (prompt_or_empty (prompt (body req))))
    /\ stdin c = []
    /\ stdin_ended c = false
    /\ written (res s) = map (fun d => sse (chunk_event d)) (stdout_chunks evs).
Proof.
  intros Hm Hv Hs Hev.
  destruct (post_prompt_audio_starts env _ _ Hv Hs)
    as (payload & Hp & _ & Hstart).
  rewrite (@serve_job _ _ _ _ _ _ _ _ evs Hm Hstart eq_refl).
  rewrite (deliver_outputs_only Earlier.prompt_audio_listeners
             (fun d => sse (chunk_event d))) by (assumption || reflexivity).
  do 3 eexists. split; [reflexivity|]. repeat split. exact Hp.
Qed.

Lemma prompt_audio_payload_in_argv_witness :
  exists s c payload,
    serve Sample.posix Earlier.upload (Earlier.post_prompt_audio Sample.posix)
      Sample.hi [Stdout "a"] = (Ok tt, s)
    /\ child s = Some c
    /\ file c = "python3"
    /\ args c = [Earlier.PYTHON_SCRIPT_PATH Sample.posix;
                 "'" ++ Earlier.escape_quotes (Json.stringify payload) ++ "'"]
    /\ Json.get "prompt" payload
       = Some (Json.Str (prompt_or_empty (prompt (body Sample.hi))))
    /\ stdin c = []
    /\ stdin_ended c = false
    /\ written (res s)
       = map (fun d => sse (chunk_event d)) (stdout_chunks [Stdout "a"]).
Proof.
  apply (prompt_audio_payload_in_argv Sample.posix Sample.hi (f := None));
    reflexivity.
Defined.

(** X9.  On [/prompt-audio] a child that fails reports through the stream:
    after the chunks written so far comes one error event with the message
    of the failure, and then the response is ended; the status stays 200. *)
Theorem prompt_audio_error_in_stream (env : Env) (req : Req)
    (f : option File) (evs : list Event) (message : string) :
  single env Earlier.upload (part req) = Ok f ->
  passes_validation (body req) f = true ->
  (forall a, spawn_throws env "python3" a = None) ->
  forallb is_output evs = true ->
  exists s,
    serve env Earlier.upload (Earlier.post_prompt_audio env) req
          (evs ++ [Error message]) = (Ok tt, s)
    /\ written (res s)
       = (map (fun d => sse (chunk_event d)) (stdout_chunks evs)
            ++ [sse (error_event message)])%list
    /\ finished (res s) = true
    /\ statusCode (res s) = 200
    /\ unframe (sse (error_event message))
       = Some (Json.stringify (error_event message)).
Proof.
  intros Hm Hv Hs Hev.
  destruct (post_prompt_audio_starts env _ _ Hv Hs)
    as (payload & _ & _ & Hstart).
  rewrite (@serve_job _ _ _ _ _ _ _ _ _ Hm Hstart eq_refl).
  rewrite deliver_app.
  rewrite (deliver_outputs_only Earlier.prompt_audio_listeners
             (fun d => sse (chunk_event d))) by (assumption || reflexivity).
  cbn [deliver dispatch Earlier.prompt_audio_listeners on_error].
  unfold bind at 1. unfold bind at 1.
  rewrite res_write_open by reflexivity.
  eexists. split; [reflexivity|].
  split; [reflexivity|]. split; [reflexivity|]. split; [reflexivity|].
  apply unframe_sse.
Qed.

Lemma prompt_audio_error_in_stream_witness :
  exists s,
    serve Sample.posix Earlier.upload (Earlier.post_prompt_audio Sample.posix)
      Sample.hi ([Stdout "a"] ++ [Error "spawn python3 ENOENT"]) = (Ok tt, s)
    /\ written (res s)
       = (map (fun d => sse (chunk_event d)) (stdout_chunks [Stdout "a"])
            ++ [sse (error_event "spawn python3 ENOENT")])%list
    /\ finished (res s) = true
    /\ statusCode (res s) = 200
    /\ unframe (sse (error_event "spawn python3 ENOENT"))
       = Some (Json.stringify (error_event "spawn python3 ENOENT")).
Proof.
  apply (prompt_audio_error_in_stream Sample.posix Sample.hi (f := None));
    reflexivity.
Defined.

(* ------------------------------------------------------------------ *)
(** ** Escaping the double quotes *)

Lemma escape_quotes_head (text : string) :
  match Earlier.escape_quotes text with
  | String c _ => Ascii.eqb c Js.dquote = false
  | EmptyString => True
  end.
Proof.
  destruct text as [|c r]; cbn [Earlier.escape_quotes]; [exact I|].
  destruct (Ascii.eqb c Js.dquote) eqn:Hc; [reflexivity|exact Hc].
Qed.

Lemma no_bare_quote_after (prev : bool) (text : string) :
  has_bare_quote prev (Earlier.escape_quotes text) = false.
Proof.
  revert prev; induction text as [|c r IH]; intros prev;
    cbn [Earlier.escape_quotes has_bare_quote]; [reflexivity|].
  destruct (Ascii.eqb c Js.dquote) eqn:Hc.
  - cbn [has_bare_quote]. rewrite IH.
    change (Ascii.eqb Js.backslash Js.dquote) with false.
    change (Ascii.eqb Js.backslash Js.backslash) with true.
    change (Ascii.eqb Js.dquote Js.dquote) with true.
    reflexivity.
  - cbn [has_bare_quote]. now rewrite Hc, IH.
Qed.

(** X10.  Escaping puts one backslash before every double quote and changes
    nothing else: the result has no double quote without a backslash before
    it, and taking those backslashes away gives the text back. *)
Theorem escape_quotes_round_trip (text : string) :
  unescape_quotes (Earlier.escape_quotes text) = text
  /\ has_bare_quote false (Earlier.escape_quotes text) = false.
Proof.
  split; [|apply no_bare_quote_after].
  induction text as [|c r IH]; [reflexivity|].
  cbn [Earlier.escape_quotes].
  destruct (Ascii.eqb c Js.dquote) eqn:Hc.
  - apply Ascii.eqb_eq in Hc. subst c.
    cbn [unescape_quotes].
    change (Ascii.eqb Js.backslash Js.backslash) with true.
    change (Ascii.eqb Js.dquote Js.dquote) with true.
    cbn [andb]. now rewrite IH.
  - pose proof (escape_quotes_head r) as Hh.
    cbn [unescape_quotes].
    destruct (Earlier.escape_quotes r) as [|c' r'] eqn:Hr.
    + now rewrite <- IH.
    + rewrite Hh, andb_false_r. now rewrite IH.
Qed.

(* ------------------------------------------------------------------ *)
(** ** Reading an attachment back *)

(** Division and remainder by constants, on [nat]. *)
Ltac nat_division := zify; Z.div_mod_to_equations; lia.

Lemma sextet_value_sextet (n : nat) :
  (n < 64)%nat ->
  sextet_value (Buffer.sextet n) = Some n /\ is_pad (Buffer.sextet n) = false.
Proof.
  intros H.
  do 64 (destruct n as [|n]; [split; reflexivity|]). lia.
Qed.

Lemma byte_bound (a : ascii) : (nat_of_ascii a < 256)%nat.
Proof. destruct a as [[] [] [] [] [] [] [] []]; vm_compute; lia. Qed.

(** X11.  The base64 text of an attachment determines the attachment:
    decoding it gives the bytes back, whatever their number. *)
Theorem base64_round_trip (buf : Buffer.t) :
  decode_base64 (Buffer.base64 buf) = Some buf.
Proof.
  revert buf. fix IH 1.
  intros [|a [|b [|c r]]]; cbn [Buffer.base64].
  - reflexivity.
  - pose proof (byte_bound a) as Ha.
    set (x := nat_of_ascii a) in *.
    cbn [decode_base64].
    destruct (@sextet_value_sextet (x / 4)
                ltac:(nat_division)) as [-> _].
    destruct (@sextet_value_sextet (x mod 4 * 16)
                ltac:(nat_division)) as [-> _].
    change (is_pad "="%char) with true. cbv iota.
    replace (x / 4 * 4 + x mod 4 * 16 / 16)%nat with x
      by (nat_division).
    subst x. now rewrite ascii_nat_embedding.
  - pose proof (byte_bound a) as Ha. pose proof (byte_bound b) as Hb.
    set (x := nat_of_ascii a) in *. set (y := nat_of_ascii b) in *.
    cbn [decode_base64].
    destruct (@sextet_value_sextet (x / 4)
                ltac:(nat_division)) as [-> _].
    destruct (@sextet_value_sextet (x mod 4 * 16 + y / 16)
                ltac:(nat_division)) as [-> _].
    destruct (@sextet_value_sextet (y mod 16 * 4)
                ltac:(nat_division)) as [-> ->].
    change (is_pad "="%char) with true. cbv iota.
    replace (x / 4 * 4 + (x mod 4 * 16 + y / 16) / 16)%nat with x
      by (nat_division).
    replace ((x mod 4 * 16 + y / 16) mod 16 * 16 + y mod 16 * 4 / 4)%nat with y
      by (nat_division).
    subst x y. now rewrite !ascii_nat_embedding.
  - pose proof (byte_bound a) as Ha. pose proof (byte_bound b) as Hb.
    pose proof (byte_bound c) as Hc.
    set (x := nat_of_ascii a) in *. set (y := nat_of_ascii b) in *.
    set (z := nat_of_ascii c) in *.
    cbn [decode_base64].
    destruct (@sextet_value_sextet (x / 4)
                ltac:(nat_division)) as [-> _].
    destruct (@sextet_value_sextet (x mod 4 * 16 + y / 16)
                ltac:(nat_division)) as [-> _].
    destruct (@sextet_value_sextet (y mod 16 * 4 + z / 64)
                ltac:(nat_division)) as [-> ->].
    destruct (@sextet_value_sextet (z mod 64)
                ltac:(nat_division)) as [-> ->].
    rewrite IH.
    replace (x / 4 * 4 + (x mod 4 * 16 + y / 16) / 16)%nat with x
      by (nat_division).
    replace ((x mod 4 * 16 + y / 16) mod 16 * 16
             + (y mod 16 * 4 + z / 64) / 4)%nat with y
      by (nat_division).
    replace ((y mod 16 * 4 + z / 64) mod 4 * 64 + z mod 64)%nat with z
      by (nat_division).
    subst x y z. now rewrite !ascii_nat_embedding.
Qed.

(* ================================================================== *)
(** * The embedded server and the main process *)

Lemma close_length (h : nat) (p : Server.Process) :
  List.length (Server.close h p) = List.length p.
Proof.
  revert h. induction p as [|s p IH]; intros [|h]; cbn; auto.
Qed.

Lemma close_other (h k : nat) (p : Server.Process) :
  k <> h -> nth_error (Server.close h p) k = nth_error p k.
Proof.
  revert h k. induction p as [|s p IH]; intros [|h] [|k] Hk; cbn; auto;
    congruence.
Qed.

Lemma close_last (q : Server.Process) (s : Server.HttpServer) :
  Server.close (List.length q) (q ++ [s])%list
  = (q ++ [{| Server.address := Server.address s;
              Server.listening := false; Server.closed := true |}])%list.
Proof.
  induction q as [|x q IH]; cbn; [reflexivity|]. now rewrite IH.
Qed.

Lemma run_snoc (rev : Main.Revision) (host : Main.Host)
    (evs : list Main.Event) (ev : Main.Event) :
  Main.run rev host (evs ++ [ev])
  = Main.step rev host (Main.run rev host evs) ev.
Proof.
  unfold Main.run. now rewrite fold_left_app.
Qed.

Lemma checked_keeps (host : Main.Host) (answer : Main.Access) (app : Main.App) :
  let app' := snd (Main.checkMediaPermissions host answer app) in
  Main.electronServer app' = Main.electronServer app
  /\ Main.serverPort app' = Main.serverPort app
  /\ Main.global_serverPort app' = Main.global_serverPort app
  /\ Main.global_serverUrl app' = Main.global_serverUrl app
  /\ Main.windows app' = Main.windows app
  /\ Main.quit_calls app' = Main.quit_calls app
  /\ Main.process app' = Main.process app
  /\ Main.media_prompts app'
     = (if Main.darwin host then S (Main.media_prompts app)
        else Main.media_prompts app).
Proof.
  unfold Main.checkMediaPermissions.
  destruct (Main.darwin host), answer; cbn; repeat split.
Qed.

Lemma createWindow_port_known rev host how app :
  port_known app -> port_known (Main.createWindow rev host how app).
Proof.
  intros (Hw & Hp & Hu). unfold port_known.
  destruct how as [[n|name|]|m]; cbn; repeat split; eauto.
Qed.

Lemma step_port_known rev host app ev :
  port_known app -> port_known (Main.step rev host app ev).
Proof.
  intros H. destruct ev as [how answer| | |how|]; cbn [Main.step].
  - pose proof (createWindow_port_known rev host how H) as (Hw & Hp & Hu).
    destruct (checked_keeps host answer (Main.createWindow rev host how app))
      as (_ & E2 & E3 & E4 & E5 & _).
    unfold port_known. rewrite E2, E3, E4, E5. auto.
  - destruct H as (Hw & Hp & Hu). repeat split; cbn; auto.
    intros Ht. apply Hw. intros E. rewrite E in Ht. now apply Ht.
  - destruct (Main.darwin host); [assumption|].
    destruct H as (Hw & Hp & Hu). repeat split; cbn; auto.
  - destruct (Main.windows app) eqn:E; [|assumption].
    now apply createWindow_port_known.
  - destruct (Main.electronServer app); [|assumption].
    destruct H as (Hw & Hp & Hu). repeat split; cbn; auto.
Qed.

Lemma run_port_known rev host evs : port_known (Main.run rev host evs).
Proof.
  induction evs as [|ev evs IH] using rev_ind.
  - repeat split; cbn; congruence.
  - rewrite run_snoc. now apply step_port_known.
Qed.

(** X12.  [ElectronServer.start], [stop] and [getPort] together: when the
    listen binds an address object with port [n], the promise resolves with
    [n], [getPort] answers [n], and the process has one more server, which
    listens; a [stop] after it closes that server and no other one. *)
Theorem start_then_stop (this : Server.ElectronServer) (p : Server.Process)
    (n : Z) :
  exists this' p',
    Server.start (Server.Bound (Server.AddressInfo n)) this p
    = (Server.Resolved n, this', p')
    /\ Server.getPort this' = n
    /\ List.length p' = S (List.length p)
    /\ nth_error p' (List.length p)
       = Some {| Server.address := Server.AddressInfo n;
                 Server.listening := true; Server.closed := false |}
    /\ nth_error (Server.stop this' p') (List.length p)
       = Some {| Server.address := Server.AddressInfo n;
                 Server.listening := false; Server.closed := true |}
    /\ forall k, k <> List.length p ->
         nth_error (Server.stop this' p') k = nth_error p k.
Proof.
  do 2 eexists. split; [reflexivity|].
  cbn [Server.getPort Server.port Server.stop Server.server].
  rewrite close_last. repeat split.
  - rewrite length_app. cbn. lia.
  - rewrite nth_error_app2 by lia. now rewrite Nat.sub_diag.
  - rewrite nth_error_app2 by lia. now rewrite Nat.sub_diag.
  - intros k Hk. destruct (Nat.lt_ge_cases k (List.length p)) as [Hlt|Hge].
    + now rewrite nth_error_app1.
    + rewrite nth_error_app2 by lia.
      destruct (k - List.length p)%nat as [|j] eqn:E; [lia|].
      cbn. destruct j; cbn;
        symmetry; apply nth_error_None; lia.
Qed.

(** X13.  A start that does not bind an address object never resolves with
    a port: it rejects when the callback finds a pipe name or no address,
    and stays unsettled, with an 'error' nobody listens to, when the listen
    fails.  [getPort] answers what it answered before, yet the new server
    is the one a later [stop] closes. *)
Theorem start_without_port (how : Server.Listen) (this : Server.ElectronServer)
    (p : Server.Process) :
  (forall n, how <> Server.Bound (Server.AddressInfo n)) ->
  exists settled this' p',
    Server.start how this p = (settled, this', p')
    /\ (forall n, settled <> Server.Resolved n)
    /\ (match how with
        | Server.Bound _ => settled = Server.Rejected "Failed to start server"
        | Server.ListenError m => settled = Server.Never (UnhandledError m)
        end)
    /\ Server.getPort this' = Server.getPort this
    /\ Server.server this' = Some (List.length p)
    /\ List.length p' = S (List.length p)
    /\ exists s, nth_error (Server.stop this' p') (List.length p) = Some s
                 /\ Server.closed s = true.
Proof.
  intros Hno.
  destruct how as [[n|name|]|m]; [now destruct (Hno n)| | |];
    (do 3 eexists; split; [reflexivity|];
     cbn [Server.getPort Server.port Server.stop Server.server];
     rewrite close_last;
     repeat split;
     [ discriminate
     | rewrite length_app; cbn; lia
     | eexists; split;
       [rewrite nth_error_app2 by lia; rewrite Nat.sub_diag; reflexivity
       |reflexivity] ]).
Qed.

Lemma start_without_port_witness :
  exists settled this' p',
    Server.start (Server.ListenError "listen EACCES") Server.create []
    = (settled, this', p')
    /\ (forall n, settled <> Server.Resolved n)
    /\ settled = Server.Never (UnhandledError "listen EACCES")
    /\ Server.getPort this' = Server.getPort Server.create
    /\ Server.server this' = Some 0%nat
    /\ List.length p' = 1%nat
    /\ exists s, nth_error (Server.stop this' p') 0%nat = Some s
                 /\ Server.closed s = true.
Proof.
  apply (start_without_port (how := Server.ListenError "listen EACCES")
           Server.create []).
  intros n. discriminate.
Defined.

(** X14.  After any run of the main process: a window exists only when a
    port is known, the two globals agree with [serverPort], and with a
    window open the renderer is told that port and its URL, never the text
    [undefined]. *)
Theorem window_knows_port (rev : Main.Revision) (host : Main.Host)
    (evs : list Main.Event) (answer : Main.Access) :
  let app := Main.run rev host evs in
  Main.global_serverPort app = Main.serverPort app
  /\ Main.global_serverUrl app
     = option_map (fun n => "http://localhost:" ++ Js.of_Z n)
         (Main.serverPort app)
  /\ (Main.windows app <> [] ->
      exists n,
        Preload.getServerPort rev host answer app
        = (Preload.Replied (Main.Port (Some n)), app)
        /\ Preload.getServerUrl rev host answer app
           = (Preload.Replied (Main.Text ("http://localhost:" ++ Js.of_Z n)),
              app)).
Proof.
  intros app. destruct (run_port_known rev host evs) as (Hw & Hp & Hu).
  fold app in Hw, Hp, Hu. repeat split; [assumption|assumption|].
  intros Hwin. destruct (Hw Hwin) as (n & Hn). exists n.
  unfold Preload.getServerPort, Preload.getServerUrl, Preload.invoke,
    Main.handle.
  cbn [String.eqb Ascii.eqb Bool.eqb]. rewrite Hn. split; reflexivity.
Qed.

Lemma createWindow_process rev host how app :
  exists s es,
    Main.process (Main.createWindow rev host how app)
    = (Main.process app ++ [s])%list
    /\ Main.electronServer (Main.createWindow rev host how app) = Some es
    /\ Server.server es = Some (List.length (Main.process app))
    /\ Server.closed s = false
    /\ (binds (Main.Activate how) = true -> Server.listening s = true).
Proof.
  destruct how as [[n|name|]|m]; cbn; do 2 eexists; repeat split;
    discriminate.
Qed.

Lemma step_holds_latest rev host app ev :
  holds_latest app -> holds_latest (Main.step rev host app ev).
Proof.
  intros H. destruct ev as [how answer| | |how|]; cbn [Main.step].
  - destruct (createWindow_process rev host how app)
      as (s & es & Hp & He & Hs & _).
    destruct (checked_keeps host answer (Main.createWindow rev host how app))
      as (E1 & _ & _ & _ & _ & _ & E7 & _).
    unfold holds_latest. rewrite E1, E7, He. eauto.
  - exact H.
  - destruct (Main.darwin host); exact H.
  - destruct (Main.windows app); [|exact H].
    destruct (createWindow_process rev host how app)
      as (s & es & Hp & He & Hs & _).
    unfold holds_latest. rewrite He. eauto.
  - unfold holds_latest in *.
    destruct (Main.electronServer app) as [es|] eqn:E; cbn; try rewrite E;
      [|exact H].
    destruct H as (q & s & Hp & Hs). unfold Server.stop.
    rewrite Hs, Hp, close_last. eauto.
Qed.

Lemma run_holds_latest rev host evs : holds_latest (Main.run rev host evs).
Proof.
  induction evs as [|ev evs IH] using rev_ind.
  - reflexivity.
  - rewrite run_snoc. now apply step_holds_latest.
Qed.

Lemma step_never_closed rev host app ev (P : Server.HttpServer -> Prop) :
  not_before_quit ev = true ->
  (forall how s, ev = Main.Activate how \/ (exists a, ev = Main.Ready how a) ->
     Server.closed s = false ->
     (binds (Main.Activate how) = true -> Server.listening s = true) ->
     P s) ->
  Forall P (Main.process app) ->
  Forall P (Main.process (Main.step rev host app ev)).
Proof.
  intros Hq HP H. destruct ev as [how answer| | |how|]; cbn [Main.step].
  - destruct (createWindow_process rev host how app)
      as (s & es & Hp & _ & _ & Hc & Hl).
    destruct (checked_keeps host answer (Main.createWindow rev host how app))
      as (_ & _ & _ & _ & _ & _ & E7 & _).
    rewrite E7, Hp. apply Forall_app. split; [assumption|].
    constructor; [|constructor]. apply (HP how); eauto.
  - exact H.
  - destruct (Main.darwin host); exact H.
  - destruct (Main.windows app); [|exact H].
    destruct (createWindow_process rev host how app)
      as (s & es & Hp & _ & _ & Hc & Hl).
    rewrite Hp. apply Forall_app. split; [assumption|].
    constructor; [|constructor]. apply (HP how); eauto.
  - discriminate Hq.
Qed.

Lemma run_never_closed rev host evs :
  forallb not_before_quit evs = true ->
  Forall never_closed (Main.process (Main.run rev host evs)).
Proof.
  induction evs as [|ev evs IH] using rev_ind; intros H.
  - constructor.
  - rewrite forallb_app in H. apply andb_prop in H as [H1 H2].
    cbn in H2. rewrite andb_true_r in H2.
    rewrite run_snoc. apply step_never_closed; auto.
Qed.

Lemma run_all_listening rev host evs :
  forallb not_before_quit evs = true ->
  forallb binds evs = true ->
  Forall (fun s => Server.listening s = true)
    (Main.process (Main.run rev host evs)).
Proof.
  induction evs as [|ev evs IH] using rev_ind; intros H Hb.
  - constructor.
  - rewrite forallb_app in H, Hb.
    apply andb_prop in H as [H1 H2]. apply andb_prop in Hb as [Hb1 Hb2].
    cbn in H2, Hb2. rewrite andb_true_r in H2, Hb2.
    rewrite run_snoc. apply step_never_closed; auto.
    intros how s [->|[a ->]] _ Hl; apply Hl; exact Hb2.
Qed.

Lemma open_all (p : Server.Process) :
  Forall (fun s => Server.listening s = true) p ->
  open_servers p = List.length p.
Proof.
  unfold open_servers. induction 1 as [|s p Hs _ IH]; cbn; [reflexivity|].
  rewrite Hs. cbn. now rewrite IH.
Qed.

Lemma count_snoc (f : Main.Event -> bool) evs ev :
  count f (evs ++ [ev]) = (count f evs + if f ev then 1 else 0)%nat.
Proof.
  unfold count. rewrite filter_app, length_app. cbn.
  now destruct (f ev).
Qed.

(** X15.  Servers outlive the application.  Every [createWindow] starts a
    server of its own, and nothing closes one before 'before-quit', which
    closes the one started last and no other: of the servers started in a
    run whose listens all bind, all but one still listen after it. *)
Theorem servers_outlive_quit (rev : Main.Revision) (host : Main.Host)
    (evs : list Main.Event) :
  forallb not_before_quit evs = true ->
  let before := Main.process (Main.run rev host evs) in
  let after := Main.process (Main.run rev host (evs ++ [Main.BeforeQuit])) in
  Forall never_closed before
  /\ List.length after = List.length before
  /\ Forall never_closed (removelast after)
  /\ (forallb binds evs = true ->
      open_servers before = List.length before
      /\ open_servers after = pred (List.length before)).
Proof.
  intros Hq before after.
  pose proof (run_never_closed rev host evs Hq) as Hn. fold before in Hn.
  pose proof (run_holds_latest rev host evs) as Hl.
  assert (Hafter : after = before
                   \/ exists q s s', before = (q ++ [s])%list
                                     /\ after = (q ++ [s'])%list
                                     /\ Server.listening s' = false).
  { unfold after. rewrite run_snoc. cbn [Main.step].
    unfold holds_latest in Hl.
    destruct (Main.electronServer (Main.run rev host evs)) as [es|];
      [|now left].
    destruct Hl as (q & s & Hp & Hs). right. cbn [Main.process].
    unfold Server.stop. rewrite Hs. unfold before. rewrite Hp, close_last.
    do 3 eexists. repeat split. }
  split; [assumption|].
  destruct Hafter as [E|(q & s & s' & Eb & Ea & Hs')].
  - rewrite E. repeat split.
    + clear -Hn. induction Hn as [|x l Hx Hl IH]; [constructor|].
      destruct l; [constructor|]. cbn [removelast].
      constructor; [assumption|]. exact IH.
    + apply open_all. now apply run_all_listening.
    + assert (Hempty : before = []).
      { unfold after in E. rewrite run_snoc in E. cbn [Main.step] in E.
        unfold holds_latest in Hl.
        destruct (Main.electronServer (Main.run rev host evs)) as [es|].
        - destruct Hl as (q & s & Hp & Hs). cbn [Main.process] in E.
          unfold Server.stop in E. rewrite Hs in E. unfold before in E.
          rewrite Hp, close_last in E. apply app_inv_head in E.
          injection E as E. unfold before in Hn. rewrite Hp in Hn.
          apply Forall_app in Hn as [_ Hn]. inversion Hn as [|? ? Hc _].
          unfold never_closed in Hc. rewrite <- E in Hc. discriminate Hc.
        - exact Hl. }
      rewrite Hempty. reflexivity.
  - rewrite Ea, Eb in *. repeat split.
    + rewrite !length_app. reflexivity.
    + rewrite removelast_last. now apply Forall_app in Hn as [Hn _].
    + apply open_all. rewrite <- Eb. now apply run_all_listening.
    + rewrite length_app. pose proof (run_all_listening rev host evs Hq H) as Ha.
      fold before in Ha. rewrite Eb in Ha. apply Forall_app in Ha as [Ha _].
      unfold open_servers. rewrite filter_app, length_app. cbn. rewrite Hs'.
      cbn. fold (open_servers q). rewrite (open_all Ha). lia.
Qed.

Lemma servers_outlive_quit_witness :
  let before := Main.process
                  (Main.run Main.WithDevTools Scene.mac Scene.reopened) in
  let after := Main.process
                 (Main.run Main.WithDevTools Scene.mac
                    (Scene.reopened ++ [Main.BeforeQuit])) in
  Forall never_closed before
  /\ List.length after = List.length before
  /\ Forall never_closed (removelast after)
  /\ (forallb binds Scene.reopened = true ->
      open_servers before = List.length before
      /\ open_servers after = pred (List.length before)).
Proof.
  apply (servers_outlive_quit Main.WithDevTools Scene.mac Scene.reopened).
  reflexivity.
Defined.

(** X16.  [app.quit()] is asked for only by a squirrel start, by a start
    of the server that is rejected, and, off macOS, by 'window-all-closed':
    in a run whose listens all bind, macOS never quits on its own and any
    other platform quits once for every 'window-all-closed'. *)
Theorem quit_only_off_mac (rev : Main.Revision) (host : Main.Host)
    (evs : list Main.Event) :
  forallb binds evs = true ->
  Main.quit_calls (Main.run rev host evs)
  = ((if Main.started host then 1 else 0)
     + (if Main.darwin host then 0 else count is_window_all_closed evs))%nat.
Proof.
  induction evs as [|ev evs IH] using rev_ind; intros Hb.
  - cbn. unfold count. cbn. destruct (Main.darwin host); lia.
  - rewrite forallb_app in Hb. apply andb_prop in Hb as [Hb1 Hb2].
    cbn in Hb2. rewrite andb_true_r in Hb2. specialize (IH Hb1).
    rewrite run_snoc, count_snoc.
    destruct ev as [how answer| | |how|]; cbn [Main.step is_window_all_closed].
    + destruct (checked_keeps host answer
                  (Main.createWindow rev host how (Main.run rev host evs)))
        as (_ & _ & _ & _ & _ & E6 & _).
      rewrite E6.
      destruct how as [[n|name|]|m]; try discriminate Hb2.
      cbn. rewrite IH. destruct (Main.darwin host); lia.
    + cbn. rewrite IH. destruct (Main.darwin host); lia.
    + destruct (Main.darwin host); cbn; rewrite IH; lia.
    + destruct (Main.windows (Main.run rev host evs)).
      * destruct how as [[n|name|]|m]; try discriminate Hb2.
        cbn. rewrite IH. destruct (Main.darwin host); lia.
      * rewrite IH. destruct (Main.darwin host); lia.
    + destruct (Main.electronServer (Main.run rev host evs)); cbn;
        rewrite IH; destruct (Main.darwin host); lia.
Qed.

Lemma quit_only_off_mac_witness :
  Main.quit_calls (Main.run Main.WithMicrophone Scene.pc Scene.reopened)
  = ((if Main.started Scene.pc then 1 else 0)
     + (if Main.darwin Scene.pc then 0
        else count is_window_all_closed Scene.reopened))%nat.
Proof.
  apply (quit_only_off_mac Main.WithMicrophone Scene.pc Scene.reopened).
  reflexivity.
Defined.

(** X17.  The main process asks for the microphone by itself once for
    every 'ready' on macOS, and never on another platform; no other event
    of the application asks. *)
Theorem launch_asks_only_on_mac (rev : Main.Revision) (host : Main.Host)
    (evs : list Main.Event) :
  Main.media_prompts (Main.run rev host evs)
  = if Main.darwin host then count is_ready evs else 0%nat.
Proof.
  induction evs as [|ev evs IH] using rev_ind.
  - cbn. now destruct (Main.darwin host).
  - rewrite run_snoc, count_snoc.
    destruct ev as [how answer| | |how|]; cbn [Main.step is_ready].
    + destruct (checked_keeps host answer
                  (Main.createWindow rev host how (Main.run rev host evs)))
        as (_ & _ & _ & _ & _ & _ & _ & E8).
      rewrite E8.
      replace (Main.media_prompts
                 (Main.createWindow rev host how (Main.run rev host evs)))
        with (Main.media_prompts (Main.run rev host evs))
        by (destruct how as [[n|name|]|m]; reflexivity).
      rewrite IH. destruct (Main.darwin host); lia.
    + cbn. rewrite IH. destruct (Main.darwin host); lia.
    + destruct (Main.darwin host); cbn; rewrite IH; lia.
    + destruct (Main.windows (Main.run rev host evs)).
      * replace (Main.media_prompts
                   (Main.createWindow rev host how (Main.run rev host evs)))
          with (Main.media_prompts (Main.run rev host evs))
          by (destruct how as [[n|name|]|m]; reflexivity).
        rewrite IH. destruct (Main.darwin host); lia.
      * rewrite IH. destruct (Main.darwin host); lia.
    + destruct (Main.electronServer (Main.run rev host evs)); cbn;
        rewrite IH; destruct (Main.darwin host); lia.
Qed.

(** X18.  The answer on the channel [request-microphone-access], in the
    revision that has it: [success] is false exactly when asking macOS
    failed; [microphone] is true exactly when the message is the one of a
    grant; off macOS the answer is always a grant and nobody is asked;
    and but for the count of askings the application is as before. *)
Theorem microphone_answer (host : Main.Host) (answer : Main.Access)
    (app : Main.App) :
  exists success microphone message app',
    Main.handle Main.WithMicrophone host "request-microphone-access"
      answer app
    = Some (Main.Microphone success microphone message, app')
    /\ (success = false
        <-> Main.darwin host = true /\ exists m, answer = Main.AskFails m)
    /\ (microphone = true <-> message = "Microphone access granted")
    /\ (microphone = true
        <-> Main.darwin host = false \/ answer = Main.Granted)
    /\ (Main.darwin host = false -> app' = app)
    /\ Main.media_prompts app'
       = (if Main.darwin host then S (Main.media_prompts app)
          else Main.media_prompts app)
    /\ Main.serverPort app' = Main.serverPort app
    /\ Main.windows app' = Main.windows app
    /\ Main.process app' = Main.process app
    /\ Main.quit_calls app' = Main.quit_calls app.
Proof.
  unfold Main.handle. cbn [String.eqb Ascii.eqb Bool.eqb].
  unfold Main.checkMediaPermissions.
  destruct (Main.darwin host); [destruct answer as [| |m]|];
    do 4 eexists; (split; [reflexivity|]); cbn;
    repeat split; try discriminate; try reflexivity;
    intuition (try discriminate; try congruence; eauto);
    repeat match goal with
           | H : exists _, _ |- _ => destruct H
           end; try discriminate.
Qed.

(** X19.  The channels the main process answers: the two of the server in
    both revisions, the one of the microphone only in the revision that
    registers it, and no other.  So [requestMicrophoneAccess] of the
    preload script finds no handler in the revision kept under [src/]. *)
Theorem answered_channels (rev : Main.Revision) (host : Main.Host)
    (channel : string) (answer : Main.Access) (app : Main.App) :
  ((exists reply app',
      Preload.invoke rev host channel answer app
      = (Preload.Replied reply, app'))
   <-> channel = "get-server-port" \/ channel = "get-server-url"
       \/ (channel = "request-microphone-access"
           /\ rev = Main.WithMicrophone))
  /\ Preload.requestMicrophoneAccess Main.WithDevTools host answer app
     = (Preload.NoHandler "request-microphone-access", app).
Proof.
  split; [|reflexivity].
  unfold Preload.invoke, Main.handle.
  destruct (String.eqb_spec channel "get-server-port") as [->|N1].
  { split; eauto. }
  destruct (String.eqb_spec channel "get-server-url") as [->|N2].
  { split; eauto. }
  destruct (String.eqb_spec channel "request-microphone-access") as [->|N3].
  - destruct rev.
    + split; [intros (r & a & H); discriminate H|].
      intros [H|[H|[_ H]]]; discriminate H.
    + split; [auto|]. intros _.
      destruct (Main.checkMediaPermissions host answer app) as [[m|e] app'];
        eauto.
  - split; [intros (r & a & H); discriminate H|].
    intros [H|[H|[H _]]]; contradiction.
Qed.

(** X20.  While no listen has bound an address object there is no window
    and no port: the renderer, if it could ask, would be told the URL
    [http://localhost:undefined], and the globals are not set. *)
Theorem no_port_no_window (rev : Main.Revision) (host : Main.Host)
    (evs : list Main.Event) (answer : Main.Access) :
  forallb never_binds evs = true ->
  let app := Main.run rev host evs in
  Main.windows app = []
  /\ Main.serverPort app = None
  /\ Main.global_serverPort app = None
  /\ Main.global_serverUrl app = None
  /\ Preload.getServerUrl rev host answer app
     = (Preload.Replied (Main.Text "http://localhost:undefined"), app).
Proof.
  intros Hb app.
  assert (H : Main.windows app = [] /\ Main.serverPort app = None).
  { unfold app. clear app.
    induction evs as [|ev evs IH] using rev_ind; [split; reflexivity|].
    rewrite forallb_app in Hb. apply andb_prop in Hb as [Hb1 Hb2].
    cbn in Hb2. rewrite andb_true_r in Hb2.
    destruct (IH Hb1) as [Hw Hp]. rewrite run_snoc.
    destruct ev as [how a| | |how|]; cbn [Main.step].
    - destruct (checked_keeps host a
                  (Main.createWindow rev host how (Main.run rev host evs)))
        as (_ & E2 & _ & _ & E5 & _).
      rewrite E2, E5.
      destruct how as [[n|name|]|m]; try discriminate Hb2; cbn; auto.
    - cbn. rewrite Hw. auto.
    - destruct (Main.darwin host); cbn; auto.
    - rewrite Hw.
      destruct how as [[n|name|]|m]; try discriminate Hb2; cbn; auto.
    - destruct (Main.electronServer (Main.run rev host evs)); cbn; auto. }
  destruct H as [Hw Hp].
  destruct (run_port_known rev host evs) as (_ & Hgp & Hgu).
  fold app in Hgp, Hgu. rewrite Hp in Hgp, Hgu.
  repeat split; try assumption.
  unfold Preload.getServerUrl, Preload.invoke, Main.handle.
  cbn [String.eqb Ascii.eqb Bool.eqb]. now rewrite Hp.
Qed.

Lemma no_port_no_window_witness :
  let app := Main.run Main.WithDevTools Scene.pc
               [Main.Ready (Server.ListenError "listen EACCES") Main.Granted;
                Main.Activate (Server.Bound (Server.PipeName "pipe"))] in
  Main.windows app = []
  /\ Main.serverPort app = None
  /\ Main.global_serverPort app = None
  /\ Main.global_serverUrl app = None
  /\ Preload.getServerUrl Main.WithDevTools Scene.pc Main.Denied app
     = (Preload.Replied (Main.Text "http://localhost:undefined"), app).
Proof.
  apply (no_port_no_window Main.WithDevTools Scene.pc
           [Main.Ready (Server.ListenError "listen EACCES") Main.Granted;
            Main.Activate (Server.Bound (Server.PipeName "pipe"))]
           Main.Denied).
  reflexivity.
Defined.

(** X21.  [/prompt-audio] listens to the request's 'close': when the
    client leaves, the child is sent one signal; the response is left as it
    was, with the chunks written so far and not ended, and it is for the
    child's own 'close' to end it. *)
Theorem prompt_audio_leave_signals_once (env : Env) (req : Req)
    (f : option File) (evs : list Event) (code : option Z) :
  single env Earlier.upload (part req) = Ok f ->
  passes_validation (body req) f = true ->
  (forall file args, spawn_throws env file args = None) ->
  forallb is_output evs = true ->
  (exists s c,
     serve env Earlier.upload (Earlier.post_prompt_audio env) req
           (evs ++ [ReqClose]) = (Ok tt, s)
     /\ child s = Some c
     /\ kills c = 1%nat
     /\ written (res s) = map (fun d => sse (chunk_event d)) (stdout_chunks evs)
     /\ finished (res s) = false)
  /\ (exists s c,
       serve env Earlier.upload (Earlier.post_prompt_audio env) req
             (evs ++ [ReqClose; Close code]) = (Ok tt, s)
       /\ child s = Some c
       /\ kills c = 1%nat
       /\ written (res s)
          = (map (fun d => sse (chunk_event d)) (stdout_chunks evs)
               ++ [sse (complete_event code)])%list
       /\ finished (res s) = true).
Proof.
  intros Hm Hv Hs Hev.
  destruct (passes_validation_inv _ _ Hv)
    as (i & m & len & lenm & Hi & Hmm & Hpi & Hpm & Hli & Hlm & Hsome).
  split;
    (unfold serve; rewrite Hm;
     unfold Earlier.post_prompt_audio; rewrite Hi, Hmm;
     unfold bind at 1; unfold ret at 1;
     unfold bind at 1; unfold ret at 1;
     unfold bind at 1; rewrite (nothing_to_do_false _ _ _ _ Hli Hsome);
     unfold try_catch, spawn; rewrite Hs;
     cbn -[deliver Json.stringify Earlier.escape_quotes];
     rewrite deliver_app;
     rewrite (deliver_outputs_only Earlier.prompt_audio_listeners
                (fun d => sse (chunk_event d)))
       by (assumption || reflexivity);
     do 2 eexists; (split; [reflexivity|]); repeat split;
     cbn; now rewrite ?app_nil_r).
Qed.

Lemma prompt_audio_leave_signals_once_witness :
  (exists s c,
     serve Sample.posix Earlier.upload (Earlier.post_prompt_audio Sample.posix)
           Sample.hi ([Stdout "a"] ++ [ReqClose]) = (Ok tt, s)
     /\ child s = Some c
     /\ kills c = 1%nat
     /\ written (res s)
        = map (fun d => sse (chunk_event d)) (stdout_chunks [Stdout "a"])
     /\ finished (res s) = false)
  /\ (exists s c,
       serve Sample.posix Earlier.upload
             (Earlier.post_prompt_audio Sample.posix)
             Sample.hi ([Stdout "a"] ++ [ReqClose; Close (Some 0)])
       = (Ok tt, s)
       /\ child s = Some c
       /\ kills c = 1%nat
       /\ written (res s)
          = (map (fun d => sse (chunk_event d)) (stdout_chunks [Stdout "a"])
               ++ [sse (complete_event (Some 0))])%list
       /\ finished (res s) = true).
Proof.
  apply (@prompt_audio_leave_signals_once Sample.posix Sample.hi None
           [Stdout "a"] (Some 0)); reflexivity.
Defined.
